(** * Verification of the IMU driver (interface_lib/src/device_imu.c)

    A shallow embedding of the framing protocol, the bit-packing codecs,
    the iron-offset estimator and the session functions
    [device_imu_open], [device_imu_read] and [device_imu_calibrate].

    Conventions.
    - A byte is a [Z] in [0, 256); a buffer is a [list Z].
    - Fixed-width C integers are [Z] with the wrap-around written out
      ([CInt.to_uint16], [CInt.to_int16], ...).
    - The host is little-endian (the driver targets macOS on x86-64 and
      arm64), so [htole16], [htole32] and [le64toh] are identities on
      values and a packed struct is laid out least significant byte first.
    - [float] is IEEE 754 binary32 and [double] binary64, both taken from
      the Standard Library's executable specification [SpecFloat]. *)

From Stdlib Require Import ZArith List Bool Lia String.
From Stdlib Require Import Floats.SpecFloat.
Import ListNotations.
Open Scope Z_scope.

(* ================================================================= *)
(** ** C integer conversions *)

Module CInt.

Definition to_uint8 (z : Z) : Z := z mod 2^8.
Definition to_uint16 (z : Z) : Z := z mod 2^16.
Definition to_uint32 (z : Z) : Z := z mod 2^32.
Definition to_uint64 (z : Z) : Z := z mod 2^64.

(** Conversion of an unsigned pattern to the signed type of the same
    width (two's complement). *)
Definition to_int16 (z : Z) : Z :=
  let u := to_uint16 z in if u <? 2^15 then u else u - 2^16.
Definition to_int32 (z : Z) : Z :=
  let u := to_uint32 z in if u <? 2^31 then u else u - 2^32.

(** Little-endian encodings, as the packed structs store them. *)
Definition le16 (z : Z) : list Z :=
  [to_uint8 z; to_uint8 (Z.shiftr z 8)].
Definition le32 (z : Z) : list Z :=
  [to_uint8 z; to_uint8 (Z.shiftr z 8);
   to_uint8 (Z.shiftr z 16); to_uint8 (Z.shiftr z 24)].

(** [p[i]] for a byte pointer [p]. *)
Definition byte_at (data : list Z) (i : nat) : Z := nth i data 0.

Definition of_le16 (b : list Z) : Z :=
  byte_at b 0 + 2^8 * byte_at b 1.
Definition of_le32 (b : list Z) : Z :=
  byte_at b 0 + 2^8 * byte_at b 1 + 2^16 * byte_at b 2 + 2^24 * byte_at b 3.

Definition is_byte (b : Z) : Prop := 0 <= b < 256.

End CInt.
Import CInt.

(* ================================================================= *)
(** ** Bit-packing codecs (device_imu.c, lines 462-491) *)

Definition pack32bit_signed (data : list Z) : Z :=
  let unsigned_value :=
    to_uint32 (Z.lor (Z.lor (Z.lor (byte_at data 0)
                                   (Z.shiftl (byte_at data 1) 8))
                            (Z.shiftl (byte_at data 2) 16))
                     (Z.shiftl (byte_at data 3) 24)) in
  to_int32 unsigned_value.

Definition pack24bit_signed (data : list Z) : Z :=
  let unsigned_value :=
    to_uint32 (Z.lor (Z.lor (byte_at data 0)
                            (Z.shiftl (byte_at data 1) 8))
                     (Z.shiftl (byte_at data 2) 16)) in
  let unsigned_value :=
    if negb (Z.land (byte_at data 2) 0x80 =? 0)
    then to_uint32 (Z.lor unsigned_value (Z.shiftl 0xFF 24))
    else unsigned_value in
  to_int32 unsigned_value.

Definition pack16bit_signed (data : list Z) : Z :=
  let unsigned_value :=
    to_uint16 (Z.lor (Z.shiftl (byte_at data 1) 8) (byte_at data 0)) in
  to_int16 unsigned_value.

Definition pack32bit_signed_swap (data : list Z) : Z :=
  let unsigned_value :=
    to_uint32 (Z.lor (Z.lor (Z.lor (Z.shiftl (byte_at data 0) 24)
                                   (Z.shiftl (byte_at data 1) 16))
                            (Z.shiftl (byte_at data 2) 8))
                     (byte_at data 3)) in
  to_int32 unsigned_value.

Definition pack16bit_signed_swap (data : list Z) : Z :=
  let unsigned_value :=
    to_uint16 (Z.lor (Z.shiftl (byte_at data 0) 8) (byte_at data 1)) in
  to_int16 unsigned_value.

Definition pack16bit_signed_bizarre (data : list Z) : Z :=
  let unsigned_value :=
    to_uint16 (Z.lor (byte_at data 0)
                     (Z.shiftl (Z.lxor (byte_at data 1) 0x80) 8)) in
  to_int16 unsigned_value.

(** The signed 16-bit value whose little-endian bytes are [lo], [hi]:
    the decoding the specification compares the bizarre codec with. *)
Definition int16_le (lo hi : Z) : Z :=
  let u := lo + 256 * hi in if u <? 32768 then u else u - 65536.

(* ================================================================= *)
(** ** Floating point: C [float] and [double] *)

Module F32.

Definition prec : Z := 24.
Definition emax : Z := 128.

Definition add : spec_float -> spec_float -> spec_float := SFadd prec emax.
Definition sub : spec_float -> spec_float -> spec_float := SFsub prec emax.
Definition mul : spec_float -> spec_float -> spec_float := SFmul prec emax.
Definition div : spec_float -> spec_float -> spec_float := SFdiv prec emax.

(** [x < y] and [x > y] of C: false as soon as an operand is a NaN. *)
Definition ltb (x y : spec_float) : bool := SFltb x y.
Definition gtb (x y : spec_float) : bool := SFltb y x.

Definition isnan (x : spec_float) : bool :=
  match x with S754_nan => true | _ => false end.

Definition isfinite (x : spec_float) : bool :=
  match x with S754_zero _ | S754_finite _ _ _ => true | _ => false end.

(** [(float) z] for an integer [z], rounding to nearest even. *)
Definition of_Z (z : Z) : spec_float := binary_normalize prec emax z 0 false.

(** [(float) d] for a [double] [d]. *)
Definition of_double (d : spec_float) : spec_float :=
  match d with
  | S754_finite s m e => binary_normalize prec emax (cond_Zopp s (Zpos m)) e s
  | _ => d
  end.

Definition zero : spec_float := S754_zero false.
Definition one : spec_float := of_Z 1.
Definition two : spec_float := of_Z 2.
Definition infinity : spec_float := S754_infinity false.

(** <float.h>: [FLT_MIN] is the least positive normal number 2^-126 and
    [FLT_MAX] the greatest finite number (2^24 - 1) * 2^104. *)
Definition FLT_MIN : spec_float := S754_finite false 8388608 (-149).
Definition FLT_MAX : spec_float := S754_finite false 16777215 104.

(** A decimal literal [n / d] with [n] and [d] exactly representable:
    the correctly rounded quotient is the nearest [float]. *)
Definition literal (n d : Z) : spec_float := div (of_Z n) (of_Z d).

End F32.

Module F64.

Definition prec : Z := 53.
Definition emax : Z := 1024.

Definition div : spec_float -> spec_float -> spec_float := SFdiv prec emax.
Definition of_Z (z : Z) : spec_float := binary_normalize prec emax z 0 false.

End F64.

Definition float : Type := spec_float.

(** [GRAVITY_G] (9.806f). *)
Definition GRAVITY_G : float := F32.literal 9806 1000.

(* ================================================================= *)
(** ** Fusion value types *)

(** Modelled from the spec: the Fusion headers (FusionMath.h, FusionAxes.h)
    are not part of the source tree; section 3 of the specification gives
    the shapes (3-vector, 3x3 matrix, 4-component quaternion) and section
    4.4 the constants (zero vector, vector of ones, identity matrix). *)
Record FusionVector : Type := mkFusionVector {
  axis_x : float;
  axis_y : float;
  axis_z : float
}.

Record FusionMatrix : Type := mkFusionMatrix {
  element_xx : float; element_xy : float; element_xz : float;
  element_yx : float; element_yy : float; element_yz : float;
  element_zx : float; element_zy : float; element_zz : float
}.

Record FusionQuaternion : Type := mkFusionQuaternion {
  element_w : float;
  element_x : float;
  element_y : float;
  element_z : float
}.

Definition FUSION_VECTOR_ZERO : FusionVector :=
  mkFusionVector F32.zero F32.zero F32.zero.

Definition FUSION_VECTOR_ONES : FusionVector :=
  mkFusionVector F32.one F32.one F32.one.

Definition FUSION_IDENTITY_MATRIX : FusionMatrix :=
  mkFusionMatrix F32.one F32.zero F32.zero
                 F32.zero F32.one F32.zero
                 F32.zero F32.zero F32.one.

Definition FUSION_IDENTITY_QUATERNION : FusionQuaternion :=
  mkFusionQuaternion F32.one F32.zero F32.zero F32.zero.

(** The two axis alignments the driver passes to [FusionAxesSwap]. *)
Inductive FusionAxesAlignment : Type :=
  | FusionAxesAlignmentNXNZNY
  | FusionAxesAlignmentPZPXPY.

Inductive FusionConvention : Type :=
  | FusionConventionNwu
  | FusionConventionEnu
  | FusionConventionNed.

Record FusionAhrsSettings : Type := mkFusionAhrsSettings {
  convention : FusionConvention;
  gain : float;
  accelerationRejection : float;
  magneticRejection : float;
  recoveryTriggerPeriod : Z
}.

(** The fusion engine and the vector helpers of the Fusion library: external
    collaborators, used through their interface only. *)
Class FusionLib : Type := {
  FusionAhrs : Type;
  FusionOffset : Type;
  FusionAhrsInitialise : FusionAhrs;
  FusionAhrsSetSettings : FusionAhrs -> FusionAhrsSettings -> FusionAhrs;
  FusionAhrsUpdateNoMagnetometer :
    FusionAhrs -> FusionVector -> FusionVector -> float -> FusionAhrs;
  FusionAhrsGetQuaternion : FusionAhrs -> FusionQuaternion;
  FusionOffsetInitialise : Z -> FusionOffset;
  FusionOffsetUpdate : FusionOffset -> FusionVector -> FusionOffset * FusionVector;
  FusionQuaternionMultiply : FusionQuaternion -> FusionQuaternion -> FusionQuaternion;
  FusionQuaternionToMatrix : FusionQuaternion -> FusionMatrix;
  FusionAxesSwap : FusionVector -> FusionAxesAlignment -> FusionVector;
  FusionCalibrationInertial :
    FusionVector -> FusionMatrix -> FusionVector -> FusionVector -> FusionVector;
  FusionCalibrationMagnetic :
    FusionVector -> FusionMatrix -> FusionVector -> FusionVector;
  FusionVectorAdd : FusionVector -> FusionVector -> FusionVector;
  FusionVectorSubtract : FusionVector -> FusionVector -> FusionVector;
  FusionVectorMultiplyScalar : FusionVector -> float -> FusionVector;
  FusionRadiansToDegrees : float -> float;
  FusionDegreesToRadians : float -> float
}.

(* ================================================================= *)
(** ** The calibration record (device_imu.c, lines 51-68) *)

Record device_imu_calibration_type : Type := mkCalibration {
  gyroscopeMisalignment : FusionMatrix;
  gyroscopeSensitivity : FusionVector;
  gyroscopeOffset : FusionVector;

  accelerometerMisalignment : FusionMatrix;
  accelerometerSensitivity : FusionVector;
  accelerometerOffset : FusionVector;

  magnetometerMisalignment : FusionMatrix;
  magnetometerSensitivity : FusionVector;
  magnetometerOffset : FusionVector;

  softIronMatrix : FusionMatrix;
  hardIronOffset : FusionVector;

  noises : FusionQuaternion
}.

(** What [device_imu_reset_calibration] stores (lines 363-379): the noise
    quaternion is the identity with its [w] component cleared. *)
Definition default_calibration : device_imu_calibration_type :=
  {| gyroscopeMisalignment := FUSION_IDENTITY_MATRIX;
     gyroscopeSensitivity := FUSION_VECTOR_ONES;
     gyroscopeOffset := FUSION_VECTOR_ZERO;
     accelerometerMisalignment := FUSION_IDENTITY_MATRIX;
     accelerometerSensitivity := FUSION_VECTOR_ONES;
     accelerometerOffset := FUSION_VECTOR_ZERO;
     magnetometerMisalignment := FUSION_IDENTITY_MATRIX;
     magnetometerSensitivity := FUSION_VECTOR_ONES;
     magnetometerOffset := FUSION_VECTOR_ZERO;
     softIronMatrix := FUSION_IDENTITY_MATRIX;
     hardIronOffset := FUSION_VECTOR_ZERO;
     noises :=
       mkFusionQuaternion F32.zero
         (element_x FUSION_IDENTITY_QUATERNION)
         (element_y FUSION_IDENTITY_QUATERNION)
         (element_z FUSION_IDENTITY_QUATERNION) |}.

(* ================================================================= *)
(** ** The online iron-offset estimator (lines 531-568) *)

(** The macros [min] and [max] of lines 531-532. *)
Definition c_min (x y : float) : float := if F32.ltb x y then x else y.
Definition c_max (x y : float) : float := if F32.gtb x y then x else y.

(** The two function-local statics [max] and [min]: process-wide state. *)
Record iron_statics : Type := mkIronStatics {
  iron_max : FusionVector;
  iron_min : FusionVector
}.

Definition iron_statics_initial : iron_statics :=
  {| iron_max := mkFusionVector F32.FLT_MIN F32.FLT_MIN F32.FLT_MIN;
     iron_min := mkFusionVector F32.FLT_MAX F32.FLT_MAX F32.FLT_MAX |}.

(** The loop over [array[0..2]], that is over the axes x, y, z. *)
Definition vector_zip (f : float -> float -> float) (a b : FusionVector)
  : FusionVector :=
  mkFusionVector (f (axis_x a) (axis_x b))
                 (f (axis_y a) (axis_y b))
                 (f (axis_z a) (axis_z b)).

Definition iterate_iron_offset_estimation
    (st : iron_statics) (magnetometer : FusionVector)
  : iron_statics * FusionMatrix * FusionVector :=
  let max := vector_zip c_max (iron_max st) magnetometer in
  let min := vector_zip c_min (iron_min st) magnetometer in
  let mx := F32.div (F32.sub (axis_x max) (axis_x min)) F32.two in
  let my := F32.div (F32.sub (axis_y max) (axis_y min)) F32.two in
  let mz := F32.div (F32.sub (axis_z max) (axis_z min)) F32.two in
  let cx := F32.div (F32.add (axis_x min) (axis_x max)) F32.two in
  let cy := F32.div (F32.add (axis_y min) (axis_y max)) F32.two in
  let cz := F32.div (F32.add (axis_z min) (axis_z max)) F32.two in
  let softIronMatrix :=
    mkFusionMatrix (F32.div F32.one mx) F32.zero F32.zero
                   F32.zero (F32.div F32.one my) F32.zero
                   F32.zero F32.zero (F32.div F32.one mz) in
  let hardIronOffset := mkFusionVector cx cy cz in
  ({| iron_max := max; iron_min := min |}, softIronMatrix, hardIronOffset).

(** Feeding a sequence of samples, keeping the last estimate. *)
Fixpoint iron_feed (st : iron_statics) (est : FusionMatrix * FusionVector)
    (samples : list FusionVector)
  : iron_statics * (FusionMatrix * FusionVector) :=
  match samples with
  | [] => (st, est)
  | m :: rest =>
      let '(st', soft, hard) := iterate_iron_offset_estimation st m in
      iron_feed st' (soft, hard) rest
  end.

(** The estimate as the specification words it: the per-axis minimum and
    maximum over the samples observed so far (the first sample seeds both),
    then [softIron = diag (1 / ((max - min) / 2))] and
    [hardIron = (max + min) / 2]. *)
Definition running_extreme (f : float -> float -> float)
    (first : FusionVector) (rest : list FusionVector) : FusionVector :=
  fold_left (vector_zip f) rest first.

Definition iron_estimate_spec (first : FusionVector) (rest : list FusionVector)
  : FusionMatrix * FusionVector :=
  let max := running_extreme c_max first rest in
  let min := running_extreme c_min first rest in
  let half_range a b := F32.div (F32.sub a b) F32.two in
  let centre a b := F32.div (F32.add a b) F32.two in
  (mkFusionMatrix
     (F32.div F32.one (half_range (axis_x max) (axis_x min))) F32.zero F32.zero
     F32.zero (F32.div F32.one (half_range (axis_y max) (axis_y min))) F32.zero
     F32.zero F32.zero (F32.div F32.one (half_range (axis_z max) (axis_z min))),
   mkFusionVector (centre (axis_x max) (axis_x min))
                  (centre (axis_y max) (axis_y min))
                  (centre (axis_z max) (axis_z min))).

Definition vec_of_Z (x y z : Z) : FusionVector :=
  mkFusionVector (F32.of_Z x) (F32.of_Z y) (F32.of_Z z).

(** The diagonal matrix [diag (d, d, d)] and the six reference samples of
    the specification. *)
Definition diagonal (d : float) : FusionMatrix :=
  mkFusionMatrix d F32.zero F32.zero F32.zero d F32.zero F32.zero F32.zero d.

Definition iron_reference_samples : list FusionVector :=
  [vec_of_Z 1 0 0; vec_of_Z (-1) 0 0; vec_of_Z 0 1 0;
   vec_of_Z 0 (-1) 0; vec_of_Z 0 0 1; vec_of_Z 0 0 (-1)].

(* ================================================================= *)
(** ** The HID transport *)

(** hidapi is an external collaborator.  A device is modelled by what its
    successive reads and writes will return, together with a log of what
    the driver asked for.  A read pops one input report (an empty report
    is a read that returned no data); a write pops one outcome.  When the
    script is exhausted the device is gone and every call returns -1. *)
Inductive hid_input : Type :=
  | HidReadError
  | HidReport (bytes : list Z).

(** hidapi's contract for [hid_write]: the number of bytes written, at
    most the number offered, or -1. *)
Inductive hid_output : Type :=
  | HidWriteError
  | HidAccept (at_most : nat).

Record hid_device : Type := mkHid {
  hid_inputs : list hid_input;
  hid_outputs : list hid_output;
  hid_written : list (list Z);
  hid_requested : list Z
}.

Definition hid_write_result (o : hid_output) (length : Z) : Z :=
  match o with
  | HidWriteError => -1
  | HidAccept k => Z.min (Z.of_nat k) (Z.max 0 length)
  end.

Definition hid_write (h : hid_device) (data : list Z) (length : Z)
  : Z * hid_device :=
  let o := hd HidWriteError (hid_outputs h) in
  (hid_write_result o length,
   {| hid_inputs := hid_inputs h;
      hid_outputs := tl (hid_outputs h);
      hid_written := hid_written h ++ [firstn (Z.to_nat length) data];
      hid_requested := hid_requested h |}).

(** [memcpy]-like overwrite of the front of a buffer. *)
Definition overwrite (buf src : list Z) : list Z :=
  src ++ skipn (List.length src) buf.

Definition hid_read (h : hid_device) (buf : list Z) (length : Z)
  : Z * list Z * hid_device :=
  let h' := {| hid_inputs := tl (hid_inputs h);
               hid_outputs := hid_outputs h;
               hid_written := hid_written h;
               hid_requested := hid_requested h ++ [length] |} in
  match hd HidReadError (hid_inputs h) with
  | HidReadError => (-1, buf, h')
  | HidReport bytes =>
      let got := firstn (Z.to_nat length) bytes in
      (Z.of_nat (List.length got), overwrite buf got, h')
  end.

(** The timeout only bounds the wait: what arrives is the script's next
    entry. *)
Definition hid_read_timeout (h : hid_device) (buf : list Z) (length : Z)
    (milliseconds : Z) : Z * list Z * hid_device :=
  hid_read h buf length.

(** An entry of [hid_enumerate]'s list; [path_opens] is what
    [hid_open_path] returns for its path. *)
Record hid_device_info : Type := mkHidInfo {
  info_product_id : Z;
  info_interface_number : Z;
  path_opens : option hid_device
}.

(* ================================================================= *)
(** ** The headers of the driver that are not part of the source tree *)

(** A decoded sample frame ([device_imu_packet_type] of device_imu.h):
    the byte-array fields are lists of bytes, the timestamp is the
    64-bit little-endian field. *)
Record device_imu_packet_type : Type := mkImuPacket {
  signature : list Z;
  temperature : list Z;
  timestamp : Z;
  angular_multiplier : list Z;
  angular_divisor : list Z;
  angular_velocity_x : list Z;
  angular_velocity_y : list Z;
  angular_velocity_z : list Z;
  acceleration_multiplier : list Z;
  acceleration_divisor : list Z;
  acceleration_x : list Z;
  acceleration_y : list Z;
  acceleration_z : list Z;
  magnetic_multiplier : list Z;
  magnetic_divisor : list Z;
  magnetic_x : list Z;
  magnetic_y : list Z;
  magnetic_z : list Z
}.

(** Constants, the packet layout and the helpers declared in device_imu.h,
    hid_ids.h and crc32.h: parameters of the development. *)
Class DriverHeaders : Type := {
  xreal_vendor_id : Z;
  xreal_imu_interface_id : Z -> Z;
  DEVICE_IMU_MSG_GET_CAL_DATA_LENGTH : Z;
  DEVICE_IMU_MSG_CAL_DATA_GET_NEXT_SEGMENT : Z;
  DEVICE_IMU_MSG_START_IMU_DATA : Z;
  DEVICE_IMU_MSG_GET_STATIC_ID : Z;
  sizeof_device_imu_packet_type : Z;
  device_imu_packet_of_bytes : list Z -> device_imu_packet_type;
  crc32_checksum : list Z -> Z
}.

(** json-c, through the calls the driver makes.  A pointer to a JSON
    object is an [option]; [None] is [NULL].  The two laws are json-c's
    behaviour on [NULL]. *)
Class JsonLib : Type := {
  json_object : Type;
  json_tokener_parse_ex : list Z -> Z -> option json_object;
  json_object_object_get : option json_object -> string -> option json_object;
  json_object_is_array : option json_object -> bool;
  json_object_array_length : option json_object -> Z;
  json_object_array_get_idx : option json_object -> Z -> option json_object;
  json_object_get_double : option json_object -> float;
  json_object_object_get_null :
    forall key, json_object_object_get None key = None;
  json_object_is_array_null : json_object_is_array None = false
}.

(* ================================================================= *)
(** ** Session state *)

Inductive device_imu_error_type : Type :=
  | DEVICE_IMU_ERROR_NO_ERROR
  | DEVICE_IMU_ERROR_NO_DEVICE
  | DEVICE_IMU_ERROR_NO_HANDLE
  | DEVICE_IMU_ERROR_NO_ALLOCATION
  | DEVICE_IMU_ERROR_WRONG_SIZE
  | DEVICE_IMU_ERROR_FILE_NOT_OPEN
  | DEVICE_IMU_ERROR_FILE_NOT_CLOSED
  | DEVICE_IMU_ERROR_LOADING_FAILED
  | DEVICE_IMU_ERROR_SAVING_FAILED
  | DEVICE_IMU_ERROR_UNPLUGGED
  | DEVICE_IMU_ERROR_UNEXPECTED
  | DEVICE_IMU_ERROR_WRONG_SIGNATURE
  | DEVICE_IMU_ERROR_INVALID_VALUE
  | DEVICE_IMU_ERROR_NOT_INITIALIZED
  | DEVICE_IMU_ERROR_PAYLOAD_FAILED
  | DEVICE_IMU_ERROR_UNKNOWN.

Inductive device_imu_event_type : Type :=
  | DEVICE_IMU_EVENT_UNKNOWN
  | DEVICE_IMU_EVENT_INIT
  | DEVICE_IMU_EVENT_UPDATE.

Definition MAX_PACKET_SIZE : Z := 64.

(** The wire frame of lines 112-118, a packed struct of 64 bytes. *)
Record device_imu_payload_packet_type : Type := mkPayloadPacket {
  packet_head : Z;
  packet_checksum : Z;
  packet_length : Z;
  packet_msgid : Z;
  packet_data : list Z
}.

Definition payload_packet_zero : device_imu_payload_packet_type :=
  mkPayloadPacket 0 0 0 0 (repeat 0 56).

(** The struct as the bytes [(uint8_t* ) &packet] points to. *)
Definition payload_packet_bytes (p : device_imu_payload_packet_type) : list Z :=
  [packet_head p] ++ le32 (packet_checksum p) ++ le16 (packet_length p)
    ++ [packet_msgid p] ++ packet_data p.

Definition payload_packet_of_bytes (b : list Z) : device_imu_payload_packet_type :=
  {| packet_head := byte_at b 0;
     packet_checksum := of_le32 (firstn 4 (skipn 1 b));
     packet_length := of_le16 (firstn 2 (skipn 5 b));
     packet_msgid := byte_at b 7;
     packet_data := firstn 56 (skipn 8 b) |}.

Section Driver.

Context {fusion : FusionLib} {headers : DriverHeaders} {json : JsonLib}.

(** [device_imu_type] of device_imu.h.  Pointers are options ([None] is
    [NULL]); the callback pointer is reduced to whether one is set. *)
Record device_imu_type : Type := mkDevice {
  vendor_id : Z;
  product_id : Z;
  callback : bool;
  handle : option hid_device;
  static_id : Z;
  last_timestamp : Z;
  temperature_celsius : float;
  offset : option FusionOffset;
  ahrs : option FusionAhrs;
  calibration : option device_imu_calibration_type
}.

(** [memset (device, 0, sizeof (device_imu_type))]. *)
Definition device_zero : device_imu_type :=
  {| vendor_id := 0; product_id := 0; callback := false; handle := None;
     static_id := 0; last_timestamp := 0; temperature_celsius := F32.zero;
     offset := None; ahrs := None; calibration := None |}.

Definition set_handle (d : device_imu_type) (h : option hid_device) :=
  {| vendor_id := vendor_id d; product_id := product_id d;
     callback := callback d; handle := h; static_id := static_id d;
     last_timestamp := last_timestamp d;
     temperature_celsius := temperature_celsius d;
     offset := offset d; ahrs := ahrs d; calibration := calibration d |}.

Definition set_product_id (d : device_imu_type) (v : Z) :=
  {| vendor_id := vendor_id d; product_id := v;
     callback := callback d; handle := handle d; static_id := static_id d;
     last_timestamp := last_timestamp d;
     temperature_celsius := temperature_celsius d;
     offset := offset d; ahrs := ahrs d; calibration := calibration d |}.

Definition set_static_id (d : device_imu_type) (v : Z) :=
  {| vendor_id := vendor_id d; product_id := product_id d;
     callback := callback d; handle := handle d; static_id := v;
     last_timestamp := last_timestamp d;
     temperature_celsius := temperature_celsius d;
     offset := offset d; ahrs := ahrs d; calibration := calibration d |}.

Definition set_last_timestamp (d : device_imu_type) (v : Z) :=
  {| vendor_id := vendor_id d; product_id := product_id d;
     callback := callback d; handle := handle d; static_id := static_id d;
     last_timestamp := v;
     temperature_celsius := temperature_celsius d;
     offset := offset d; ahrs := ahrs d; calibration := calibration d |}.

Definition set_temperature (d : device_imu_type) (v : float) :=
  {| vendor_id := vendor_id d; product_id := product_id d;
     callback := callback d; handle := handle d; static_id := static_id d;
     last_timestamp := last_timestamp d;
     temperature_celsius := v;
     offset := offset d; ahrs := ahrs d; calibration := calibration d |}.

Definition set_offset (d : device_imu_type) (v : option FusionOffset) :=
  {| vendor_id := vendor_id d; product_id := product_id d;
     callback := callback d; handle := handle d; static_id := static_id d;
     last_timestamp := last_timestamp d;
     temperature_celsius := temperature_celsius d;
     offset := v; ahrs := ahrs d; calibration := calibration d |}.

Definition set_ahrs (d : device_imu_type) (v : option FusionAhrs) :=
  {| vendor_id := vendor_id d; product_id := product_id d;
     callback := callback d; handle := handle d; static_id := static_id d;
     last_timestamp := last_timestamp d;
     temperature_celsius := temperature_celsius d;
     offset := offset d; ahrs := v; calibration := calibration d |}.

Definition set_calibration (d : device_imu_type)
    (v : option device_imu_calibration_type) :=
  {| vendor_id := vendor_id d; product_id := product_id d;
     callback := callback d; handle := handle d; static_id := static_id d;
     last_timestamp := last_timestamp d;
     temperature_celsius := temperature_celsius d;
     offset := offset d; ahrs := ahrs d; calibration := v |}.

(** Process-wide state: the function-local statics of the file and the
    record of the callback invocations, oldest first. *)
Record process : Type := mkProcess {
  iron : iron_statics;
  send_packet : device_imu_payload_packet_type;
  recv_packet : device_imu_payload_packet_type;
  events : list (Z * device_imu_event_type)
}.

Definition process_initial : process :=
  {| iron := iron_statics_initial;
     send_packet := payload_packet_zero;
     recv_packet := payload_packet_zero;
     events := [] |}.

Definition set_iron (p : process) (v : iron_statics) :=
  {| iron := v; send_packet := send_packet p;
     recv_packet := recv_packet p; events := events p |}.

Definition set_send_packet (p : process) (v : device_imu_payload_packet_type) :=
  {| iron := iron p; send_packet := v;
     recv_packet := recv_packet p; events := events p |}.

Definition set_recv_packet (p : process) (v : device_imu_payload_packet_type) :=
  {| iron := iron p; send_packet := send_packet p;
     recv_packet := v; events := events p |}.

Definition add_event (p : process) (e : Z * device_imu_event_type) :=
  {| iron := iron p; send_packet := send_packet p;
     recv_packet := recv_packet p; events := events p ++ [e] |}.

(* ================================================================= *)
(** ** Framing protocol (lines 72-167) *)

(** [hid_write] and [hid_read] on the session's handle; a session without
    a handle gets hidapi's error return. *)
Definition device_hid_write (device : device_imu_type) (data : list Z)
    (length : Z) : Z * device_imu_type :=
  match handle device with
  | None => (-1, device)
  | Some h =>
      let '(r, h') := hid_write h data length in (r, set_handle device (Some h'))
  end.

Definition device_hid_read (device : device_imu_type) (buf : list Z)
    (length : Z) : Z * list Z * device_imu_type :=
  match handle device with
  | None => (-1, buf, device)
  | Some h =>
      let '(r, buf', h') := hid_read h buf length in
      (r, buf', set_handle device (Some h'))
  end.

(** [size] is a [uint8_t]. *)
Definition send_payload (device : device_imu_type) (size : Z)
    (payload : list Z) : bool * device_imu_type :=
  let payload_size := size in
  let payload_size :=
    if payload_size >? MAX_PACKET_SIZE then MAX_PACKET_SIZE else payload_size in
  let '(transferred, device) := device_hid_write device payload payload_size in
  if negb (transferred =? payload_size) then (false, device)
  else (transferred =? size, device).

(** Returns the buffer as the read left it. *)
Definition recv_payload (device : device_imu_type) (size : Z)
    (payload : list Z) : bool * list Z * device_imu_type :=
  let payload_size := size in
  let payload_size :=
    if payload_size >? MAX_PACKET_SIZE then MAX_PACKET_SIZE else payload_size in
  let '(transferred, payload, device) :=
    device_hid_read device payload payload_size in
  let transferred :=
    if transferred >=? payload_size then payload_size else transferred in
  if transferred =? 0 then (false, payload, device)
  else if negb (transferred =? payload_size) then (false, payload, device)
  else (transferred =? size, payload, device).

(** Lines 125-138: the frame built in the static [packet].  [len] is a
    [uint8_t]; [data] is the memory [data] points to.  The frame has room
    for 56 payload bytes, and every call of the file passes [len <= 56].
    The checksum is taken over [packet.length] bytes starting at the
    address of [packet.length], that is at offset 5 of the struct. *)
Definition build_packet (packet : device_imu_payload_packet_type)
    (msgid len : Z) (data : list Z) : device_imu_payload_packet_type :=
  let packet_len := to_uint16 (3 + len) in
  let packet :=
    {| packet_head := 0xAA;
       packet_checksum := packet_checksum packet;
       packet_length := packet_len;
       packet_msgid := msgid;
       packet_data := overwrite (packet_data packet)
                                (firstn (Z.to_nat len) data) |} in
  let region :=
    firstn (Z.to_nat (packet_length packet))
           (skipn 5 (payload_packet_bytes packet)) in
  {| packet_head := packet_head packet;
     packet_checksum := to_uint32 (crc32_checksum region);
     packet_length := packet_length packet;
     packet_msgid := packet_msgid packet;
     packet_data := packet_data packet |}.

Definition send_payload_msg (p : process) (device : device_imu_type)
    (msgid len : Z) (data : list Z) : bool * process * device_imu_type :=
  let packet_len := to_uint16 (3 + len) in
  let payload_len := to_uint16 (5 + packet_len) in
  let packet := build_packet (send_packet p) msgid len data in
  let '(ok, device) :=
    send_payload device (to_uint8 payload_len) (payload_packet_bytes packet) in
  (ok, set_send_packet p packet, device).

Definition send_payload_msg_signal (p : process) (device : device_imu_type)
    (msgid signal : Z) : bool * process * device_imu_type :=
  send_payload_msg p device msgid 1 [signal].

(** Lines 150-152: the fields cleared before the read. *)
Definition clear_packet (packet : device_imu_payload_packet_type)
  : device_imu_payload_packet_type :=
  {| packet_head := 0;
     packet_checksum := packet_checksum packet;
     packet_length := 0;
     packet_msgid := 0;
     packet_data := packet_data packet |}.

(** [data] is the memory the out-parameter points to; the result carries
    it back, changed only on success. *)
Definition recv_payload_msg (p : process) (device : device_imu_type)
    (msgid len : Z) (data : list Z)
  : bool * process * device_imu_type * list Z :=
  let packet := clear_packet (recv_packet p) in
  let packet_len := to_uint16 (3 + len) in
  let payload_len := to_uint16 (5 + packet_len) in
  let '(ok, bytes, device) :=
    recv_payload device (to_uint8 payload_len) (payload_packet_bytes packet) in
  let packet := payload_packet_of_bytes bytes in
  let p := set_recv_packet p packet in
  if negb ok then (false, p, device, data)
  else if negb (packet_msgid packet =? msgid) then (false, p, device, data)
  else (true, p, device,
        overwrite data (firstn (Z.to_nat len) (packet_data packet))).

(* ================================================================= *)
(** ** Raw sample decoding and calibration (lines 452-680) *)

Definition device_imu_callback (p : process) (device : device_imu_type)
    (timestamp : Z) (event : device_imu_event_type) : process :=
  if negb (callback device) then p
  else add_event p (timestamp, event).

(** [(float) a * (float) m / (float) d]. *)
Definition scaled (a m d : Z) : float :=
  F32.div (F32.mul (F32.of_Z a) (F32.of_Z m)) (F32.of_Z d).

Definition readIMU_from_packet (packet : device_imu_packet_type)
  : FusionVector * FusionVector * FusionVector :=
  let vel_m := pack16bit_signed (angular_multiplier packet) in
  let vel_d := pack32bit_signed (angular_divisor packet) in
  let vel_x := pack24bit_signed (angular_velocity_x packet) in
  let vel_y := pack24bit_signed (angular_velocity_y packet) in
  let vel_z := pack24bit_signed (angular_velocity_z packet) in
  let gyroscope :=
    mkFusionVector (scaled vel_x vel_m vel_d) (scaled vel_y vel_m vel_d)
                   (scaled vel_z vel_m vel_d) in
  let accel_m := pack16bit_signed (acceleration_multiplier packet) in
  let accel_d := pack32bit_signed (acceleration_divisor packet) in
  let accel_x := pack24bit_signed (acceleration_x packet) in
  let accel_y := pack24bit_signed (acceleration_y packet) in
  let accel_z := pack24bit_signed (acceleration_z packet) in
  let accelerometer :=
    mkFusionVector (scaled accel_x accel_m accel_d) (scaled accel_y accel_m accel_d)
                   (scaled accel_z accel_m accel_d) in
  let magnet_m := pack16bit_signed_swap (magnetic_multiplier packet) in
  let magnet_d := pack32bit_signed_swap (magnetic_divisor packet) in
  let magnet_x := pack16bit_signed_bizarre (magnetic_x packet) in
  let magnet_y := pack16bit_signed_bizarre (magnetic_y packet) in
  let magnet_z := pack16bit_signed_bizarre (magnetic_z packet) in
  let magnetometer :=
    mkFusionVector (scaled magnet_x magnet_m magnet_d)
                   (scaled magnet_y magnet_m magnet_d)
                   (scaled magnet_z magnet_m magnet_d) in
  (gyroscope, accelerometer, magnetometer).

Definition pre_biased_coordinate_system (v : FusionVector) : FusionVector :=
  FusionAxesSwap v FusionAxesAlignmentNXNZNY.

Definition post_biased_coordinate_system (v : FusionVector) : FusionVector :=
  FusionAxesSwap v FusionAxesAlignmentPZPXPY.

(** Field updates of the calibration record. *)
Definition set_iron_estimate (c : device_imu_calibration_type)
    (soft : FusionMatrix) (hard : FusionVector) : device_imu_calibration_type :=
  {| gyroscopeMisalignment := gyroscopeMisalignment c;
     gyroscopeSensitivity := gyroscopeSensitivity c;
     gyroscopeOffset := gyroscopeOffset c;
     accelerometerMisalignment := accelerometerMisalignment c;
     accelerometerSensitivity := accelerometerSensitivity c;
     accelerometerOffset := accelerometerOffset c;
     magnetometerMisalignment := magnetometerMisalignment c;
     magnetometerSensitivity := magnetometerSensitivity c;
     magnetometerOffset := magnetometerOffset c;
     softIronMatrix := soft;
     hardIronOffset := hard;
     noises := noises c |}.

Definition set_gyroscopeOffset (c : device_imu_calibration_type)
    (v : FusionVector) : device_imu_calibration_type :=
  {| gyroscopeMisalignment := gyroscopeMisalignment c;
     gyroscopeSensitivity := gyroscopeSensitivity c;
     gyroscopeOffset := v;
     accelerometerMisalignment := accelerometerMisalignment c;
     accelerometerSensitivity := accelerometerSensitivity c;
     accelerometerOffset := accelerometerOffset c;
     magnetometerMisalignment := magnetometerMisalignment c;
     magnetometerSensitivity := magnetometerSensitivity c;
     magnetometerOffset := magnetometerOffset c;
     softIronMatrix := softIronMatrix c;
     hardIronOffset := hardIronOffset c;
     noises := noises c |}.

Definition set_accelerometerOffset (c : device_imu_calibration_type)
    (v : FusionVector) : device_imu_calibration_type :=
  {| gyroscopeMisalignment := gyroscopeMisalignment c;
     gyroscopeSensitivity := gyroscopeSensitivity c;
     gyroscopeOffset := gyroscopeOffset c;
     accelerometerMisalignment := accelerometerMisalignment c;
     accelerometerSensitivity := accelerometerSensitivity c;
     accelerometerOffset := v;
     magnetometerMisalignment := magnetometerMisalignment c;
     magnetometerSensitivity := magnetometerSensitivity c;
     magnetometerOffset := magnetometerOffset c;
     softIronMatrix := softIronMatrix c;
     hardIronOffset := hardIronOffset c;
     noises := noises c |}.

(** A session without a calibration record uses the constants of lines
    605-618, which are the fields of [default_calibration]. *)
Definition calibration_or_default (device : device_imu_type)
  : device_imu_calibration_type :=
  match calibration device with
  | Some c => c
  | None => default_calibration
  end.

Definition apply_calibration (p : process) (device : device_imu_type)
    (gyroscope accelerometer magnetometer : FusionVector)
  : process * device_imu_type * (FusionVector * FusionVector * FusionVector) :=
  let c := calibration_or_default device in
  let gyroscopeOffset' :=
    FusionVectorMultiplyScalar (gyroscopeOffset c)
                               (FusionRadiansToDegrees F32.one) in
  let accelerometerOffset' :=
    FusionVectorMultiplyScalar (accelerometerOffset c)
                               (F32.div F32.one GRAVITY_G) in
  let g := pre_biased_coordinate_system gyroscope in
  let a := pre_biased_coordinate_system accelerometer in
  let m := pre_biased_coordinate_system magnetometer in
  let g := FusionCalibrationInertial g (gyroscopeMisalignment c)
             (gyroscopeSensitivity c) gyroscopeOffset' in
  let a := FusionCalibrationInertial a (accelerometerMisalignment c)
             (accelerometerSensitivity c) accelerometerOffset' in
  let m := FusionCalibrationInertial m (magnetometerMisalignment c)
             (magnetometerSensitivity c) (magnetometerOffset c) in
  let '(st, soft, hard) :=
    iterate_iron_offset_estimation (iron p) m in
  let p := set_iron p st in
  let device :=
    match calibration device with
    | Some c => set_calibration device (Some (set_iron_estimate c soft hard))
    | None => device
    end in
  let m := FusionCalibrationMagnetic m soft hard in
  (p, device,
   (post_biased_coordinate_system g,
    post_biased_coordinate_system a,
    post_biased_coordinate_system m)).

(* ================================================================= *)
(** ** Streaming read (lines 807-907) *)

Definition is_init_signature (packet : device_imu_packet_type) : bool :=
  (byte_at (signature packet) 0 =? 0xaa) && (byte_at (signature packet) 1 =? 0x53).

Definition is_data_signature (packet : device_imu_packet_type) : bool :=
  negb (negb (byte_at (signature packet) 0 =? 0x01)
        || negb (byte_at (signature packet) 1 =? 0x02)).

(** Lines 886-893: both branches of the test call the same update. *)
Definition fusion_update (a : FusionAhrs)
    (gyroscope accelerometer magnetometer : FusionVector) (deltaTime : float)
  : FusionAhrs :=
  if F32.isnan (axis_x magnetometer) || F32.isnan (axis_x magnetometer)
     || F32.isnan (axis_x magnetometer)
  then FusionAhrsUpdateNoMagnetometer a gyroscope accelerometer deltaTime
  else FusionAhrsUpdateNoMagnetometer a gyroscope accelerometer deltaTime.

(** [device_imu_get_orientation] (lines 927-935). *)
Definition device_imu_get_orientation (a : option FusionAhrs) : FusionQuaternion :=
  match a with
  | Some a => FusionAhrsGetQuaternion a
  | None => FUSION_IDENTITY_QUATERNION
  end.

Definition orientation_isnan (q : FusionQuaternion) : bool :=
  F32.isnan (element_x q) || F32.isnan (element_y q)
  || F32.isnan (element_z q) || F32.isnan (element_w q).

(** The body of [device_imu_read] for a data frame (lines 859-906). *)
Definition read_data_frame (p : process) (device : device_imu_type)
    (packet : device_imu_packet_type) (timestamp : Z)
  : device_imu_error_type * process * device_imu_type :=
  let delta := to_uint64 (timestamp - last_timestamp device) in
  let deltaTime :=
    F32.of_double (F64.div (F64.of_Z delta) (F64.of_Z 1000000000)) in
  let device := set_last_timestamp device timestamp in
  let temperature := pack16bit_signed (temperature packet) in
  let device :=
    set_temperature device
      (F32.add (F32.div (F32.of_Z temperature) (F32.literal 13248 100))
               (F32.of_Z 25)) in
  let '(gyroscope, accelerometer, magnetometer) := readIMU_from_packet packet in
  let '(p, device, (gyroscope, accelerometer, magnetometer)) :=
    apply_calibration p device gyroscope accelerometer magnetometer in
  let '(device, gyroscope) :=
    match offset device with
    | Some o =>
        let '(o', g') := FusionOffsetUpdate o gyroscope in
        (set_offset device (Some o'), g')
    | None => (device, gyroscope)
    end in
  match ahrs device with
  | Some a =>
      let a' := fusion_update a gyroscope accelerometer magnetometer deltaTime in
      let device := set_ahrs device (Some a') in
      let orientation := device_imu_get_orientation (ahrs device) in
      if orientation_isnan orientation
      then (DEVICE_IMU_ERROR_INVALID_VALUE, p, device)
      else (DEVICE_IMU_ERROR_NO_ERROR,
            device_imu_callback p device timestamp DEVICE_IMU_EVENT_UPDATE,
            device)
  | None =>
      (DEVICE_IMU_ERROR_NO_ERROR,
       device_imu_callback p device timestamp DEVICE_IMU_EVENT_UPDATE,
       device)
  end.

(** [device_imu_read] on a non-null [device]. *)
Definition device_imu_read_at (p : process) (device : device_imu_type)
    (timeout : Z) : device_imu_error_type * process * device_imu_type :=
  match handle device with
  | None => (DEVICE_IMU_ERROR_NO_HANDLE, p, device)
  | Some h =>
      if negb (MAX_PACKET_SIZE =? sizeof_device_imu_packet_type)
      then (DEVICE_IMU_ERROR_WRONG_SIZE, p, device)
      else
        let packet := repeat 0 (Z.to_nat sizeof_device_imu_packet_type) in
        let '(transferred, packet, h) :=
          hid_read_timeout h packet MAX_PACKET_SIZE timeout in
        let device := set_handle device (Some h) in
        if transferred =? -1 then (DEVICE_IMU_ERROR_UNPLUGGED, p, device)
        else if transferred =? 0 then (DEVICE_IMU_ERROR_NO_ERROR, p, device)
        else if negb (MAX_PACKET_SIZE =? transferred)
        then (DEVICE_IMU_ERROR_UNEXPECTED, p, device)
        else
          let packet := device_imu_packet_of_bytes packet in
          let timestamp := timestamp packet in
          if is_init_signature packet
          then (DEVICE_IMU_ERROR_NO_ERROR,
                device_imu_callback p device timestamp DEVICE_IMU_EVENT_INIT,
                device)
          else if negb (is_data_signature packet)
          then (DEVICE_IMU_ERROR_WRONG_SIGNATURE, p, device)
          else read_data_frame p device packet timestamp
  end.

Definition device_imu_read (p : process) (device : option device_imu_type)
    (timeout : Z) : device_imu_error_type * process * option device_imu_type :=
  match device with
  | None => (DEVICE_IMU_ERROR_NO_DEVICE, p, None)
  | Some d =>
      let '(e, p, d) := device_imu_read_at p d timeout in (e, p, Some d)
  end.

Definition device_imu_clear (p : process) (device : option device_imu_type)
  : device_imu_error_type * process * option device_imu_type :=
  device_imu_read p device 10.

(** The same update without the test on the magnetometer: what the
    streaming read is claimed to amount to. *)
Definition fusion_update_no_magnetometer (a : FusionAhrs)
    (gyroscope accelerometer : FusionVector) (deltaTime : float) : FusionAhrs :=
  FusionAhrsUpdateNoMagnetometer a gyroscope accelerometer deltaTime.

(* ================================================================= *)
(** ** Stationary calibration (lines 686-805) *)

(** The locals of [device_imu_calibrate] that live across iterations.
    They start indeterminate; each of them is assigned by every data frame
    before the code after the loop can read it. *)
Record calibrate_locals : Type := mkCalibrateLocals {
  initialized : bool;
  cal_gyroscope : FusionVector;
  cal_accelerometer : FusionVector;
  cal_softIronMatrix : FusionMatrix;
  cal_hardIronOffset : FusionVector;
  prev_accel : FusionVector
}.

Definition calibrate_locals_initial : calibrate_locals :=
  {| initialized := false;
     cal_gyroscope := FUSION_VECTOR_ZERO;
     cal_accelerometer := FUSION_VECTOR_ZERO;
     cal_softIronMatrix := FUSION_IDENTITY_MATRIX;
     cal_hardIronOffset := FUSION_VECTOR_ZERO;
     prev_accel := FUSION_VECTOR_ZERO |}.

(** How the loop is left: by one of its [return]s, or normally. *)
Inductive calibrate_exit : Type :=
  | CalibrateReturn (e : device_imu_error_type) (p : process) (device : device_imu_type)
  | CalibrateDone (p : process) (device : device_imu_type) (l : calibrate_locals).

(** One data frame (lines 748-774); [initialized] is never set. *)
Definition calibrate_frame (p : process) (packet : device_imu_packet_type)
    (l : calibrate_locals) : process * calibrate_locals :=
  let '(gyroscope, accelerometer, magnetometer) := readIMU_from_packet packet in
  let gyroscope := pre_biased_coordinate_system gyroscope in
  let accelerometer := pre_biased_coordinate_system accelerometer in
  let magnetometer := pre_biased_coordinate_system magnetometer in
  let '(cal_g, cal_a) :=
    if initialized l
    then (FusionVectorAdd (cal_gyroscope l) gyroscope,
          FusionVectorAdd (cal_accelerometer l)
                          (FusionVectorSubtract accelerometer (prev_accel l)))
    else (gyroscope, FUSION_VECTOR_ZERO) in
  let '(st, soft, hard) :=
    iterate_iron_offset_estimation (iron p) magnetometer in
  (set_iron p st,
   {| initialized := initialized l;
      cal_gyroscope := cal_g;
      cal_accelerometer := cal_a;
      cal_softIronMatrix := soft;
      cal_hardIronOffset := hard;
      prev_accel := accelerometer |}).

(** The [while (iterations > 0)] loop.  Every iteration performs one read,
    so the number of scripted inputs plus one bounds the iterations. *)
Fixpoint calibrate_loop (fuel : nat) (p : process) (device : device_imu_type)
    (iterations : Z) (l : calibrate_locals) : option calibrate_exit :=
  if iterations >? 0 then
    match fuel with
    | O => None
    | S fuel =>
        let packet := repeat 0 (Z.to_nat sizeof_device_imu_packet_type) in
        let '(transferred, packet, device) :=
          device_hid_read device packet MAX_PACKET_SIZE in
        if transferred =? -1
        then Some (CalibrateReturn DEVICE_IMU_ERROR_UNPLUGGED p device)
        else if transferred =? 0
        then calibrate_loop fuel p device iterations l
        else if negb (MAX_PACKET_SIZE =? transferred)
        then Some (CalibrateReturn DEVICE_IMU_ERROR_UNEXPECTED p device)
        else
          let packet := device_imu_packet_of_bytes packet in
          if negb (is_data_signature packet)
          then calibrate_loop fuel p device iterations l
          else
            let '(p, l) := calibrate_frame p packet l in
            calibrate_loop fuel p device (iterations - 1) l
    end
  else Some (CalibrateDone p device l).

Definition pending_inputs (device : device_imu_type) : nat :=
  match handle device with
  | Some h => List.length (hid_inputs h)
  | None => O
  end.

(** Lines 777-802. *)
Definition calibrate_commit (c : device_imu_calibration_type)
    (factor : float) (gyro accel magnet : bool) (l : calibrate_locals)
  : device_imu_calibration_type :=
  if F32.gtb factor F32.zero then
    let c :=
      if gyro
      then set_gyroscopeOffset c
             (FusionVectorAdd (gyroscopeOffset c)
                (FusionVectorMultiplyScalar (cal_gyroscope l)
                                            (FusionDegreesToRadians factor)))
      else c in
    let c :=
      if accel
      then set_accelerometerOffset c
             (FusionVectorAdd (accelerometerOffset c)
                (FusionVectorMultiplyScalar (cal_accelerometer l)
                                            (F32.mul factor GRAVITY_G)))
      else c in
    if magnet
    then set_iron_estimate c (cal_softIronMatrix l) (cal_hardIronOffset l)
    else c
  else c.

(** [iterations] is a [uint32_t].  The loop's result is [Some] for the
    fuel given here (lemma [calibrate_loop_fuel] below); the [None]
    branch is there for totality. *)
Definition device_imu_calibrate (p : process) (device : option device_imu_type)
    (iterations : Z) (gyro accel magnet : bool)
  : device_imu_error_type * process * option device_imu_type :=
  match device with
  | None => (DEVICE_IMU_ERROR_NO_DEVICE, p, None)
  | Some d =>
      match handle d with
      | None => (DEVICE_IMU_ERROR_NO_HANDLE, p, device)
      | Some _ =>
          match calibration d with
          | None => (DEVICE_IMU_ERROR_NO_ALLOCATION, p, device)
          | Some _ =>
              if negb (MAX_PACKET_SIZE =? sizeof_device_imu_packet_type)
              then (DEVICE_IMU_ERROR_WRONG_SIZE, p, device)
              else
                let factor :=
                  if iterations >? 0
                  then F32.div F32.one (F32.of_Z iterations)
                  else F32.zero in
                match calibrate_loop (S (pending_inputs d)) p d iterations
                                     calibrate_locals_initial with
                | None => (DEVICE_IMU_ERROR_UNKNOWN, p, device)
                | Some (CalibrateReturn e p d) => (e, p, Some d)
                | Some (CalibrateDone p d l) =>
                    let d :=
                      match calibration d with
                      | Some c =>
                          set_calibration d
                            (Some (calibrate_commit c factor gyro accel magnet l))
                      | None => d
                      end in
                    (DEVICE_IMU_ERROR_NO_ERROR, p, Some d)
                end
          end
      end
  end.

(* ================================================================= *)
(** ** Opening a session (lines 169-380) *)

(** [None] is falling off the end of the function without a [return]. *)
Definition device_imu_reset_calibration (device : option device_imu_type)
  : option device_imu_error_type * option device_imu_type :=
  match device with
  | None => (Some DEVICE_IMU_ERROR_NO_DEVICE, None)
  | Some d =>
      match calibration d with
      | None => (Some DEVICE_IMU_ERROR_NO_ALLOCATION, device)
      | Some _ => (None, Some (set_calibration d (Some default_calibration)))
      end
  end.

Definition json_number (obj : option json_object) (idx : Z) : float :=
  F32.of_double (json_object_get_double (json_object_array_get_idx obj idx)).

Definition json_object_get_vector (obj : option json_object) : FusionVector :=
  if negb (json_object_is_array obj)
     || negb (json_object_array_length obj =? 3)
  then FUSION_VECTOR_ZERO
  else mkFusionVector (json_number obj 0) (json_number obj 1) (json_number obj 2).

Definition json_object_get_quaternion (obj : option json_object)
  : FusionQuaternion :=
  if negb (json_object_is_array obj)
     || negb (json_object_array_length obj =? 4)
  then FUSION_IDENTITY_QUATERNION
  else {| element_x := json_number obj 0;
          element_y := json_number obj 1;
          element_z := json_number obj 2;
          element_w := json_number obj 3 |}.

(** What the process environment supplies to [device_imu_open]:
    [device_init], [hid_enumerate], and the indeterminate contents of the
    fresh [malloc] blocks (the byte block of a given size for the
    calibration document, and the calibration record).  Allocation is
    taken to succeed. *)
Record open_env : Type := mkOpenEnv {
  device_init : bool;
  hid_enumerate : Z -> Z -> list hid_device_info;
  malloc_bytes : Z -> list Z;
  malloc_calibration : device_imu_calibration_type
}.

(** The [while (it)] loop of lines 217-230. *)
Fixpoint find_imu (it : list hid_device_info) (device : device_imu_type)
  : device_imu_type :=
  match it with
  | [] => device
  | i :: next =>
      let interface_id := xreal_imu_interface_id (info_product_id i) in
      if negb (interface_id =? -1) && (info_interface_number i =? interface_id)
      then set_handle (set_product_id device (info_product_id i)) (path_opens i)
      else find_imu next device
  end.

(** State at the exit of the download loop of lines 270-285; [completed]
    (named [dl_completed])
    tells a normal exit from a [break] and is not part of the C state. *)
Record download_state : Type := mkDownload {
  dl_process : process;
  dl_device : device_imu_type;
  dl_position : Z;
  dl_calibration_data : list Z;
  dl_completed : bool
}.

(** Storing [seg], the memory at [calibration_data + position] after the
    receive, back into the block. *)
Definition store_at (block : list Z) (position : Z) (seg : list Z) : list Z :=
  firstn (Z.to_nat position) block ++ seg.

(** Each iteration advances [position] by at least one, so
    [calibration_len] iterations are enough. *)
Fixpoint download_loop (fuel : nat) (p : process) (device : device_imu_type)
    (calibration_len position : Z) (calibration_data : list Z)
  : option download_state :=
  if position <? calibration_len then
    match fuel with
    | O => None
    | S fuel =>
        let remaining := to_uint32 (calibration_len - position) in
        let '(ok, p, device) :=
          send_payload_msg p device DEVICE_IMU_MSG_CAL_DATA_GET_NEXT_SEGMENT 0 [] in
        if negb ok
        then Some (mkDownload p device position calibration_data false)
        else
          let next := to_uint8 (if remaining >? 56 then 56 else remaining) in
          let '(ok, p, device, seg) :=
            recv_payload_msg p device DEVICE_IMU_MSG_CAL_DATA_GET_NEXT_SEGMENT
              next (skipn (Z.to_nat position) calibration_data) in
          if negb ok
          then Some (mkDownload p device position calibration_data false)
          else
            download_loop fuel p device calibration_len
              (to_uint32 (position + next))
              (store_at calibration_data position seg)
    end
  else Some (mkDownload p device position calibration_data true).

(** Lines 287-318: parse the block and install what was found. *)
Definition install_calibration (c : device_imu_calibration_type)
    (calibration_data : list Z) (calibration_len : Z)
  : device_imu_calibration_type :=
  let calibration_data :=
    store_at calibration_data calibration_len
      (overwrite (skipn (Z.to_nat calibration_len) calibration_data) [0]) in
  let root := json_tokener_parse_ex calibration_data calibration_len in
  let imu := json_object_object_get root "IMU" in
  let dev1 := json_object_object_get imu "device_1" in
  let accel_bias := json_object_get_vector (json_object_object_get dev1 "accel_bias") in
  let accel_q_gyro := json_object_get_quaternion (json_object_object_get dev1 "accel_q_gyro") in
  let gyro_bias := json_object_get_vector (json_object_object_get dev1 "gyro_bias") in
  let gyro_q_mag := json_object_get_quaternion (json_object_object_get dev1 "gyro_q_mag") in
  let mag_bias := json_object_get_vector (json_object_object_get dev1 "mag_bias") in
  let imu_noises := json_object_get_quaternion (json_object_object_get dev1 "imu_noises") in
  let scale_accel := json_object_get_vector (json_object_object_get dev1 "scale_accel") in
  let scale_gyro := json_object_get_vector (json_object_object_get dev1 "scale_gyro") in
  let scale_mag := json_object_get_vector (json_object_object_get dev1 "scale_mag") in
  let accel_q_mag := FusionQuaternionMultiply accel_q_gyro gyro_q_mag in
  {| gyroscopeMisalignment := FusionQuaternionToMatrix accel_q_gyro;
     gyroscopeSensitivity := scale_gyro;
     gyroscopeOffset := gyro_bias;
     accelerometerMisalignment := FUSION_IDENTITY_MATRIX;
     accelerometerSensitivity := scale_accel;
     accelerometerOffset := accel_bias;
     magnetometerMisalignment := FusionQuaternionToMatrix accel_q_mag;
     magnetometerSensitivity := scale_mag;
     magnetometerOffset := mag_bias;
     softIronMatrix := softIronMatrix c;
     hardIronOffset := hardIronOffset c;
     noises := imu_noises |}.

Definition ahrs_settings (SAMPLE_RATE : Z) : FusionAhrsSettings :=
  {| convention := FusionConventionNed;
     gain := F32.literal 5 10;
     accelerationRejection := F32.of_Z 10;
     magneticRejection := F32.of_Z 20;
     recoveryTriggerPeriod := to_uint32 (5 * SAMPLE_RATE) |}.

(** Lines 324-349. *)
Definition open_start_streaming (p : process) (device : device_imu_type)
  : device_imu_error_type * process * device_imu_type :=
  let '(ok, p, device) :=
    send_payload_msg_signal p device DEVICE_IMU_MSG_START_IMU_DATA 0x1 in
  if negb ok then (DEVICE_IMU_ERROR_PAYLOAD_FAILED, p, device)
  else
    let SAMPLE_RATE := 1000 in
    let device := set_offset device (Some (FusionOffsetInitialise SAMPLE_RATE)) in
    let device := set_ahrs device (Some FusionAhrsInitialise) in
    let device :=
      match ahrs device with
      | Some a =>
          set_ahrs device
            (Some (FusionAhrsSetSettings a (ahrs_settings SAMPLE_RATE)))
      | None => device
      end in
    (DEVICE_IMU_ERROR_NO_ERROR, p, device).

(** Lines 261-322: the calibration exchange.  The result is [inl] for the
    early [return] of line 263. *)
Definition open_calibration (env : open_env) (p : process)
    (device : device_imu_type)
  : (device_imu_error_type * process * device_imu_type)
    + (process * device_imu_type) :=
  let '(ok, p, device) :=
    send_payload_msg p device DEVICE_IMU_MSG_GET_CAL_DATA_LENGTH 0 [] in
  if negb ok then inl (DEVICE_IMU_ERROR_PAYLOAD_FAILED, p, device)
  else
    let '(ok, p, device, len_bytes) :=
      recv_payload_msg p device DEVICE_IMU_MSG_GET_CAL_DATA_LENGTH 4 (le32 0) in
    if ok then
      let calibration_len := of_le32 len_bytes in
      let calibration_data := malloc_bytes env (to_uint32 (calibration_len + 1)) in
      match download_loop (Z.to_nat calibration_len) p device
                          calibration_len 0 calibration_data with
      | None => inr (p, device)
      | Some dl =>
          let device := dl_device dl in
          let device :=
            match calibration device with
            | Some c =>
                set_calibration device
                  (Some (install_calibration c (dl_calibration_data dl)
                                             calibration_len))
            | None => device
            end in
          inr (dl_process dl, device)
      end
    else inr (p, device).

(** Lines 258-349: allocation and reset of the calibration record, the
    calibration exchange, and the start of streaming. *)
Definition open_from_calibration (env : open_env) (p : process)
    (device : device_imu_type)
  : device_imu_error_type * process * device_imu_type :=
  let device := set_calibration device (Some (malloc_calibration env)) in
  let device :=
    match device_imu_reset_calibration (Some device) with
    | (_, Some d) => d
    | (_, None) => device
    end in
  match open_calibration env p device with
  | inl failed => failed
  | inr (p, device) => open_start_streaming p device
  end.

(** Lines 246-256, followed by the rest of the function. *)
Definition open_from_static_id (env : open_env) (p : process)
    (device : device_imu_type)
  : device_imu_error_type * process * device_imu_type :=
  let '(ok, p, device) :=
    send_payload_msg p device DEVICE_IMU_MSG_GET_STATIC_ID 0 [] in
  if negb ok then (DEVICE_IMU_ERROR_PAYLOAD_FAILED, p, device)
  else
    let '(ok, p, device, id_bytes) :=
      recv_payload_msg p device DEVICE_IMU_MSG_GET_STATIC_ID 4 (le32 0) in
    let device :=
      if ok then set_static_id device (of_le32 id_bytes)
      else set_static_id device 0x20220101 in
    open_from_calibration env p device.

(** [device_imu_open] on a non-null [device]; the session memory is
    cleared first, so its previous contents do not matter. *)
Definition device_imu_open_at (env : open_env) (p : process)
    (callback : bool) : device_imu_error_type * process * device_imu_type :=
  let device :=
    {| vendor_id := xreal_vendor_id; product_id := 0; callback := callback;
       handle := None; static_id := 0; last_timestamp := 0;
       temperature_celsius := F32.zero;
       offset := None; ahrs := None; calibration := None |} in
  if negb (device_init env) then (DEVICE_IMU_ERROR_NOT_INITIALIZED, p, device)
  else
    let info := hid_enumerate env (vendor_id device) (product_id device) in
    let device := find_imu info device in
    match handle device with
    | None => (DEVICE_IMU_ERROR_NO_HANDLE, p, device)
    | Some _ =>
        let '(ok, p, device) :=
          send_payload_msg_signal p device DEVICE_IMU_MSG_START_IMU_DATA 0x0 in
        if negb ok then (DEVICE_IMU_ERROR_PAYLOAD_FAILED, p, device)
        else
          let '(_, p, device) := device_imu_read_at p device 10 in
          open_from_static_id env p device
    end.

Definition device_imu_open (env : open_env) (p : process)
    (device : option device_imu_type) (callback : bool)
  : device_imu_error_type * process * option device_imu_type :=
  match device with
  | None => (DEVICE_IMU_ERROR_NO_DEVICE, p, None)
  | Some _ =>
      let '(e, p, d) := device_imu_open_at env p callback in (e, p, Some d)
  end.

(* ================================================================= *)
(** ** Vocabulary of the statements *)

(** The transport after one write of [frame], and after one read. *)
Definition hid_after_write (h : hid_device) (frame : list Z) : hid_device :=
  {| hid_inputs := hid_inputs h;
     hid_outputs := tl (hid_outputs h);
     hid_written := hid_written h ++ [frame];
     hid_requested := hid_requested h |}.

Definition hid_after_read (h : hid_device) (length : Z) : hid_device :=
  {| hid_inputs := tl (hid_inputs h);
     hid_outputs := hid_outputs h;
     hid_written := hid_written h;
     hid_requested := hid_requested h ++ [length] |}.

(** The frame of a message, as the specification lays it out. *)
Definition frame_region (msgid : Z) (data : list Z) : list Z :=
  le16 (3 + Z.of_nat (List.length data)) ++ [msgid] ++ data.

Definition wire_frame (msgid : Z) (data : list Z) : list Z :=
  [0xAA] ++ le32 (to_uint32 (crc32_checksum (frame_region msgid data)))
    ++ frame_region msgid data.

(** What a receive leaves in the static packet, and whether the report it
    read covers the [n] bytes asked for. *)
Definition received_bytes (old : device_imu_payload_packet_type)
    (h : hid_device) (n : Z) : list Z :=
  match hd HidReadError (hid_inputs h) with
  | HidReadError => payload_packet_bytes (clear_packet old)
  | HidReport b =>
      overwrite (payload_packet_bytes (clear_packet old)) (firstn (Z.to_nat n) b)
  end.

Definition full_report (h : hid_device) (n : Z) : bool :=
  match hd HidReadError (hid_inputs h) with
  | HidReadError => false
  | HidReport b => n <=? Z.of_nat (List.length b)
  end.

(** The gyroscope and accelerometer outputs of [apply_calibration], which
    are computed without the magnetometer, and [deltaTime] of line 860. *)
Definition calibrated_gyroscope (device : device_imu_type)
    (gyroscope : FusionVector) : FusionVector :=
  let c := calibration_or_default device in
  post_biased_coordinate_system
    (FusionCalibrationInertial (pre_biased_coordinate_system gyroscope)
       (gyroscopeMisalignment c) (gyroscopeSensitivity c)
       (FusionVectorMultiplyScalar (gyroscopeOffset c)
                                   (FusionRadiansToDegrees F32.one))).

Definition calibrated_accelerometer (device : device_imu_type)
    (accelerometer : FusionVector) : FusionVector :=
  let c := calibration_or_default device in
  post_biased_coordinate_system
    (FusionCalibrationInertial (pre_biased_coordinate_system accelerometer)
       (accelerometerMisalignment c) (accelerometerSensitivity c)
       (FusionVectorMultiplyScalar (accelerometerOffset c)
                                   (F32.div F32.one GRAVITY_G))).

Definition delta_time (device : device_imu_type) (timestamp : Z) : float :=
  F32.of_double
    (F64.div (F64.of_Z (to_uint64 (timestamp - last_timestamp device)))
             (F64.of_Z 1000000000)).

(** The gyroscope handed to the fusion engine: calibrated, then passed
    through the drift tracker when the session has one. *)
Definition tracked_gyroscope (device : device_imu_type)
    (gyroscope : FusionVector) : FusionVector :=
  match offset device with
  | Some o => snd (FusionOffsetUpdate o (calibrated_gyroscope device gyroscope))
  | None => calibrated_gyroscope device gyroscope
  end.

(** A frame with its five magnetometer fields replaced. *)
Definition with_magnetometer (packet : device_imu_packet_type)
    (multiplier divisor x y z : list Z) : device_imu_packet_type :=
  {| signature := signature packet;
     temperature := temperature packet;
     timestamp := timestamp packet;
     angular_multiplier := angular_multiplier packet;
     angular_divisor := angular_divisor packet;
     angular_velocity_x := angular_velocity_x packet;
     angular_velocity_y := angular_velocity_y packet;
     angular_velocity_z := angular_velocity_z packet;
     acceleration_multiplier := acceleration_multiplier packet;
     acceleration_divisor := acceleration_divisor packet;
     acceleration_x := acceleration_x packet;
     acceleration_y := acceleration_y packet;
     acceleration_z := acceleration_z packet;
     magnetic_multiplier := multiplier;
     magnetic_divisor := divisor;
     magnetic_x := x;
     magnetic_y := y;
     magnetic_z := z |}.

(** An accepted data frame: the next report fills the 64-byte packet and
    carries the data signature. *)
Definition accepts_data_frame (device : device_imu_type) (h : hid_device)
    (frame : list Z) : Prop :=
  handle device = Some h /\
  sizeof_device_imu_packet_type = MAX_PACKET_SIZE /\
  hd HidReadError (hid_inputs h) = HidReport frame /\
  64 <= Z.of_nat (List.length frame) /\
  is_init_signature (device_imu_packet_of_bytes (firstn 64 frame)) = false /\
  is_data_signature (device_imu_packet_of_bytes (firstn 64 frame)) = true.

(** The orientation the fusion engine holds after the update of a data
    frame. *)
Definition orientation_after (a : FusionAhrs) (device : device_imu_type)
    (packet : device_imu_packet_type) : FusionQuaternion :=
  let '(gyroscope, accelerometer, _) := readIMU_from_packet packet in
  FusionAhrsGetQuaternion
    (fusion_update_no_magnetometer a
       (tracked_gyroscope device gyroscope)
       (calibrated_accelerometer device accelerometer)
       (delta_time device (timestamp packet))).

Definition orientation_nonfinite (q : FusionQuaternion) : bool :=
  negb (F32.isfinite (element_x q) && F32.isfinite (element_y q)
        && F32.isfinite (element_z q) && F32.isfinite (element_w q)).

(** The calibration record behind a possibly null session pointer. *)
Definition session_calibration (device : option device_imu_type)
  : option device_imu_calibration_type :=
  match device with
  | Some d => calibration d
  | None => None
  end.

(** A report that carries a response with message id [msgid] and payload
    [payload]: the id at offset 7, the payload from offset 8 on. *)
Definition carries (frame : list Z) (msgid : Z) (payload : list Z) : Prop :=
  8 + Z.of_nat (List.length payload) <= Z.of_nat (List.length frame) /\
  byte_at frame 7 = msgid /\
  firstn (List.length payload) (skipn 8 frame) = payload.

(** The process after a send and after a receive. *)
Definition process_after_send (p : process) (msgid : Z) (data : list Z)
  : process :=
  set_send_packet p
    (build_packet (send_packet p) msgid (Z.of_nat (List.length data)) data).

Definition process_after_recv (p : process) (h : hid_device) (n : Z)
  : process :=
  set_recv_packet p
    (payload_packet_of_bytes (received_bytes (recv_packet p) h n)).

(** The record [install_calibration] stores when the document did not
    parse: every vector is the zero vector and every quaternion the
    identity. *)
Definition calibration_of_null_document (c : device_imu_calibration_type)
  : device_imu_calibration_type :=
  {| gyroscopeMisalignment := FusionQuaternionToMatrix FUSION_IDENTITY_QUATERNION;
     gyroscopeSensitivity := FUSION_VECTOR_ZERO;
     gyroscopeOffset := FUSION_VECTOR_ZERO;
     accelerometerMisalignment := FUSION_IDENTITY_MATRIX;
     accelerometerSensitivity := FUSION_VECTOR_ZERO;
     accelerometerOffset := FUSION_VECTOR_ZERO;
     magnetometerMisalignment :=
       FusionQuaternionToMatrix
         (FusionQuaternionMultiply FUSION_IDENTITY_QUATERNION
                                   FUSION_IDENTITY_QUATERNION);
     magnetometerSensitivity := FUSION_VECTOR_ZERO;
     magnetometerOffset := FUSION_VECTOR_ZERO;
     softIronMatrix := softIronMatrix c;
     hardIronOffset := hardIronOffset c;
     noises := FUSION_IDENTITY_QUATERNION |}.

(** The block handed to the tokener: the downloaded block with the
    terminating zero stored at [calibration_len]. *)
Definition terminated_block (calibration_data : list Z) (calibration_len : Z)
  : list Z :=
  store_at calibration_data calibration_len
    (overwrite (skipn (Z.to_nat calibration_len) calibration_data) [0]).

(** The fields of a session that the framing layer never writes. *)
Definition same_record (d d' : device_imu_type) : Prop :=
  static_id d' = static_id d /\ calibration d' = calibration d.

(* ================================================================= *)
(** ** Closing a session (lines 951-977) *)

(** [device_imu_close].  Besides the error and the session, the result
    carries what the function hands to its collaborators: the handle given
    to [hid_close], if any, and whether [device_exit] was called.  The
    three [free]s leave no trace in the model other than the cleared
    pointers. *)
Definition device_imu_close (device : option device_imu_type)
  : device_imu_error_type * option device_imu_type
    * option hid_device * bool :=
  match device with
  | None => (DEVICE_IMU_ERROR_NO_DEVICE, None, None, false)
  | Some d => (DEVICE_IMU_ERROR_NO_ERROR, Some device_zero, handle d, true)
  end.

(* ================================================================= *)
(** ** Calibration files (lines 382-450) *)

(** The calibration record as the bytes [fread] and [fwrite] move:
    [sizeof (device_imu_calibration_type)] bytes in host layout.  The
    layout is a parameter; what is used of it is that a record is as many
    bytes as its size. *)
Class CalibrationLayout : Type := {
  sizeof_device_imu_calibration_type : nat;
  calibration_bytes : device_imu_calibration_type -> list Z;
  calibration_of_bytes : list Z -> device_imu_calibration_type;
  calibration_bytes_length :
    forall c, List.length (calibration_bytes c) = sizeof_device_imu_calibration_type
}.

Context {layout : CalibrationLayout}.

(** What the C library answers: [fopen_result] is the contents of the file
    opened for reading, or [None] when [fopen] returns NULL;
    [fopen_write] tells whether the file opens for writing;
    [fwrite_room] is how many bytes the stream takes; [fclose_result] is
    the value of [fclose]; [fclose_flushed] is how many of the bytes the
    stream took are in the file after a failed [fclose] (the stream is
    buffered, so a failed close may lose any tail of them). *)
Record file_env : Type := mkFileEnv {
  fopen_result : option (list Z);
  fopen_write : bool;
  fwrite_room : nat;
  fclose_result : Z;
  fclose_flushed : nat
}.

(** [fread] stores the bytes it got over the front of the record. *)
Definition device_imu_load_calibration (fs : file_env)
    (device : option device_imu_type)
  : device_imu_error_type * option device_imu_type :=
  match device with
  | None => (DEVICE_IMU_ERROR_NO_DEVICE, None)
  | Some d =>
      match calibration d with
      | None => (DEVICE_IMU_ERROR_NO_ALLOCATION, device)
      | Some c =>
          match fopen_result fs with
          | None => (DEVICE_IMU_ERROR_FILE_NOT_OPEN, device)
          | Some file =>
              let result := DEVICE_IMU_ERROR_NO_ERROR in
              let got := firstn sizeof_device_imu_calibration_type file in
              let count := List.length got in
              let d :=
                set_calibration d
                  (Some (calibration_of_bytes
                           (overwrite (calibration_bytes c) got))) in
              let result :=
                if negb (Nat.eqb sizeof_device_imu_calibration_type count)
                then DEVICE_IMU_ERROR_LOADING_FAILED else result in
              if negb (0 =? fclose_result fs)
              then (DEVICE_IMU_ERROR_FILE_NOT_CLOSED, Some d)
              else (result, Some d)
          end
      end
  end.

(** The second component is what the file holds afterwards, when it was
    opened: the bytes [fwrite] accepted if [fclose] succeeds, and only the
    first [fclose_flushed] of them if it fails. *)
Definition device_imu_save_calibration (fs : file_env)
    (device : option device_imu_type)
  : device_imu_error_type * option (list Z) :=
  match device with
  | None => (DEVICE_IMU_ERROR_NO_DEVICE, None)
  | Some d =>
      match calibration d with
      | None => (DEVICE_IMU_ERROR_NO_ALLOCATION, None)
      | Some c =>
          if negb (fopen_write fs)
          then (DEVICE_IMU_ERROR_FILE_NOT_OPEN, None)
          else
            let result := DEVICE_IMU_ERROR_NO_ERROR in
            let written := firstn (fwrite_room fs) (calibration_bytes c) in
            let count := List.length written in
            let result :=
              if negb (Nat.eqb sizeof_device_imu_calibration_type count)
              then DEVICE_IMU_ERROR_SAVING_FAILED else result in
            if negb (0 =? fclose_result fs)
            then (DEVICE_IMU_ERROR_FILE_NOT_CLOSED,
                  Some (firstn (fclose_flushed fs) written))
            else (result, Some written)
      end
  end.

(* ================================================================= *)
(** ** Vocabulary of the further statements *)

(** [d'] is [d] with another handle. *)
Definition differs_in_handle (d d' : device_imu_type) : Prop :=
  set_handle d' (handle d) = d.

(** The magnetometer reading as [apply_calibration] hands it to the iron
    estimator. *)
Definition inertial_magnetometer (device : device_imu_type)
    (magnetometer : FusionVector) : FusionVector :=
  let c := calibration_or_default device in
  FusionCalibrationInertial (pre_biased_coordinate_system magnetometer)
    (magnetometerMisalignment c) (magnetometerSensitivity c)
    (magnetometerOffset c).

(** The temperature of line 867. *)
Definition celsius (raw : Z) : float :=
  F32.add (F32.div (F32.of_Z raw) (F32.literal 13248 100)) (F32.of_Z 25).

(** A report that [device_imu_calibrate] counts: a full frame with the
    data signature. *)
Definition is_data_report (i : hid_input) : bool :=
  match i with
  | HidReadError => false
  | HidReport b =>
      (64 <=? Z.of_nat (List.length b))
      && is_data_signature (device_imu_packet_of_bytes (firstn 64 b))
  end.

Definition data_reports (l : list hid_input) : Z :=
  Z.of_nat (List.length (filter is_data_report l)).

(** A report that the loop reads and passes over or counts: empty, or at
    least a full frame long. *)
Definition passable_report (i : hid_input) : Prop :=
  exists b, i = HidReport b /\ (b = [] \/ 64 <= Z.of_nat (List.length b)).

(** The reports still pending on the session's handle. *)
Definition session_inputs (device : option device_imu_type) : list hid_input :=
  match device with
  | Some d =>
      match handle d with
      | Some h => hid_inputs h
      | None => []
      end
  | None => []
  end.

(** The gyroscope reading of a data frame as the calibration loop
    accumulates it. *)
Definition frame_gyroscope (frame : list Z) : FusionVector :=
  pre_biased_coordinate_system
    (fst (fst (readIMU_from_packet
                 (device_imu_packet_of_bytes (firstn 64 frame))))).

(** No axis of [v] is a finite number. *)
Definition nowhere_finite (v : FusionVector) : bool :=
  negb (F32.isfinite (axis_x v)) && negb (F32.isfinite (axis_y v))
  && negb (F32.isfinite (axis_z v)).

(** The test of lines 219-220 on an enumerated interface. *)
Definition imu_interface_matches (i : hid_device_info) : bool :=
  let interface_id := xreal_imu_interface_id (info_product_id i) in
  negb (interface_id =? -1) && (info_interface_number i =? interface_id).

(** What [hid_open_path] returns for the first enumerated interface that
    passes the test. *)
Definition first_imu_handle (it : list hid_device_info) : option hid_device :=
  match find imu_interface_matches it with
  | Some i => path_opens i
  | None => None
  end.

(** [d'] is [d] with another handle, which is null exactly when that of
    [d] is: what a transfer makes of a session. *)
Definition same_but_transport (d d' : device_imu_type) : Prop :=
  differs_in_handle d d' /\ (handle d' = None <-> handle d = None).


(** What every step of [device_imu_open] after the enumeration keeps of
    a session: identifiers of the vendor and callback, and whether there
    is a handle. *)
Definition same_owner (d d' : device_imu_type) : Prop :=
  vendor_id d' = vendor_id d /\ callback d' = callback d /\
  (handle d' = None <-> handle d = None).

(** The frames written so far on the session's handle. *)
Definition session_written (d : device_imu_type) : list (list Z) :=
  match handle d with
  | Some h => hid_written h
  | None => []
  end.

(** The requests of [device_imu_open] in the order of the function body,
    with [k] requests for a calibration segment. *)
Definition open_requests (k : nat) : list (list Z) :=
  [wire_frame DEVICE_IMU_MSG_START_IMU_DATA [0];
   wire_frame DEVICE_IMU_MSG_GET_STATIC_ID [];
   wire_frame DEVICE_IMU_MSG_GET_CAL_DATA_LENGTH []]
  ++ repeat (wire_frame DEVICE_IMU_MSG_CAL_DATA_GET_NEXT_SEGMENT []) k
  ++ [wire_frame DEVICE_IMU_MSG_START_IMU_DATA [1]].

(** Lines 196-259 of [device_imu_open]: everything up to the reset of the
    fresh calibration record.  [inl] is an early return, [inr] the state
    in which the calibration exchange starts. *)
Definition open_until_calibration (env : open_env) (p : process)
    (callback : bool)
  : (device_imu_error_type * process * device_imu_type)
    + (process * device_imu_type) :=
  let device :=
    {| vendor_id := xreal_vendor_id; product_id := 0; callback := callback;
       handle := None; static_id := 0; last_timestamp := 0;
       temperature_celsius := F32.zero;
       offset := None; ahrs := None; calibration := None |} in
  if negb (device_init env)
  then inl (DEVICE_IMU_ERROR_NOT_INITIALIZED, p, device)
  else
    let info := hid_enumerate env (vendor_id device) (product_id device) in
    let device := find_imu info device in
    match handle device with
    | None => inl (DEVICE_IMU_ERROR_NO_HANDLE, p, device)
    | Some _ =>
        let '(ok, p, device) :=
          send_payload_msg_signal p device DEVICE_IMU_MSG_START_IMU_DATA 0x0 in
        if negb ok then inl (DEVICE_IMU_ERROR_PAYLOAD_FAILED, p, device)
        else
          let '(_, p, device) := device_imu_read_at p device 10 in
          let '(ok, p, device) :=
            send_payload_msg p device DEVICE_IMU_MSG_GET_STATIC_ID 0 [] in
          if negb ok then inl (DEVICE_IMU_ERROR_PAYLOAD_FAILED, p, device)
          else
            let '(ok, p, device, id_bytes) :=
              recv_payload_msg p device DEVICE_IMU_MSG_GET_STATIC_ID 4 (le32 0) in
            let device :=
              if ok then set_static_id device (of_le32 id_bytes)
              else set_static_id device 0x20220101 in
            let device :=
              set_calibration device (Some (malloc_calibration env)) in
            let device :=
              match device_imu_reset_calibration (Some device) with
              | (_, Some d) => d
              | (_, None) => device
              end in
            inr (p, device)
    end.

(** Lines 261-267: the value of [calibration_len] with which the block is
    allocated, when the exchange gets that far. *)
Definition announced_calibration_length (p : process)
    (device : device_imu_type) : option Z :=
  let '(ok, p, device) :=
    send_payload_msg p device DEVICE_IMU_MSG_GET_CAL_DATA_LENGTH 0 [] in
  if negb ok then None
  else
    let '(ok, _, _, len_bytes) :=
      recv_payload_msg p device DEVICE_IMU_MSG_GET_CAL_DATA_LENGTH 4 (le32 0) in
    if ok then Some (of_le32 len_bytes) else None.

(** The size [calibration_len + 1] of line 268 does not wrap to zero, so
    that the segments and the terminating zero of lines 280 and 287 are
    stored inside the block.  It wraps exactly for an announced length of
    0xFFFFFFFF; there the C stores leave the block, which the lists of
    this development do not represent. *)
Definition calibration_block_fits (env : open_env) (p : process)
    (callback : bool) : bool :=
  match open_until_calibration env p callback with
  | inl _ => true
  | inr (p, device) =>
      match announced_calibration_length p device with
      | Some calibration_len => negb (to_uint32 (calibration_len + 1) =? 0)
      | None => true
      end
  end.

(** The fields of a session other than the handle and the calibration
    record. *)
Definition same_session_fields (d d' : device_imu_type) : Prop :=
  vendor_id d' = vendor_id d /\ product_id d' = product_id d /\
  callback d' = callback d /\ static_id d' = static_id d /\
  last_timestamp d' = last_timestamp d /\
  temperature_celsius d' = temperature_celsius d /\
  offset d' = offset d /\ ahrs d' = ahrs d.

End Driver.

(* ================================================================= *)
(** * Simulated collaborators

    Executable instances of the three interfaces, for running the driver
    on scripted transports. *)

Module Sim.

(** ** Fusion: vector helpers and an engine that records its inputs *)

Definition vector_scale (v : FusionVector) (s : float) : FusionVector :=
  mkFusionVector (F32.mul (axis_x v) s) (F32.mul (axis_y v) s)
                 (F32.mul (axis_z v) s).

Definition neg (x : float) : float := SFopp x.

Definition axes_swap (v : FusionVector) (alignment : FusionAxesAlignment)
  : FusionVector :=
  match alignment with
  | FusionAxesAlignmentNXNZNY =>
      mkFusionVector (neg (axis_x v)) (neg (axis_z v)) (neg (axis_y v))
  | FusionAxesAlignmentPZPXPY =>
      mkFusionVector (axis_z v) (axis_x v) (axis_y v)
  end.

Definition dot3 (a b c x y z : float) : float :=
  F32.add (F32.add (F32.mul a x) (F32.mul b y)) (F32.mul c z).

Definition matrix_multiply_vector (m : FusionMatrix) (v : FusionVector)
  : FusionVector :=
  mkFusionVector
    (dot3 (element_xx m) (element_xy m) (element_xz m) (axis_x v) (axis_y v) (axis_z v))
    (dot3 (element_yx m) (element_yy m) (element_yz m) (axis_x v) (axis_y v) (axis_z v))
    (dot3 (element_zx m) (element_zy m) (element_zz m) (axis_x v) (axis_y v) (axis_z v)).

Definition calibration_inertial (uncalibrated : FusionVector)
    (misalignment : FusionMatrix) (sensitivity offset : FusionVector)
  : FusionVector :=
  matrix_multiply_vector misalignment
    (vector_zip F32.mul (vector_zip F32.sub uncalibrated offset) sensitivity).

Definition calibration_magnetic (uncalibrated : FusionVector)
    (softIron : FusionMatrix) (hardIron : FusionVector) : FusionVector :=
  matrix_multiply_vector softIron (vector_zip F32.sub uncalibrated hardIron).

Definition quaternion_multiply (a b : FusionQuaternion) : FusionQuaternion :=
  let m := F32.mul in
  let aw := element_w a in let ax := element_x a in
  let ay := element_y a in let az := element_z a in
  let bw := element_w b in let bx := element_x b in
  let by_ := element_y b in let bz := element_z b in
  {| element_w := F32.sub (F32.sub (F32.sub (m aw bw) (m ax bx)) (m ay by_)) (m az bz);
     element_x := F32.sub (F32.add (F32.add (m aw bx) (m ax bw)) (m ay bz)) (m az by_);
     element_y := F32.add (F32.add (F32.sub (m aw by_) (m ax bz)) (m ay bw)) (m az bx);
     element_z := F32.add (F32.sub (F32.add (m aw bz) (m ax by_)) (m ay bx)) (m az bw) |}.

Definition quaternion_to_matrix (q : FusionQuaternion) : FusionMatrix :=
  let m := F32.mul in
  let w := element_w q in let x := element_x q in
  let y := element_y q in let z := element_z q in
  let half := F32.literal 1 2 in
  let d a := F32.mul F32.two (F32.add (F32.sub (m w w) half) (m a a)) in
  let o a b c e := F32.mul F32.two (a (m b c) (m w e)) in
  {| element_xx := d x;
     element_xy := o F32.sub x y z;
     element_xz := o F32.add x z y;
     element_yx := o F32.add x y z;
     element_yy := d y;
     element_yz := o F32.sub y z x;
     element_zx := o F32.sub x z y;
     element_zy := o F32.add y z x;
     element_zz := d z |}.

(** [(float) M_PI]. *)
Definition pi : float := S754_finite false 13176795 (-22).

(** The engine keeps the orientation it was given and the list of the
    updates it received, oldest first. *)
Record recording_ahrs : Type := mkRecordingAhrs {
  held_orientation : FusionQuaternion;
  held_settings : option FusionAhrsSettings;
  received_updates : list (FusionVector * FusionVector * float)
}.

Definition fusion : FusionLib :=
  {| FusionAhrs := recording_ahrs;
     FusionOffset := unit;
     FusionAhrsInitialise := mkRecordingAhrs FUSION_IDENTITY_QUATERNION None [];
     FusionAhrsSetSettings a s :=
       mkRecordingAhrs (held_orientation a) (Some s) (received_updates a);
     FusionAhrsUpdateNoMagnetometer a g acc dt :=
       mkRecordingAhrs (held_orientation a) (held_settings a)
                       (received_updates a ++ [(g, acc, dt)]);
     FusionAhrsGetQuaternion := held_orientation;
     FusionOffsetInitialise _ := tt;
     FusionOffsetUpdate o g := (o, g);
     FusionQuaternionMultiply := quaternion_multiply;
     FusionQuaternionToMatrix := quaternion_to_matrix;
     FusionAxesSwap := axes_swap;
     FusionCalibrationInertial := calibration_inertial;
     FusionCalibrationMagnetic := calibration_magnetic;
     FusionVectorAdd := vector_zip F32.add;
     FusionVectorSubtract := vector_zip F32.sub;
     FusionVectorMultiplyScalar := vector_scale;
     FusionRadiansToDegrees r := F32.mul r (F32.div (F32.of_Z 180) pi);
     FusionDegreesToRadians d := F32.mul d (F32.div pi (F32.of_Z 180)) |}.

(** ** Headers *)

(** Modelled from the spec: the checksum primitive of crc32.h is "a 32-bit
    cyclic redundancy function over a byte range"; this is the reflected
    CRC-32 with polynomial 0xEDB88320. *)
Fixpoint crc_shift (n : nat) (c : Z) : Z :=
  match n with
  | O => c
  | S n =>
      crc_shift n (if Z.odd c then Z.lxor (Z.shiftr c 1) 0xEDB88320
                   else Z.shiftr c 1)
  end.

Definition crc32 (bytes : list Z) : Z :=
  Z.lxor (fold_left (fun c b => crc_shift 8 (Z.lxor c b)) bytes 0xFFFFFFFF)
         0xFFFFFFFF.

Definition slice (b : list Z) (off len : nat) : list Z :=
  firstn len (skipn off b).

Definition of_le64 (b : list Z) : Z :=
  fold_right (fun x acc => x + 256 * acc) 0 (firstn 8 b).

(** Modelled from the spec: the layout of the 64-byte sample frame of
    device_imu.h, in the order section 3 lists its fields: signature,
    timestamp, temperature, then for the gyroscope and the accelerometer
    three 24-bit axes, a 16-bit multiplier and a 32-bit divisor, and for
    the magnetometer three 16-bit axes, a 16-bit multiplier and a 32-bit
    divisor. *)
Definition packet_of_bytes (b : list Z) : device_imu_packet_type :=
  {| signature := slice b 0 2;
     timestamp := of_le64 (slice b 2 8);
     temperature := slice b 10 2;
     angular_velocity_x := slice b 12 3;
     angular_velocity_y := slice b 15 3;
     angular_velocity_z := slice b 18 3;
     angular_multiplier := slice b 21 2;
     angular_divisor := slice b 23 4;
     acceleration_x := slice b 27 3;
     acceleration_y := slice b 30 3;
     acceleration_z := slice b 33 3;
     acceleration_multiplier := slice b 36 2;
     acceleration_divisor := slice b 38 4;
     magnetic_x := slice b 42 2;
     magnetic_y := slice b 44 2;
     magnetic_z := slice b 46 2;
     magnetic_multiplier := slice b 48 2;
     magnetic_divisor := slice b 50 4 |}.

(** Values for the constants of device_imu.h and hid_ids.h (message ids,
    vendor id, product-id table), which are not part of the source tree.
    The properties below hold for every [DriverHeaders]; these values only
    serve to run the scenarios. *)
Definition headers : DriverHeaders :=
  {| xreal_vendor_id := 0x3318;
     xreal_imu_interface_id product :=
       if (product =? 0x0424) || (product =? 0x0428) then 3
       else if (product =? 0x0432) || (product =? 0x0426) then 2
       else -1;
     DEVICE_IMU_MSG_GET_CAL_DATA_LENGTH := 0x14;
     DEVICE_IMU_MSG_CAL_DATA_GET_NEXT_SEGMENT := 0x15;
     DEVICE_IMU_MSG_START_IMU_DATA := 0x19;
     DEVICE_IMU_MSG_GET_STATIC_ID := 0x1A;
     sizeof_device_imu_packet_type := 64;
     device_imu_packet_of_bytes := packet_of_bytes;
     crc32_checksum := crc32 |}.

(** ** JSON: documents as trees, and a tokener that knows a fixed set of
    documents and returns NULL on every other input *)

#[local] Set Warnings "-register-all".
Inductive json_value : Type :=
  | JsonNumber (d : float)
  | JsonArray (items : list json_value)
  | JsonObject (members : list (string * json_value)).

Fixpoint member (key : string) (members : list (string * json_value))
  : option json_value :=
  match members with
  | [] => None
  | (k, v) :: rest => if String.eqb k key then Some v else member key rest
  end.

Fixpoint same_bytes (a b : list Z) : bool :=
  match a, b with
  | [], [] => true
  | x :: a, y :: b => (x =? y) && same_bytes a b
  | _, _ => false
  end.

Fixpoint known_document (documents : list (list Z * json_value))
    (text : list Z) : option json_value :=
  match documents with
  | [] => None
  | (bytes, tree) :: rest =>
      if same_bytes bytes text then Some tree else known_document rest text
  end.

Definition json (documents : list (list Z * json_value)) : JsonLib :=
  {| json_object := json_value;
     json_tokener_parse_ex text len :=
       known_document documents (firstn (Z.to_nat len) text);
     json_object_object_get obj key :=
       match obj with
       | Some (JsonObject members) => member key members
       | _ => None
       end;
     json_object_is_array obj :=
       match obj with Some (JsonArray _) => true | _ => false end;
     json_object_array_length obj :=
       match obj with
       | Some (JsonArray items) => Z.of_nat (List.length items)
       | _ => 0
       end;
     json_object_array_get_idx obj idx :=
       match obj with
       | Some (JsonArray items) => nth_error items (Z.to_nat idx)
       | _ => None
       end;
     json_object_get_double obj :=
       match obj with Some (JsonNumber d) => d | _ => S754_zero false end;
     json_object_object_get_null := fun _ => eq_refl;
     json_object_is_array_null := eq_refl |}.

(** ** Scripted sessions *)

Definition transport (inputs : list hid_input) (outputs : list hid_output)
  : hid_device :=
  {| hid_inputs := inputs; hid_outputs := outputs;
     hid_written := []; hid_requested := [] |}.

(** An open session on [h]: default calibration, engine holding the
    orientation [q], callback registered. *)
Definition session (h : hid_device) (q : FusionQuaternion)
  : @device_imu_type fusion :=
  @mkDevice fusion 0x3318 0x0424 true (Some h) 0 0 F32.zero
            (Some tt) (Some (mkRecordingAhrs q None []))
            (Some default_calibration).

(** A response frame: head, four checksum bytes (not examined by the
    driver), little-endian length, message id, payload. *)
Definition response (msgid : Z) (payload : list Z) : list Z :=
  [0xAA; 0; 0; 0; 0] ++ le16 (3 + Z.of_nat (List.length payload))
    ++ [msgid] ++ payload.

(** A data frame: signature (0x01, 0x02), timestamp 1 s, gyroscope
    (1, 2, 3) / 1, accelerometer (0, 0, 1) / 1, magnetometer divisor 0. *)
Definition data_frame : list Z :=
  [0x01; 0x02] ++ [0x00; 0xCA; 0x9A; 0x3B; 0; 0; 0; 0] ++ [0; 0]
    ++ [1; 0; 0; 2; 0; 0; 3; 0; 0] ++ [1; 0] ++ [1; 0; 0; 0]
    ++ [0; 0; 0; 0; 0; 0; 1; 0; 0] ++ [1; 0] ++ [1; 0; 0; 0]
    ++ [5; 0x80; 6; 0x80; 7; 0x80] ++ [0; 1] ++ [0; 0; 0; 0]
    ++ repeat 0 10.

Definition infinite_x : FusionQuaternion :=
  mkFusionQuaternion F32.zero F32.infinity F32.zero F32.zero.

(** A process environment with one IMU interface reachable through [h];
    fresh heap blocks are filled with 0xCD. *)
Definition environment (h : hid_device) : open_env :=
  {| device_init := true;
     hid_enumerate _ _ := [mkHidInfo 0x0424 0 None; mkHidInfo 0x0424 3 (Some h)];
     malloc_bytes n := repeat 0xCD (Z.to_nat n);
     malloc_calibration :=
       set_iron_estimate default_calibration
         (diagonal F32.two) FUSION_VECTOR_ONES |}.

(** A calibration blob of 130 bytes. *)
Definition blob : list Z := map Z.of_nat (seq 32 130).

(** A tokener that knows no document. *)
Definition no_documents : JsonLib := json [].

End Sim.

(* ================================================================= *)
(** ** Scripted scenarios *)

Module Scenario.

(** A transport that accepts one write and has nothing to deliver. *)
Definition accept_one : hid_device := Sim.transport [] [HidAccept 64].

(** A transport about to deliver the answer to a static-id request. *)
Definition static_id_answer : hid_device :=
  Sim.transport [HidReport (Sim.response 0x1A [0x78; 0x56; 0x34; 0x12])] [].

(** A transport about to deliver one data frame. *)
Definition one_data_frame : hid_device :=
  Sim.transport [HidReport Sim.data_frame] [].

(** A device that announces 130 bytes of calibration and delivers them in
    three segments. *)
Definition length_frame : list Z := Sim.response 0x14 (le32 130).
Definition segment_1 : list Z := Sim.response 0x15 (firstn 56 Sim.blob).
Definition segment_2 : list Z := Sim.response 0x15 (firstn 56 (skipn 56 Sim.blob)).
Definition segment_3 : list Z := Sim.response 0x15 (skipn 112 Sim.blob).

Definition full_download : hid_device :=
  Sim.transport
    [HidReport length_frame; HidReport segment_1; HidReport segment_2;
     HidReport segment_3]
    [HidAccept 64; HidAccept 64; HidAccept 64; HidAccept 64].

(** A device that announces 130 bytes and then rejects the first
    get-next-segment request. *)
Definition rejected_segment : hid_device :=
  Sim.transport [HidReport length_frame] [HidAccept 64; HidWriteError].

(** A device that accepts the static-id request and then fails the read. *)
Definition silent_static_id : hid_device :=
  Sim.transport [HidReadError] [HidAccept 64].

(** For [device_imu_open]: the stop signal is accepted, nothing is pending
    for the clearing read, and the static-id request is rejected. *)
Definition rejected_static_id_request : hid_device :=
  Sim.transport [HidReport []] [HidAccept 64; HidWriteError].

(** The session of the calibration exchange on [rejected_segment]: the
    record holds the defaults, as after the reset in [device_imu_open]. *)
Definition rejected_session : @device_imu_type Sim.fusion :=
  Sim.session rejected_segment FUSION_IDENTITY_QUATERNION.

End Scenario.

(* ================================================================= *)
(** ** Vocabulary of the further properties *)

(** A relation on scalars holding on the three axes of two vectors. *)
Definition on_axes (r : float -> float -> bool) (a b : FusionVector) : bool :=
  r (axis_x a) (axis_x b) && r (axis_y a) (axis_y b) && r (axis_z a) (axis_z b).

(** [a >= b] in the sense that [a < b] is false. *)
Definition not_below (a b : float) : bool := negb (F32.ltb a b).

Definition nan_vector : FusionVector :=
  mkFusionVector S754_nan S754_nan S754_nan.

(* ================================================================= *)
(** ** Further scripted scenarios *)

Module Replay.

(** A transport that delivers [frame] and then nothing. *)
Definition delivering (frame : list Z) : hid_device :=
  Sim.transport [HidReport frame] [].

(** The request for message 0x1A with payload 1, 2, 3, 4 as it goes over
    the wire, and the same bytes behind another head, checksum and
    length. *)
Definition request : list Z := @wire_frame Sim.headers 0x1A [1; 2; 3; 4].

Definition request_other_head : list Z :=
  [0x55; 9; 9; 9; 9; 0xFF; 0xFF] ++ skipn 7 request.

(** An init frame: signature (0xaa, 0x53), timestamp 7. *)
Definition init_frame : list Z :=
  [0xAA; 0x53] ++ [7; 0; 0; 0; 0; 0; 0; 0] ++ repeat 0 54.

(** A full frame with neither signature, and a short report. *)
Definition stray_frame : list Z := [0x42; 0x42] ++ repeat 0 62.

Definition short_report : list Z := [1; 2; 3].

(** An open session on [h] without drift tracker and fusion engine. *)
Definition bare_session (h : hid_device) : @device_imu_type Sim.fusion :=
  @mkDevice Sim.fusion 0x3318 0x0424 true (Some h) 0 0 F32.zero
            None None (Some default_calibration).

(** The sessions of the scenarios: open, default calibration, identity
    orientation. *)
Definition sender : @device_imu_type Sim.fusion :=
  Sim.session Scenario.accept_one FUSION_IDENTITY_QUATERNION.

Definition receiver : @device_imu_type Sim.fusion :=
  Sim.session (delivering request) FUSION_IDENTITY_QUATERNION.

Definition receiver_other_head : @device_imu_type Sim.fusion :=
  Sim.session (delivering request_other_head) FUSION_IDENTITY_QUATERNION.

Definition streaming : @device_imu_type Sim.fusion :=
  Sim.session Scenario.one_data_frame FUSION_IDENTITY_QUATERNION.

Definition on (frame : list Z) : @device_imu_type Sim.fusion :=
  Sim.session (delivering frame) FUSION_IDENTITY_QUATERNION.

(** Two data frames with an empty report and a stray frame in between. *)
Definition calibration_run : hid_device :=
  Sim.transport
    [HidReport Sim.data_frame; HidReport []; HidReport stray_frame;
     HidReport Sim.data_frame; HidReport Sim.data_frame]
    [].

Definition calibrating : @device_imu_type Sim.fusion :=
  Sim.session calibration_run FUSION_IDENTITY_QUATERNION.

(** An enumeration in which the first IMU interface cannot be opened and
    the second can. *)
Definition busy_first : open_env :=
  {| device_init := true;
     hid_enumerate _ _ :=
       [mkHidInfo 0x0424 0 None; mkHidInfo 0x0424 3 None;
        mkHidInfo 0x0428 3 (Some Scenario.accept_one)];
     malloc_bytes n := repeat 0xCD (Z.to_nat n);
     malloc_calibration := default_calibration |}.

(** A device that answers the whole exchange of [device_imu_open]:
    nothing pending for the clearing read, the static id, an announced
    length of 130 bytes and the three segments. *)
Definition whole_exchange : hid_device :=
  Sim.transport
    [HidReport [];
     HidReport (Sim.response 0x1A [0x78; 0x56; 0x34; 0x12]);
     HidReport Scenario.length_frame; HidReport Scenario.segment_1;
     HidReport Scenario.segment_2; HidReport Scenario.segment_3]
    (repeat (HidAccept 64) 7).

(** A device that announces a calibration document of 0xFFFFFFFF
    bytes. *)
Definition announces_all_ones : hid_device :=
  Sim.transport
    [HidReport [];
     HidReport (Sim.response 0x1A [0x78; 0x56; 0x34; 0x12]);
     HidReport (Sim.response 0x14 [0xFF; 0xFF; 0xFF; 0xFF])]
    (repeat (HidAccept 64) 7).

End Replay.

(* ================================================================= *)
(** ** A host layout of the calibration record

    Little-endian IEEE binary32, the fields in the order of the struct,
    matrices row by row and quaternions as w, x, y, z. *)

Module HostLayout.

Definition bits_of_float (f : float) : Z :=
  match f with
  | S754_zero s => if s then 0x80000000 else 0
  | S754_infinity s => (if s then 0x80000000 else 0) + 0x7F800000
  | S754_nan => 0x7FC00000
  | S754_finite s m e =>
      (if s then 0x80000000 else 0)
      + (if Z.pos m <? 0x800000 then Z.pos m
         else (e + 150) * 0x800000 + (Z.pos m - 0x800000))
  end.

Definition float_of_bits (b : Z) : float :=
  let s := Z.testbit b 31 in
  let e := Z.land (Z.shiftr b 23) 0xFF in
  let m := Z.land b 0x7FFFFF in
  if e =? 0 then
    match m with
    | Z.pos p => S754_finite s p (-149)
    | _ => S754_zero s
    end
  else if e =? 255 then (if m =? 0 then S754_infinity s else S754_nan)
  else
    match m + 0x800000 with
    | Z.pos p => S754_finite s p (e - 150)
    | _ => S754_nan
    end.

Definition matrix_floats (m : FusionMatrix) : list float :=
  [element_xx m; element_xy m; element_xz m;
   element_yx m; element_yy m; element_yz m;
   element_zx m; element_zy m; element_zz m].

Definition vector_floats (v : FusionVector) : list float :=
  [axis_x v; axis_y v; axis_z v].

Definition quaternion_floats (q : FusionQuaternion) : list float :=
  [element_w q; element_x q; element_y q; element_z q].

Definition calibration_floats (c : device_imu_calibration_type) : list float :=
  matrix_floats (gyroscopeMisalignment c)
  ++ vector_floats (gyroscopeSensitivity c)
  ++ vector_floats (gyroscopeOffset c)
  ++ matrix_floats (accelerometerMisalignment c)
  ++ vector_floats (accelerometerSensitivity c)
  ++ vector_floats (accelerometerOffset c)
  ++ matrix_floats (magnetometerMisalignment c)
  ++ vector_floats (magnetometerSensitivity c)
  ++ vector_floats (magnetometerOffset c)
  ++ matrix_floats (softIronMatrix c)
  ++ vector_floats (hardIronOffset c)
  ++ quaternion_floats (noises c).

Definition record_bytes (c : device_imu_calibration_type) : list Z :=
  flat_map (fun f => le32 (bits_of_float f)) (calibration_floats c).

(** The float stored at index [i]. *)
Definition float_at (b : list Z) (i : nat) : float :=
  float_of_bits (of_le32 (firstn 4 (skipn (4 * i) b))).

Definition matrix_at (b : list Z) (i : nat) : FusionMatrix :=
  mkFusionMatrix (float_at b i) (float_at b (i + 1)) (float_at b (i + 2))
                 (float_at b (i + 3)) (float_at b (i + 4)) (float_at b (i + 5))
                 (float_at b (i + 6)) (float_at b (i + 7)) (float_at b (i + 8)).

Definition vector_at (b : list Z) (i : nat) : FusionVector :=
  mkFusionVector (float_at b i) (float_at b (i + 1)) (float_at b (i + 2)).

Definition quaternion_at (b : list Z) (i : nat) : FusionQuaternion :=
  {| element_w := float_at b i; element_x := float_at b (i + 1);
     element_y := float_at b (i + 2); element_z := float_at b (i + 3) |}.

Definition record_of_bytes (b : list Z) : device_imu_calibration_type :=
  {| gyroscopeMisalignment := matrix_at b 0;
     gyroscopeSensitivity := vector_at b 9;
     gyroscopeOffset := vector_at b 12;
     accelerometerMisalignment := matrix_at b 15;
     accelerometerSensitivity := vector_at b 24;
     accelerometerOffset := vector_at b 27;
     magnetometerMisalignment := matrix_at b 30;
     magnetometerSensitivity := vector_at b 39;
     magnetometerOffset := vector_at b 42;
     softIronMatrix := matrix_at b 45;
     hardIronOffset := vector_at b 54;
     noises := quaternion_at b 57 |}.

Definition layout : CalibrationLayout :=
  {| sizeof_device_imu_calibration_type := 244;
     calibration_bytes := record_bytes;
     calibration_of_bytes := record_of_bytes;
     calibration_bytes_length := fun c => eq_refl |}.

(** A session for the file operations: handle on an idle transport and
    the record [c]. *)
Definition session_with (c : device_imu_calibration_type)
  : @device_imu_type Sim.fusion :=
  @mkDevice Sim.fusion 0x3318 0x0424 true (Some Scenario.accept_one) 0 0
            F32.zero (Some tt) None (Some c).

(** A record that differs from the defaults in its gyroscope offset. *)
Definition measured : device_imu_calibration_type :=
  set_gyroscopeOffset default_calibration
    (mkFusionVector F32.one F32.two (F32.literal 1 2)).

(** The C library on a file with the given contents, on a stream that
    takes [room] bytes, with [fclose] returning [closes]; nothing is
    flushed when it fails. *)
Definition files (contents : option (list Z)) (room : nat) (closes : Z)
  : file_env :=
  {| fopen_result := contents; fopen_write := true;
     fwrite_room := room; fclose_result := closes; fclose_flushed := 0 |}.

End HostLayout.
(* ================================================================= *)
(** ** Codec lemmas *)

Lemma lor_shiftl_8 (lo hi : Z) :
  is_byte lo -> 0 <= hi -> Z.lor lo (Z.shiftl hi 8) = lo + 256 * hi.
Proof.
  unfold is_byte. intros Hlo Hhi.
  assert (Hland : Z.land lo (Z.shiftl hi 8) = 0).
  { apply Z.bits_inj'. intros n Hn.
    rewrite Z.land_spec, Z.bits_0.
    destruct (Z.lt_ge_cases n 8) as [Hlt | Hge].
    - rewrite Z.shiftl_spec_low by lia. apply andb_false_r.
    - replace (Z.testbit lo n) with false; [reflexivity |].
      symmetry. destruct (Z.eq_dec lo 0) as [-> | Hnz]; [apply Z.bits_0 |].
      apply Z.bits_above_log2; [lia |].
      apply Z.log2_lt_pow2; [lia |].
      apply Z.lt_le_trans with (2 ^ 8); [change (2 ^ 8) with 256; lia |].
      apply Z.pow_le_mono_r; lia. }
  pose proof (Z.add_lor_land lo (Z.shiftl hi 8)) as Hadd.
  rewrite Hland, Z.add_0_r in Hadd. rewrite Hadd.
  rewrite Z.shiftl_mul_pow2 by lia. change (2 ^ 8) with 256. lia.
Qed.

Lemma lxor_0x80_byte (b : Z) : is_byte b -> is_byte (Z.lxor b 0x80).
Proof.
  unfold is_byte. intros Hb.
  assert (Hnn : 0 <= Z.lxor b 128) by (apply Z.lxor_nonneg; lia).
  split; [exact Hnn |].
  destruct (Z.eq_dec (Z.lxor b 128) 0) as [-> | Hnz]; [lia |].
  apply Z.log2_lt_pow2 with (b := 8); [lia |].
  eapply Z.le_lt_trans; [apply Z.log2_lxor; lia |].
  apply Z.max_lub_lt.
  - destruct (Z.eq_dec b 0) as [-> | Hb0]; [reflexivity |].
    apply Z.log2_lt_pow2; lia.
  - reflexivity.
Qed.

(** C7. For every byte pair (a, b) the bizarre codec agrees with the plain
    signed little-endian codec applied to (a, b XOR 0x80), and both are the
    signed 16-bit value whose low byte is a and whose high byte is
    b XOR 0x80. *)
Theorem bizarre_is_signed_le_with_flipped_sign_bit (a b : Z) :
  is_byte a -> is_byte b ->
  pack16bit_signed_bizarre [a; b] = pack16bit_signed [a; Z.lxor b 0x80] /\
  pack16bit_signed_bizarre [a; b] = int16_le a (Z.lxor b 0x80).
Proof.
  intros Ha Hb.
  pose proof (lxor_0x80_byte b Hb) as Hx.
  assert (Hbiz : pack16bit_signed_bizarre [a; b] = int16_le a (Z.lxor b 0x80)).
  { unfold pack16bit_signed_bizarre, int16_le, to_int16, to_uint16, byte_at.
    cbn [nth].
    rewrite lor_shiftl_8 by (unfold is_byte in *; auto; lia).
    unfold is_byte in *.
    assert (Hm : (a + 256 * Z.lxor b 128) mod 2 ^ 16 = a + 256 * Z.lxor b 128)
      by (apply Z.mod_small; change (2 ^ 16) with 65536; lia).
    rewrite !Hm. reflexivity. }
  split; [| exact Hbiz].
  rewrite Hbiz.
  unfold pack16bit_signed, int16_le, to_int16, to_uint16, byte_at.
  cbn [nth].
  rewrite Z.lor_comm, lor_shiftl_8 by (unfold is_byte in *; auto; lia).
  unfold is_byte in *.
  assert (Hm : (a + 256 * Z.lxor b 128) mod 2 ^ 16 = a + 256 * Z.lxor b 128)
    by (apply Z.mod_small; change (2 ^ 16) with 65536; lia).
  rewrite !Hm. reflexivity.
Qed.

(** The literal pair of the specification: bytes (0x34, 0x02) decode like
    the little-endian int16 of (0x34, 0x82), which is -32204. *)
Lemma bizarre_is_signed_le_with_flipped_sign_bit_witness :
  (is_byte 0x34 /\ is_byte 0x02) /\
  (pack16bit_signed_bizarre [0x34; 0x02] = pack16bit_signed [0x34; Z.lxor 0x02 0x80] /\
   pack16bit_signed_bizarre [0x34; 0x02] = int16_le 0x34 (Z.lxor 0x02 0x80)) /\
  int16_le 0x34 (Z.lxor 0x02 0x80) = -32204.
Proof.
  assert (Ha : is_byte 0x34) by (unfold is_byte; lia).
  assert (Hb : is_byte 0x02) by (unfold is_byte; lia).
  split; [split; assumption | split; [| reflexivity]].
  exact (bizarre_is_signed_le_with_flipped_sign_bit 0x34 0x02 Ha Hb).
Defined.

(* ================================================================= *)
(** ** Iron-offset estimator *)

(** The part of C3 that holds: from a fresh process, the six reference
    samples end with hardIron = (0,0,0) and softIron = diag(1,1,1), which is
    also what the running extremes of the six samples give. *)
Lemma iron_reference_samples_estimate :
  snd (iron_feed iron_statics_initial
         (FUSION_IDENTITY_MATRIX, FUSION_VECTOR_ZERO) iron_reference_samples)
  = (diagonal F32.one, FUSION_VECTOR_ZERO) /\
  iron_estimate_spec (vec_of_Z 1 0 0) (tl iron_reference_samples)
  = (diagonal F32.one, FUSION_VECTOR_ZERO).
Proof. split; vm_compute; reflexivity. Qed.

(** Already after the first reference sample the estimate is not the one
    of the running extremes: on the axes y and z the stored maximum is
    [FLT_MIN], not the sample's 0. *)
Lemma iron_reference_first_sample :
  let '(st, soft, hard) :=
    iterate_iron_offset_estimation iron_statics_initial (vec_of_Z 1 0 0) in
  iron_max st = mkFusionVector F32.one F32.FLT_MIN F32.FLT_MIN /\
  axis_y hard = F32.div F32.FLT_MIN F32.two /\
  axis_y (snd (iron_estimate_spec (vec_of_Z 1 0 0) [])) = F32.zero.
Proof. vm_compute. repeat split; reflexivity. Qed.

(** C3, at a failing input.  A fresh estimator fed the single sample
    (-1,-1,-1) keeps [FLT_MIN], the least positive normal float, as its
    maximum on every axis instead of -1.  It yields hardIron = -1/2 and
    softIron = diag(2) per axis, where the running extremes (both -1) give
    hardIron = -1 and softIron = diag(1/0) = diag(+infinity). *)
Theorem iron_estimate_misses_negative_maximum :
  let sample := vec_of_Z (-1) (-1) (-1) in
  let '(st, soft, hard) :=
    iterate_iron_offset_estimation iron_statics_initial sample in
  iron_max st = mkFusionVector F32.FLT_MIN F32.FLT_MIN F32.FLT_MIN /\
  iron_min st = sample /\
  running_extreme c_max sample [] = sample /\
  running_extreme c_min sample [] = sample /\
  hard = mkFusionVector (F32.literal (-1) 2) (F32.literal (-1) 2) (F32.literal (-1) 2) /\
  soft = diagonal F32.two /\
  iron_estimate_spec sample [] = (diagonal F32.infinity, sample) /\
  (soft, hard) <> iron_estimate_spec sample [].
Proof.
  vm_compute. repeat split; try reflexivity. discriminate.
Qed.

(* ================================================================= *)
(** ** More on the codecs *)

(** A property checked on the 256 bytes holds of every byte. *)
Lemma forall_bytes (P : Z -> bool) :
  forallb P (map Z.of_nat (seq 0 256)) = true ->
  forall b, is_byte b -> P b = true.
Proof.
  intros Hall b Hb. rewrite forallb_forall in Hall. apply Hall.
  replace b with (Z.of_nat (Z.to_nat b)) by (unfold is_byte in Hb; lia).
  apply in_map, in_seq. unfold is_byte in Hb. lia.
Qed.

Lemma lor_shiftl_add (x b k : Z) :
  0 <= k -> 0 <= x < 2 ^ k -> 0 <= b ->
  Z.lor x (Z.shiftl b k) = x + b * 2 ^ k.
Proof.
  intros Hk Hx Hb.
  assert (Hland : Z.land x (Z.shiftl b k) = 0).
  { apply Z.bits_inj'. intros n Hn.
    rewrite Z.land_spec, Z.bits_0.
    destruct (Z.lt_ge_cases n k) as [Hlt | Hge].
    - rewrite Z.shiftl_spec_low by lia. apply andb_false_r.
    - replace (Z.testbit x n) with false; [reflexivity |].
      symmetry. destruct (Z.eq_dec x 0) as [-> | Hnz]; [apply Z.bits_0 |].
      apply Z.bits_above_log2; [lia |].
      apply Z.log2_lt_pow2; [lia |].
      apply Z.lt_le_trans with (2 ^ k); [lia |].
      apply Z.pow_le_mono_r; lia. }
  pose proof (Z.add_lor_land x (Z.shiftl b k)) as Hadd.
  rewrite Hland, Z.add_0_r in Hadd. rewrite Hadd.
  rewrite Z.shiftl_mul_pow2 by lia. reflexivity.
Qed.

(** The three-byte and four-byte little-endian patterns as sums. *)
Lemma lor3_sum (a b c : Z) :
  is_byte a -> is_byte b -> is_byte c ->
  Z.lor (Z.lor a (Z.shiftl b 8)) (Z.shiftl c 16) = a + 256 * b + 65536 * c.
Proof.
  unfold is_byte. intros Ha Hb Hc.
  rewrite (lor_shiftl_add a b 8) by (change (2 ^ 8) with 256; lia).
  rewrite (lor_shiftl_add _ c 16) by (change (2 ^ 8) with 256; change (2 ^ 16) with 65536; lia).
  change (2 ^ 8) with 256. change (2 ^ 16) with 65536. lia.
Qed.

Lemma lor4_sum (a b c d : Z) :
  is_byte a -> is_byte b -> is_byte c -> is_byte d ->
  Z.lor (Z.lor (Z.lor a (Z.shiftl b 8)) (Z.shiftl c 16)) (Z.shiftl d 24)
  = a + 256 * b + 65536 * c + 16777216 * d.
Proof.
  intros Ha Hb Hc Hd. rewrite lor3_sum by assumption.
  unfold is_byte in *.
  rewrite (lor_shiftl_add _ d 24) by (change (2 ^ 24) with 16777216; lia).
  change (2 ^ 24) with 16777216. lia.
Qed.

(** The bytes of [le32 z] are bytes and sum to [z] modulo 2^32. *)
Lemma le32_bytes (z : Z) :
  exists a b c d,
    le32 z = [a; b; c; d] /\
    is_byte a /\ is_byte b /\ is_byte c /\ is_byte d /\
    a + 256 * b + 65536 * c + 16777216 * d = z mod 4294967296.
Proof.
  unfold le32, to_uint8, is_byte.
  rewrite !Z.shiftr_div_pow2 by lia.
  change (2 ^ 8) with 256. change (2 ^ 16) with 65536. change (2 ^ 24) with 16777216.
  do 4 eexists. split; [reflexivity |].
  repeat split; try (apply Z.mod_pos_bound; lia).
  Z.div_mod_to_equations. lia.
Qed.

(** X1. Round trip of the 32-bit little-endian codec: decoding the four bytes
    that store a signed 32-bit value gives the value back. *)
Theorem pack32bit_signed_le32 (z : Z) :
  - 2147483648 <= z < 2147483648 ->
  pack32bit_signed (le32 z) = z.
Proof.
  intros Hz.
  destruct (le32_bytes z) as (a & b & c & d & -> & Ha & Hb & Hc & Hd & Hsum).
  unfold pack32bit_signed, byte_at. cbn [nth].
  rewrite lor4_sum by assumption. rewrite Hsum.
  unfold to_int32, to_uint32.
  change (2 ^ 32) with 4294967296. change (2 ^ 31) with 2147483648.
  rewrite !Z.mod_mod by lia.
  assert (Hm : z mod 4294967296 = if z <? 0 then z + 4294967296 else z).
  { destruct (Z.ltb_spec z 0); Z.div_mod_to_equations; lia. }
  rewrite Hm.
  destruct (Z.ltb_spec z 0) as [Hneg | Hpos].
  - replace (z + 4294967296 <? 2147483648) with false
      by (symmetry; apply Z.ltb_ge; lia). lia.
  - replace (z <? 2147483648) with true by (symmetry; apply Z.ltb_lt; lia).
    reflexivity.
Qed.

(** X2. Round trip of the 16-bit little-endian codec. *)
Theorem pack16bit_signed_le16 (z : Z) :
  - 32768 <= z < 32768 ->
  pack16bit_signed (le16 z) = z.
Proof.
  intros Hz.
  unfold pack16bit_signed, le16, byte_at, to_uint8. cbn [nth].
  rewrite Z.shiftr_div_pow2 by lia. change (2 ^ 8) with 256.
  rewrite Z.lor_comm.
  rewrite lor_shiftl_8
    by (unfold is_byte; try apply Z.mod_pos_bound; Z.div_mod_to_equations; lia).
  unfold to_int16, to_uint16.
  change (2 ^ 16) with 65536. change (2 ^ 15) with 32768.
  rewrite !Z.mod_mod by lia.
  assert (E : (z mod 256 + 256 * ((z / 256) mod 256)) mod 65536
              = if z <? 0 then z + 65536 else z).
  { destruct (Z.ltb_spec z 0); Z.div_mod_to_equations; lia. }
  rewrite E.
  destruct (Z.ltb_spec z 0) as [Hneg | Hpos].
  - replace (z + 65536 <? 32768) with false by (symmetry; apply Z.ltb_ge; lia).
    lia.
  - replace (z <? 32768) with true by (symmetry; apply Z.ltb_lt; lia).
    reflexivity.
Qed.

(** X3. The 24-bit codec sign-extends: three bytes decode to the 24-bit two's
    complement value of their little-endian pattern, between -2^23 and
    2^23 - 1. *)
Theorem pack24bit_signed_sign_extends (a b c : Z) :
  is_byte a -> is_byte b -> is_byte c ->
  let u := a + 256 * b + 65536 * c in
  pack24bit_signed [a; b; c] = (if u <? 8388608 then u else u - 16777216) /\
  - 8388608 <= pack24bit_signed [a; b; c] < 8388608.
Proof.
  intros Ha Hb Hc u.
  assert (Hsign : (Z.land c 128 =? 0) = (c <? 128)).
  { pose proof (forall_bytes
                  (fun c => Bool.eqb (Z.land c 128 =? 0) (c <? 128))
                  ltac:(vm_compute; reflexivity) c Hc) as H.
    apply Bool.eqb_prop in H. exact H. }
  assert (Hval : pack24bit_signed [a; b; c]
                 = if u <? 8388608 then u else u - 16777216).
  { unfold pack24bit_signed, byte_at. cbn [nth].
    rewrite lor3_sum by assumption. fold u.
    change 0x80 with 128. rewrite Hsign.
    unfold is_byte in *.
    assert (Hu : 0 <= u < 16777216) by (unfold u; lia).
    assert (Hu32 : to_uint32 u = u)
      by (unfold to_uint32; apply Z.mod_small; change (2 ^ 32) with 4294967296; lia).
    rewrite Hu32.
    destruct (Z.ltb_spec c 128) as [Hlow | Hhigh]; cbn [negb].
    - replace (u <? 8388608) with true by (symmetry; apply Z.ltb_lt; unfold u; lia).
      unfold to_int32. rewrite Hu32.
      change (2 ^ 31) with 2147483648.
      replace (u <? 2147483648) with true by (symmetry; apply Z.ltb_lt; lia).
      reflexivity.
    - replace (u <? 8388608) with false by (symmetry; apply Z.ltb_ge; unfold u; lia).
      rewrite (lor_shiftl_add u 255 24) by (change (2 ^ 24) with 16777216; lia).
      change (2 ^ 24) with 16777216.
      assert (Hv : to_uint32 (u + 255 * 16777216) = u + 255 * 16777216)
        by (unfold to_uint32; apply Z.mod_small;
            change (2 ^ 32) with 4294967296; unfold u; lia).
      unfold to_int32. rewrite !Hv.
      change (2 ^ 32) with 4294967296. change (2 ^ 31) with 2147483648.
      replace (u + 255 * 16777216 <? 2147483648) with false
        by (symmetry; apply Z.ltb_ge; unfold u; lia).
      lia. }
  split; [exact Hval |].
  rewrite Hval. unfold is_byte in *.
  destruct (Z.ltb_spec u 8388608); unfold u in *; lia.
Qed.

(** X4. The byte-swapped decoders are the little-endian decoders applied to
    the bytes in reverse order. *)
Theorem swapped_codecs_reverse (a b c d : Z) :
  pack32bit_signed_swap [a; b; c; d] = pack32bit_signed [d; c; b; a] /\
  pack16bit_signed_swap [a; b] = pack16bit_signed [b; a].
Proof.
  split; [| reflexivity].
  unfold pack32bit_signed_swap, pack32bit_signed, byte_at. cbn [nth].
  f_equal. f_equal.
  apply Z.bits_inj. intros n. rewrite !Z.lor_spec.
  destruct (Z.testbit (Z.shiftl a 24) n), (Z.testbit (Z.shiftl b 16) n),
           (Z.testbit (Z.shiftl c 8) n), (Z.testbit d n); reflexivity.
Qed.

(** X5. The "bizarre" magnetometer codec is offset binary: the two bytes read
    as an unsigned little-endian number, minus 32768. *)
Theorem bizarre_is_offset_binary (a b : Z) :
  is_byte a -> is_byte b ->
  pack16bit_signed_bizarre [a; b] = a + 256 * b - 32768 /\
  - 32768 <= pack16bit_signed_bizarre [a; b] < 32768.
Proof.
  intros Ha Hb.
  assert (Hflip : Z.lxor b 128 = if b <? 128 then b + 128 else b - 128).
  { pose proof (forall_bytes
                  (fun b => Z.lxor b 128 =? (if b <? 128 then b + 128 else b - 128))
                  ltac:(vm_compute; reflexivity) b Hb) as H.
    apply Z.eqb_eq in H. exact H. }
  assert (Hval : pack16bit_signed_bizarre [a; b] = a + 256 * b - 32768).
  { unfold pack16bit_signed_bizarre, to_int16, to_uint16, byte_at. cbn [nth].
    change 0x80 with 128.
    pose proof (lxor_0x80_byte b Hb) as Hx. change 0x80 with 128 in Hx.
    rewrite lor_shiftl_8 by (unfold is_byte in *; auto; lia).
    unfold is_byte in *.
    change (2 ^ 16) with 65536. change (2 ^ 15) with 32768.
    rewrite Z.mod_mod by lia.
    rewrite (Z.mod_small (a + 256 * Z.lxor b 128)) by lia.
    rewrite Hflip.
    destruct (Z.ltb_spec b 128).
    - replace (a + 256 * (b + 128) <? 32768) with false
        by (symmetry; apply Z.ltb_ge; lia). lia.
    - replace (a + 256 * (b - 128) <? 32768) with true
        by (symmetry; apply Z.ltb_lt; lia). lia. }
  split; [exact Hval |]. rewrite Hval. unfold is_byte in *. lia.
Qed.

(* ================================================================= *)
(** ** More on the iron-offset estimator *)

Lemma SFcompare_antisym (x y : float) :
  SFcompare y x = option_map CompOpp (SFcompare x y).
Proof.
  destruct x as [sx | sx | | sx mx ex], y as [sy | sy | | sy my ey];
    try reflexivity;
    try (destruct sx; reflexivity);
    try (destruct sy; reflexivity);
    try (destruct sx, sy; reflexivity).
  cbn [SFcompare option_map]. f_equal.
  rewrite (Z.compare_antisym ex ey).
  change (Pos.compare_cont Eq my mx) with (Pos.compare my mx).
  change (Pos.compare_cont Eq mx my) with (Pos.compare mx my).
  rewrite (Pos.compare_antisym mx my).
  destruct sx, sy; try reflexivity;
    destruct (ex ?= ey); cbn [CompOpp]; try reflexivity;
    destruct (mx ?= my)%positive; reflexivity.
Qed.

Lemma ltb_asym (x y : float) : SFltb x y = true -> SFltb y x = false.
Proof.
  unfold SFltb. rewrite (SFcompare_antisym x y).
  destruct (SFcompare x y) as [[| |] |]; cbn; congruence.
Qed.

Lemma ltb_irrefl (x : float) : SFltb x x = false.
Proof.
  destruct (SFltb x x) eqn:E; [| reflexivity].
  pose proof (ltb_asym x x E). congruence.
Qed.

(** The running maximum and minimum of one axis: the new maximum is the old
    one or the sample, is not below either of them, and dually for the
    minimum. *)
Lemma c_max_bounds (a m : float) :
  (c_max a m = a \/ c_max a m = m) /\
  not_below (c_max a m) a = true /\ not_below (c_max a m) m = true.
Proof.
  unfold c_max, not_below, F32.gtb, F32.ltb.
  destruct (SFltb m a) eqn:E.
  - split; [left; reflexivity |].
    rewrite ltb_irrefl, (ltb_asym m a E). split; reflexivity.
  - split; [right; reflexivity |].
    rewrite E, ltb_irrefl. split; reflexivity.
Qed.

Lemma c_min_bounds (a m : float) :
  (c_min a m = a \/ c_min a m = m) /\
  not_below a (c_min a m) = true /\ not_below m (c_min a m) = true.
Proof.
  unfold c_min, not_below, F32.ltb.
  destruct (SFltb a m) eqn:E.
  - split; [left; reflexivity |].
    rewrite ltb_irrefl, (ltb_asym a m E). split; reflexivity.
  - split; [right; reflexivity |].
    rewrite E, ltb_irrefl. split; reflexivity.
Qed.

(** X6. After every sample, on each axis, the stored maximum is not below its
    previous value nor below the sample, and the stored minimum is not
    above its previous value nor above the sample: the extremes only widen
    and always bracket the latest sample. *)
Theorem iron_extremes_widen_and_bracket (st : iron_statics)
    (magnetometer : FusionVector) :
  let st' := fst (fst (iterate_iron_offset_estimation st magnetometer)) in
  on_axes not_below (iron_max st') (iron_max st) = true /\
  on_axes not_below (iron_max st') magnetometer = true /\
  on_axes not_below (iron_min st) (iron_min st') = true /\
  on_axes not_below magnetometer (iron_min st') = true.
Proof.
  cbn [iterate_iron_offset_estimation fst iron_max iron_min].
  unfold on_axes, vector_zip.
  cbn [axis_x axis_y axis_z].
  destruct (c_max_bounds (axis_x (iron_max st)) (axis_x magnetometer)) as (_ & -> & ->).
  destruct (c_max_bounds (axis_y (iron_max st)) (axis_y magnetometer)) as (_ & -> & ->).
  destruct (c_max_bounds (axis_z (iron_max st)) (axis_z magnetometer)) as (_ & -> & ->).
  destruct (c_min_bounds (axis_x (iron_min st)) (axis_x magnetometer)) as (_ & -> & ->).
  destruct (c_min_bounds (axis_y (iron_min st)) (axis_y magnetometer)) as (_ & -> & ->).
  destruct (c_min_bounds (axis_z (iron_min st)) (axis_z magnetometer)) as (_ & -> & ->).
  repeat split; reflexivity.
Qed.

(** X7. A NaN sample wipes the history: whatever the estimator had seen, after
    a sample that is NaN on every axis followed by a sample [v], both
    stored extremes are [v]. *)
Theorem iron_nan_sample_resets_extremes (st : iron_statics) (v : FusionVector) :
  let st1 := fst (fst (iterate_iron_offset_estimation st nan_vector)) in
  let st2 := fst (fst (iterate_iron_offset_estimation st1 v)) in
  iron_max st1 = nan_vector /\ iron_min st1 = nan_vector /\
  iron_max st2 = v /\ iron_min st2 = v.
Proof.
  assert (Hmax : forall a, c_max a S754_nan = S754_nan).
  { intros a. unfold c_max, F32.gtb, SFltb. reflexivity. }
  assert (Hmin : forall a, c_min a S754_nan = S754_nan).
  { intros a. unfold c_min, F32.ltb, SFltb, SFcompare.
    destruct a; reflexivity. }
  assert (Hmax' : forall x, c_max S754_nan x = x).
  { intros x. unfold c_max, F32.gtb, SFltb, SFcompare. destruct x; reflexivity. }
  assert (Hmin' : forall x, c_min S754_nan x = x).
  { intros x. unfold c_min, F32.ltb, SFltb. reflexivity. }
  cbn [iterate_iron_offset_estimation fst iron_max iron_min].
  unfold vector_zip, nan_vector. cbn [axis_x axis_y axis_z].
  rewrite !Hmax, !Hmin, !Hmax', !Hmin'.
  destruct v. repeat split; reflexivity.
Qed.

(* ================================================================= *)
(** * Properties of the driver *)

Section DriverProperties.

Context {fusion : FusionLib} {headers : DriverHeaders} {json : JsonLib}.

(* ================================================================= *)
(** ** Framing *)

(** Closing a goal [(x ?? y) = b] on integers. *)
Ltac zbool :=
  rewrite ?Z.geb_leb, ?Z.gtb_ltb;
  first [ apply Z.leb_le | apply Z.leb_gt | apply Z.ltb_lt | apply Z.ltb_ge
        | apply Z.eqb_eq | apply Z.eqb_neq ];
  lia.

Lemma small_uint16 (z : Z) : 0 <= z < 65536 -> to_uint16 z = z.
Proof. intros H. unfold to_uint16. apply Z.mod_small. change (2 ^ 16) with 65536. lia. Qed.

Lemma small_uint8 (z : Z) : 0 <= z < 256 -> to_uint8 z = z.
Proof. intros H. unfold to_uint8. apply Z.mod_small. change (2 ^ 8) with 256. lia. Qed.

Lemma small_uint32 (z : Z) : 0 <= z < 4294967296 -> to_uint32 z = z.
Proof. intros H. unfold to_uint32. apply Z.mod_small. change (2 ^ 32) with 4294967296. lia. Qed.

Lemma payload_len_small (len : Z) :
  0 <= len <= 56 ->
  to_uint16 (3 + len) = 3 + len /\
  to_uint8 (to_uint16 (5 + to_uint16 (3 + len))) = 8 + len.
Proof.
  intros H.
  rewrite (small_uint16 (3 + len)) by lia.
  rewrite (small_uint16 (5 + (3 + len))) by lia.
  rewrite small_uint8 by lia. split; lia.
Qed.

Lemma firstn_exact {A} (l r : list A) (n : nat) :
  n = List.length l -> firstn n (l ++ r) = l.
Proof.
  intros ->. rewrite firstn_app, Nat.sub_diag, firstn_all. cbn.
  apply app_nil_r.
Qed.

(** The bytes of the built packet that go on the wire. *)
Lemma build_packet_bytes (old : device_imu_payload_packet_type)
    (msgid len : Z) (data : list Z) :
  0 <= len <= 56 -> Z.of_nat (List.length data) = len ->
  firstn (Z.to_nat (8 + len))
         (payload_packet_bytes (build_packet old msgid len data))
  = wire_frame msgid data.
Proof.
  intros Hlen Hdata.
  assert (Hn : Z.to_nat len = List.length data) by lia.
  unfold build_packet, wire_frame, frame_region, payload_packet_bytes.
  cbn [packet_head packet_checksum packet_length packet_msgid packet_data].
  rewrite Hdata.
  rewrite (proj1 (payload_len_small len Hlen)).
  rewrite Hn, firstn_all.
  replace (Z.to_nat (8 + len)) with (8 + List.length data)%nat by lia.
  replace (Z.to_nat (3 + len)) with (3 + List.length data)%nat by lia.
  unfold overwrite, le32, le16.
  cbn [app firstn skipn Nat.add].
  rewrite !firstn_exact by reflexivity.
  reflexivity.
Qed.

Lemma wire_frame_length (msgid : Z) (data : list Z) :
  Z.of_nat (List.length (wire_frame msgid data))
  = 5 + (3 + Z.of_nat (List.length data)).
Proof.
  unfold wire_frame, frame_region, le32, le16.
  cbn [app List.length]. lia.
Qed.

Lemma hid_write_result_le (o : hid_output) (n : Z) :
  0 <= n -> -1 <= hid_write_result o n <= n.
Proof. intros Hn. destruct o; cbn; lia. Qed.

(** What a send does to the session, whatever the transport answers. *)
Lemma send_payload_msg_eq (p : process) (device : device_imu_type)
    (h : hid_device) (msgid len : Z) (data : list Z) :
  handle device = Some h ->
  0 <= len <= 56 -> Z.of_nat (List.length data) = len ->
  send_payload_msg p device msgid len data
  = (hid_write_result (hd HidWriteError (hid_outputs h)) (8 + len) =? 8 + len,
     set_send_packet p (build_packet (send_packet p) msgid len data),
     set_handle device (Some (hid_after_write h (wire_frame msgid data)))).
Proof.
  intros Hh Hlen Hdata.
  unfold send_payload_msg, send_payload, device_hid_write, hid_write.
  rewrite Hh.
  destruct (payload_len_small len Hlen) as [H16 H8].
  rewrite H8, ?H16.
  replace (8 + len >? MAX_PACKET_SIZE) with false
    by (symmetry; unfold MAX_PACKET_SIZE; zbool).
  rewrite build_packet_bytes by assumption.
  fold (hid_after_write h (wire_frame msgid data)).
  destruct (hid_write_result (hd HidWriteError (hid_outputs h)) (8 + len) =? 8 + len);
    reflexivity.
Qed.

(** C2. For every message id and payload of length len <= 56, the send
    hands the transport exactly one buffer of 5 + (3 + len) bytes: the head
    byte 0xAA, the little-endian checksum of the (3 + len)-byte region made
    of the little-endian length 3 + len, the message id and the payload,
    then that region; and it reports failure exactly when the transport
    accepts fewer bytes than it was offered. *)
Theorem send_payload_msg_frame (p : process) (device : device_imu_type)
    (h : hid_device) (msgid len : Z) (data : list Z) :
  handle device = Some h ->
  0 <= len <= 56 -> Z.of_nat (List.length data) = len ->
  let region := le16 (3 + len) ++ [msgid] ++ data in
  let frame := [0xAA] ++ le32 (to_uint32 (crc32_checksum region)) ++ region in
  let accepted := fst (hid_write h frame (8 + len)) in
  exists h',
    handle (snd (send_payload_msg p device msgid len data)) = Some h' /\
    hid_written h' = hid_written h ++ [frame] /\
    hid_requested h' = hid_requested h /\
    Z.of_nat (List.length region) = 3 + len /\
    Z.of_nat (List.length frame) = 5 + (3 + len) /\
    (fst (fst (send_payload_msg p device msgid len data)) = false
     <-> accepted < 8 + len).
Proof.
  intros Hh Hlen Hdata region frame accepted.
  assert (Hframe : frame = wire_frame msgid data).
  { unfold frame, region, wire_frame, frame_region. rewrite Hdata. reflexivity. }
  exists (hid_after_write h frame).
  rewrite (send_payload_msg_eq p device h msgid len data Hh Hlen Hdata).
  cbn [fst snd]. rewrite <- Hframe.
  split; [reflexivity |].
  split; [reflexivity |].
  split; [reflexivity |].
  split; [unfold region, le16; cbn [app List.length]; lia |].
  split; [rewrite Hframe, wire_frame_length; lia |].
  unfold accepted, hid_write. cbn [fst].
  pose proof (hid_write_result_le (hd HidWriteError (hid_outputs h)) (8 + len)) as Hle.
  destruct (Z.eqb_spec (hid_write_result (hd HidWriteError (hid_outputs h)) (8 + len))
                       (8 + len)) as [E | NE].
  - split; [discriminate | lia].
  - split; [lia | reflexivity].
Qed.

(** What a receive does to the session, whatever the transport delivers. *)
Lemma recv_payload_msg_eq (p : process) (device : device_imu_type)
    (h : hid_device) (msgid len : Z) (data : list Z) :
  handle device = Some h -> 0 <= len <= 56 ->
  let packet :=
    payload_packet_of_bytes (received_bytes (recv_packet p) h (8 + len)) in
  let ok := full_report h (8 + len) && (packet_msgid packet =? msgid) in
  recv_payload_msg p device msgid len data
  = (ok, set_recv_packet p packet,
     set_handle device (Some (hid_after_read h (8 + len))),
     if ok then overwrite data (firstn (Z.to_nat len) (packet_data packet))
     else data).
Proof.
  intros Hh Hlen packet ok. subst packet ok.
  unfold recv_payload_msg, recv_payload, device_hid_read, hid_read.
  rewrite Hh.
  destruct (payload_len_small len Hlen) as [H16 H8].
  rewrite H8.
  replace (8 + len >? MAX_PACKET_SIZE) with false
    by (symmetry; unfold MAX_PACKET_SIZE; zbool).
  fold (hid_after_read h (8 + len)).
  unfold received_bytes, full_report.
  destruct (hd HidReadError (hid_inputs h)) as [| b].
  - replace (-1 >=? 8 + len) with false by (symmetry; zbool).
    replace (-1 =? 8 + len) with false by (symmetry; zbool).
    cbn [negb andb]. reflexivity.
  - rewrite length_firstn.
    destruct (Z.leb_spec (8 + len) (Z.of_nat (List.length b))) as [Hfull | Hshort].
    + replace (Z.of_nat (Nat.min (Z.to_nat (8 + len)) (List.length b)) >=? 8 + len)
        with true by (symmetry; zbool).
      replace (8 + len =? 0) with false by (symmetry; zbool).
      rewrite Z.eqb_refl. cbn [negb andb].
      destruct (packet_msgid _ =? msgid); reflexivity.
    + replace (Z.of_nat (Nat.min (Z.to_nat (8 + len)) (List.length b)) >=? 8 + len)
        with false by (symmetry; zbool).
      replace (Z.of_nat (Nat.min (Z.to_nat (8 + len)) (List.length b)) =? 8 + len)
        with false by (symmetry; zbool).
      destruct (Z.of_nat (Nat.min (Z.to_nat (8 + len)) (List.length b)) =? 0);
        reflexivity.
Qed.

(** The message id and the payload of a report that covers the frame. *)
Lemma received_frame_fields (old : device_imu_payload_packet_type)
    (frame : list Z) (len : Z) :
  0 <= len <= 56 -> 8 + len <= Z.of_nat (List.length frame) ->
  let bytes := overwrite (payload_packet_bytes (clear_packet old))
                         (firstn (Z.to_nat (8 + len)) frame) in
  packet_msgid (payload_packet_of_bytes bytes) = byte_at frame 7 /\
  firstn (Z.to_nat len) (packet_data (payload_packet_of_bytes bytes))
  = firstn (Z.to_nat len) (skipn 8 frame).
Proof.
  intros Hlen Hfull bytes. subst bytes.
  unfold payload_packet_of_bytes, overwrite, byte_at.
  cbn [packet_msgid packet_data].
  set (got := firstn (Z.to_nat (8 + len)) frame).
  assert (Hgot : List.length got = (8 + Z.to_nat len)%nat).
  { unfold got. rewrite firstn_length_le; lia. }
  split.
  - rewrite app_nth1 by lia.
    unfold got. rewrite nth_firstn.
    replace (7 <? Z.to_nat (8 + len))%nat with true; [reflexivity |].
    symmetry. apply Nat.ltb_lt. lia.
  - rewrite skipn_app, firstn_firstn.
    replace (Nat.min (Z.to_nat len) 56) with (Z.to_nat len) by lia.
    rewrite firstn_app.
    assert (Hsk : List.length (skipn 8 got) = Z.to_nat len)
      by (rewrite length_skipn; lia).
    rewrite Hsk, Nat.sub_diag, firstn_0, app_nil_r.
    rewrite firstn_all2 by lia.
    unfold got. rewrite skipn_firstn_comm. f_equal. lia.
Qed.

(** C5. A receive asks the transport once, for exactly 5 + 3 + len bytes,
    and consumes one report.  It succeeds only if that report covers the
    frame and its message-id byte is the expected one, and then copies the
    len payload bytes out.  In every other case, a mismatching message id
    included, it reports failure, leaves the caller's buffer untouched and
    does not read again: the frame is dropped and nothing resynchronises. *)
Theorem recv_payload_msg_checks_msgid (p : process) (device : device_imu_type)
    (h : hid_device) (msgid len : Z) (data : list Z) :
  handle device = Some h -> 0 <= len <= 56 ->
  let '(ok, _, device', data') := recv_payload_msg p device msgid len data in
  exists h',
    handle device' = Some h' /\
    hid_requested h' = hid_requested h ++ [5 + 3 + len] /\
    hid_inputs h' = tl (hid_inputs h) /\
    hid_written h' = hid_written h /\
    (ok = true ->
       exists frame,
         hd HidReadError (hid_inputs h) = HidReport frame /\
         5 + 3 + len <= Z.of_nat (List.length frame) /\
         byte_at frame 7 = msgid /\
         data' = overwrite data (firstn (Z.to_nat len) (skipn 8 frame))) /\
    (forall frame,
       hd HidReadError (hid_inputs h) = HidReport frame ->
       5 + 3 + len <= Z.of_nat (List.length frame) ->
       byte_at frame 7 <> msgid -> ok = false) /\
    (ok = false -> data' = data).
Proof.
  intros Hh Hlen.
  rewrite (recv_payload_msg_eq p device h msgid len data Hh Hlen).
  exists (hid_after_read h (8 + len)).
  replace (5 + 3 + len) with (8 + len) by lia.
  split; [reflexivity |].
  split; [reflexivity |].
  split; [reflexivity |].
  split; [reflexivity |].
  unfold full_report, received_bytes.
  destruct (hd HidReadError (hid_inputs h)) as [| b].
  - cbn [andb]. split; [discriminate |].
    split; [intros frame Hf; discriminate | reflexivity].
  - destruct (Z.leb_spec (8 + len) (Z.of_nat (List.length b))) as [Hfull | Hshort].
    + destruct (received_frame_fields (recv_packet p) b len Hlen Hfull) as [Hid Hpl].
      cbv zeta in Hid, Hpl. rewrite Hid, Hpl. cbn [andb].
      destruct (Z.eqb_spec (byte_at b 7) msgid) as [E | NE].
      * split; [intros _; exists b; repeat split; assumption |].
        split; [| discriminate].
        intros frame Hf _ Hne. injection Hf as ->. contradiction.
      * split; [discriminate |].
        split; reflexivity.
    + cbn [andb]. split; [discriminate |].
      split; reflexivity.
Qed.

(** X10. Beyond the frame's capacity (56 < len <= 247) the request is capped at
    the 64-byte transport unit and the receive fails whatever arrives. *)
Lemma recv_payload_msg_oversized (p : process) (device : device_imu_type)
    (h : hid_device) (msgid len : Z) (data : list Z) :
  handle device = Some h -> 56 < len <= 247 ->
  let '(ok, _, device', data') := recv_payload_msg p device msgid len data in
  ok = false /\ data' = data /\
  handle device' = Some (hid_after_read h MAX_PACKET_SIZE).
Proof.
  intros Hh Hlen.
  unfold recv_payload_msg, recv_payload, device_hid_read, hid_read.
  rewrite Hh.
  rewrite (small_uint16 (3 + len)) by lia.
  rewrite (small_uint16 (5 + (3 + len))) by lia.
  rewrite small_uint8 by lia.
  replace (5 + (3 + len) >? MAX_PACKET_SIZE) with true
    by (symmetry; unfold MAX_PACKET_SIZE; zbool).
  fold (hid_after_read h MAX_PACKET_SIZE).
  destruct (hd HidReadError (hid_inputs h)) as [| b].
  - replace (-1 >=? MAX_PACKET_SIZE) with false by reflexivity.
    cbn [negb]. change (-1 =? 0) with false. change (-1 =? MAX_PACKET_SIZE) with false.
    cbn [negb]. repeat split; reflexivity.
  - destruct (Z.of_nat (List.length (firstn (Z.to_nat MAX_PACKET_SIZE) b))
              >=? MAX_PACKET_SIZE).
    + change (MAX_PACKET_SIZE =? 0) with false. rewrite Z.eqb_refl. cbn [negb].
      replace (MAX_PACKET_SIZE =? 5 + (3 + len)) with false
        by (symmetry; unfold MAX_PACKET_SIZE; zbool).
      cbn [negb]. repeat split; reflexivity.
    + destruct (_ =? 0); [repeat split; reflexivity |].
      destruct (negb (_ =? MAX_PACKET_SIZE)); [repeat split; reflexivity |].
      replace (Z.of_nat (List.length (firstn (Z.to_nat MAX_PACKET_SIZE) b))
               =? 5 + (3 + len)) with false.
      * cbn [negb]. repeat split; reflexivity.
      * symmetry. apply Z.eqb_neq. rewrite length_firstn.
        unfold MAX_PACKET_SIZE. lia.
Qed.

(* ================================================================= *)
(** ** Streaming read *)

Lemma apply_calibration_outputs (p : process) (device : device_imu_type)
    (gyroscope accelerometer magnetometer : FusionVector) :
  exists p' device' m',
    apply_calibration p device gyroscope accelerometer magnetometer
    = (p', device', (calibrated_gyroscope device gyroscope,
                     calibrated_accelerometer device accelerometer, m')) /\
    events p' = events p /\
    ahrs device' = ahrs device /\
    offset device' = offset device /\
    callback device' = callback device /\
    handle device' = handle device.
Proof.
  unfold apply_calibration, calibrated_gyroscope, calibrated_accelerometer.
  destruct (iterate_iron_offset_estimation _ _) as [[st soft] hard].
  do 3 eexists. split; [reflexivity |].
  destruct (calibration device); cbn; repeat split; reflexivity.
Qed.

(** The result of the data-frame path, by cases on the session. *)
Lemma read_data_frame_result (p : process) (device : device_imu_type)
    (packet : device_imu_packet_type) (a : FusionAhrs) :
  ahrs device = Some a ->
  let a' :=
    fusion_update_no_magnetometer a
      (tracked_gyroscope device (fst (fst (readIMU_from_packet packet))))
      (calibrated_accelerometer device (snd (fst (readIMU_from_packet packet))))
      (delta_time device (timestamp packet)) in
  exists p' device',
    read_data_frame p device packet (timestamp packet)
    = (if orientation_isnan (FusionAhrsGetQuaternion a')
       then DEVICE_IMU_ERROR_INVALID_VALUE else DEVICE_IMU_ERROR_NO_ERROR,
       p', device') /\
    ahrs device' = Some a' /\
    events p' =
      (if orientation_isnan (FusionAhrsGetQuaternion a') then events p
       else if callback device
            then events p ++ [(timestamp packet, DEVICE_IMU_EVENT_UPDATE)]
            else events p).
Proof.
  intros Ha a'. subst a'.
  unfold read_data_frame, tracked_gyroscope, delta_time.
  destruct (readIMU_from_packet packet) as [[g acc] m]. cbn [fst snd].
  set (d1 := set_temperature _ _).
  destruct (apply_calibration_outputs p d1 g acc m)
    as (p1 & d2 & m' & Heq & Hev & Hahrs & Hoff & Hcb & Hh).
  rewrite Heq.
  assert (Hg : calibrated_gyroscope d1 g = calibrated_gyroscope device g) by reflexivity.
  assert (Hacc : calibrated_accelerometer d1 acc = calibrated_accelerometer device acc)
    by reflexivity.
  rewrite Hg, Hacc.
  assert (Hoff' : offset d2 = offset device) by (rewrite Hoff; reflexivity).
  assert (Hahrs' : ahrs d2 = Some a) by (rewrite Hahrs; exact Ha).
  assert (Hcb' : callback d2 = callback device) by (rewrite Hcb; reflexivity).
  rewrite Hoff'.
  unfold fusion_update_no_magnetometer.
  destruct (offset device) as [o |].
  - destruct (FusionOffsetUpdate o (calibrated_gyroscope device g)) as [o' g'].
    cbn [snd ahrs set_offset]. rewrite Hahrs'.
    cbn [ahrs set_ahrs device_imu_get_orientation].
    unfold fusion_update.
    match goal with |- context [if ?c then ?x else ?x] => replace (if c then x else x) with x by (destruct c; reflexivity) end.
    destruct (orientation_isnan _).
    + do 2 eexists. split; [reflexivity |]. split; [reflexivity | exact Hev].
    + do 2 eexists. split; [reflexivity |]. split; [reflexivity |].
      unfold device_imu_callback. cbn [callback set_ahrs set_offset].
      rewrite Hcb'. destruct (callback device); cbn; rewrite ?Hev; reflexivity.
  - rewrite Hahrs'.
    cbn [ahrs set_ahrs device_imu_get_orientation].
    unfold fusion_update.
    match goal with |- context [if ?c then ?x else ?x] => replace (if c then x else x) with x by (destruct c; reflexivity) end.
    destruct (orientation_isnan _).
    + do 2 eexists. split; [reflexivity |]. split; [reflexivity | exact Hev].
    + do 2 eexists. split; [reflexivity |]. split; [reflexivity |].
      unfold device_imu_callback. cbn [callback set_ahrs set_offset].
      rewrite Hcb'. destruct (callback device); cbn; rewrite ?Hev; reflexivity.
Qed.

(** An accepted data frame takes [device_imu_read] to the data-frame path. *)
Lemma device_imu_read_at_data_frame (p : process) (device : device_imu_type)
    (h : hid_device) (frame : list Z) (timeout : Z) :
  accepts_data_frame device h frame ->
  let packet := device_imu_packet_of_bytes (firstn 64 frame) in
  device_imu_read_at p device timeout
  = read_data_frame p (set_handle device (Some (hid_after_read h 64)))
                    packet (timestamp packet).
Proof.
  intros (Hh & Hsize & Hin & Hlen & Hinit & Hdata) packet. subst packet.
  unfold device_imu_read_at, hid_read_timeout, hid_read.
  rewrite Hh, Hsize, Hin.
  fold (hid_after_read h MAX_PACKET_SIZE).
  unfold MAX_PACKET_SIZE. rewrite Z.eqb_refl. cbn [negb].
  change (Z.to_nat 64) with 64%nat.
  assert (Hgot : List.length (firstn 64 frame) = 64%nat)
    by (rewrite firstn_length_le; lia).
  rewrite Hgot.
  change (Z.of_nat 64) with 64.
  change (64 =? -1) with false. change (64 =? 0) with false.
  change (64 =? 64) with true. cbn [negb].
  unfold overwrite. rewrite Hgot.
  change (skipn 64 (repeat 0 64)) with (@nil Z). rewrite app_nil_r.
  rewrite Hinit, Hdata. cbn [negb]. reflexivity.
Qed.

Lemma readIMU_with_magnetometer (packet : device_imu_packet_type)
    (mm md mx my mz : list Z) :
  fst (readIMU_from_packet (with_magnetometer packet mm md mx my mz))
  = fst (readIMU_from_packet packet).
Proof. reflexivity. Qed.

(** C4. On an accepted data frame the fusion engine is updated by the
    magnetometer-free update on the calibrated gyroscope, the calibrated
    accelerometer and deltaTime.  The branch on the magnetometer is the
    same as calling that update unconditionally, and replacing the
    magnetometer fields of the frame by any others leaves the engine's
    new state unchanged. *)
Theorem read_update_is_magnetometer_free (p : process)
    (device : device_imu_type) (h : hid_device) (frame : list Z)
    (timeout : Z) (a : FusionAhrs) :
  accepts_data_frame device h frame ->
  ahrs device = Some a ->
  let packet := device_imu_packet_of_bytes (firstn 64 frame) in
  let gyroscope := fst (fst (readIMU_from_packet packet)) in
  let accelerometer := snd (fst (readIMU_from_packet packet)) in
  (forall g acc m dt,
     fusion_update a g acc m dt = fusion_update_no_magnetometer a g acc dt) /\
  ahrs (snd (device_imu_read_at p device timeout))
  = Some (fusion_update_no_magnetometer a
            (tracked_gyroscope device gyroscope)
            (calibrated_accelerometer device accelerometer)
            (delta_time device (timestamp packet))) /\
  (forall mm md mx my mz,
     ahrs (snd (read_data_frame p device
                  (with_magnetometer packet mm md mx my mz) (timestamp packet)))
     = ahrs (snd (read_data_frame p device packet (timestamp packet)))).
Proof.
  intros Hacc Ha packet gyroscope accelerometer.
  split.
  { intros g acc m dt. unfold fusion_update, fusion_update_no_magnetometer.
    destruct (_ || _); reflexivity. }
  split.
  - rewrite (device_imu_read_at_data_frame p device h frame timeout Hacc).
    fold packet.
    destruct (read_data_frame_result p
                (set_handle device (Some (hid_after_read h 64))) packet a Ha)
      as (p' & d' & Heq & Hahrs & _).
    rewrite Heq. cbn [snd]. exact Hahrs.
  - intros mm md mx my mz.
    destruct (read_data_frame_result p device packet a Ha)
      as (p1 & d1 & Heq1 & Hahrs1 & _).
    destruct (read_data_frame_result p device
                (with_magnetometer packet mm md mx my mz) a Ha)
      as (p2 & d2 & Heq2 & Hahrs2 & _).
    change (timestamp (with_magnetometer packet mm md mx my mz))
      with (timestamp packet) in Heq2, Hahrs2.
    rewrite Heq1, Heq2. cbn [snd]. rewrite Hahrs1, Hahrs2.
    rewrite readIMU_with_magnetometer. reflexivity.
Qed.

(** C8, amended.  On an accepted data frame, in a session that has a fusion
    engine and a registered callback, the orientation is read back after
    the update: if one of its four components is a NaN the call returns
    the invalid-value error and dispatches nothing; otherwise (infinite
    components included) it returns success and dispatches exactly one
    UPDATE event carrying the frame's timestamp. *)
Theorem read_dispatches_unless_orientation_nan (p : process)
    (device : device_imu_type) (h : hid_device) (frame : list Z)
    (timeout : Z) (a : FusionAhrs) :
  accepts_data_frame device h frame ->
  ahrs device = Some a ->
  callback device = true ->
  let packet := device_imu_packet_of_bytes (firstn 64 frame) in
  let q := orientation_after a device packet in
  let '(e, p', _) := device_imu_read_at p device timeout in
  (orientation_isnan q = true ->
     e = DEVICE_IMU_ERROR_INVALID_VALUE /\ events p' = events p) /\
  (orientation_isnan q = false ->
     e = DEVICE_IMU_ERROR_NO_ERROR /\
     events p' = events p ++ [(timestamp packet, DEVICE_IMU_EVENT_UPDATE)]).
Proof.
  intros Hacc Ha Hcb packet q.
  rewrite (device_imu_read_at_data_frame p device h frame timeout Hacc).
  fold packet.
  destruct (read_data_frame_result p
              (set_handle device (Some (hid_after_read h 64))) packet a Ha)
    as (p' & d' & Heq & _ & Hev).
  rewrite Heq.
  assert (Hq : q = FusionAhrsGetQuaternion
                     (fusion_update_no_magnetometer a
                        (tracked_gyroscope device (fst (fst (readIMU_from_packet packet))))
                        (calibrated_accelerometer device (snd (fst (readIMU_from_packet packet))))
                        (delta_time device (timestamp packet)))).
  { unfold q, orientation_after.
    destruct (readIMU_from_packet packet) as [[g acc] m]. reflexivity. }
  change (callback (set_handle device (Some (hid_after_read h 64))))
    with (callback device) in Hev.
  rewrite Hcb in Hev.
  change (tracked_gyroscope (set_handle device (Some (hid_after_read h 64))))
    with (tracked_gyroscope device) in *.
  change (calibrated_accelerometer (set_handle device (Some (hid_after_read h 64))))
    with (calibrated_accelerometer device) in *.
  change (delta_time (set_handle device (Some (hid_after_read h 64))))
    with (delta_time device) in *.
  rewrite <- Hq in *.
  split; intros Hnan; rewrite Hnan in *; split; auto.
Qed.

(* ================================================================= *)
(** ** Stationary calibration *)

Lemma device_hid_read_calibration (device : device_imu_type) (buf : list Z)
    (n : Z) :
  calibration (snd (device_hid_read device buf n)) = calibration device.
Proof.
  unfold device_hid_read, hid_read.
  destruct (handle device) as [h |]; [| reflexivity].
  destruct (hd HidReadError (hid_inputs h)); reflexivity.
Qed.

(** A read either fails with -1 or uses up one scripted input. *)
Lemma device_hid_read_progress (device : device_imu_type) (buf : list Z)
    (n : Z) :
  fst (fst (device_hid_read device buf n)) = -1 \/
  S (pending_inputs (snd (device_hid_read device buf n))) = pending_inputs device.
Proof.
  unfold device_hid_read, hid_read, pending_inputs.
  destruct (handle device) as [h |]; [| left; reflexivity].
  destruct (hid_inputs h) as [| [| b] rest]; cbn;
    [left; reflexivity | left; reflexivity | right; reflexivity].
Qed.

(** The loop leaves the calibration record alone, and its only error
    returns are "unplugged" and "unexpected size". *)
Lemma calibrate_loop_calibration (fuel : nat) :
  forall (p : process) (device : device_imu_type) (iterations : Z)
         (l : calibrate_locals),
  match calibrate_loop fuel p device iterations l with
  | Some (CalibrateReturn e _ d') =>
      calibration d' = calibration device /\
      (e = DEVICE_IMU_ERROR_UNPLUGGED \/ e = DEVICE_IMU_ERROR_UNEXPECTED)
  | Some (CalibrateDone _ d' _) => calibration d' = calibration device
  | None => True
  end.
Proof.
  induction fuel as [| fuel IH]; intros p device iterations l; cbn [calibrate_loop].
  - destruct (iterations >? 0); [exact I | reflexivity].
  - destruct (iterations >? 0); [| reflexivity].
    pose proof (device_hid_read_calibration device
                  (repeat 0 (Z.to_nat sizeof_device_imu_packet_type))
                  MAX_PACKET_SIZE) as Hcal.
    destruct (device_hid_read device _ MAX_PACKET_SIZE) as [[transferred buf] d1].
    cbn [snd] in Hcal.
    destruct (transferred =? -1); [split; [exact Hcal | left; reflexivity] |].
    destruct (transferred =? 0).
    { specialize (IH p d1 iterations l).
      destruct (calibrate_loop fuel p d1 iterations l) as [[e p' d' | p' d' l'] |];
        rewrite <- ?Hcal; exact IH. }
    destruct (negb (MAX_PACKET_SIZE =? transferred));
      [split; [exact Hcal | right; reflexivity] |].
    destruct (negb (is_data_signature (device_imu_packet_of_bytes buf))).
    { specialize (IH p d1 iterations l).
      destruct (calibrate_loop fuel p d1 iterations l) as [[e p' d' | p' d' l'] |];
        rewrite <- ?Hcal; exact IH. }
    destruct (calibrate_frame p (device_imu_packet_of_bytes buf) l) as [p2 l2].
    specialize (IH p2 d1 (iterations - 1) l2).
    destruct (calibrate_loop fuel p2 d1 (iterations - 1) l2)
      as [[e p' d' | p' d' l'] |]; rewrite <- ?Hcal; exact IH.
Qed.

(** The fuel [device_imu_calibrate] gives the loop is enough. *)
Lemma calibrate_loop_fuel (fuel : nat) :
  forall (p : process) (device : device_imu_type) (iterations : Z)
         (l : calibrate_locals),
  (pending_inputs device < fuel)%nat ->
  calibrate_loop fuel p device iterations l <> None.
Proof.
  induction fuel as [| fuel IH]; intros p device iterations l Hfuel; [lia |].
  cbn [calibrate_loop].
  destruct (iterations >? 0); [| discriminate].
  pose proof (device_hid_read_progress device
                (repeat 0 (Z.to_nat sizeof_device_imu_packet_type))
                MAX_PACKET_SIZE) as Hprog.
  destruct (device_hid_read device _ MAX_PACKET_SIZE) as [[transferred buf] d1].
  cbn [fst snd] in Hprog.
  destruct (Z.eqb_spec transferred (-1)) as [E | NE]; [discriminate |].
  destruct Hprog as [E | Hprog]; [contradiction |].
  assert (Hd1 : (pending_inputs d1 < fuel)%nat) by lia.
  destruct (transferred =? 0); [apply IH; exact Hd1 |].
  destruct (negb (MAX_PACKET_SIZE =? transferred)); [discriminate |].
  destruct (negb (is_data_signature (device_imu_packet_of_bytes buf)));
    [apply IH; exact Hd1 |].
  destruct (calibrate_frame p (device_imu_packet_of_bytes buf) l) as [p2 l2].
  apply IH; exact Hd1.
Qed.

(** What one read of the loop does to the transport. *)
Lemma device_hid_read_transport (device : device_imu_type) (h : hid_device)
    (buf : list Z) (n : Z) :
  handle device = Some h ->
  device_hid_read device buf n
  = (fst (fst (hid_read h buf n)), snd (fst (hid_read h buf n)),
     set_handle device (Some (hid_after_read h n))).
Proof.
  intros Hh. unfold device_hid_read. rewrite Hh.
  unfold hid_read. fold (hid_after_read h n).
  destruct (hd HidReadError (hid_inputs h)); reflexivity.
Qed.

Lemma data_reports_cons (i : hid_input) (l : list hid_input) :
  data_reports (i :: l) = (if is_data_report i then 1 else 0) + data_reports l.
Proof.
  unfold data_reports. cbn [filter].
  destruct (is_data_report i); cbn [List.length]; lia.
Qed.

(** The reports the loop takes from the transport before it ends
    normally. *)
Lemma calibrate_loop_counts (fuel : nat) :
  forall (p : process) (device : device_imu_type) (iterations : Z)
         (l : calibrate_locals) (h : hid_device) (p' : process)
         (d' : device_imu_type) (l' : calibrate_locals),
  sizeof_device_imu_packet_type = 64 ->
  handle device = Some h ->
  0 <= iterations ->
  calibrate_loop fuel p device iterations l = Some (CalibrateDone p' d' l') ->
  exists consumed h',
    handle d' = Some h' /\
    hid_inputs h = consumed ++ hid_inputs h' /\
    data_reports consumed = iterations /\
    Forall passable_report consumed.
Proof.
  induction fuel as [| fuel IH];
    intros p device iterations l h p' d' l' Hsize Hh Hnn; cbn [calibrate_loop].
  - destruct (Z.gtb_spec iterations 0) as [Hpos | Hle]; [discriminate |].
    intros [= <- <- <-]. exists [], h. repeat split; try assumption.
    + unfold data_reports; cbn [filter List.length]; lia.
    + constructor.
  - destruct (Z.gtb_spec iterations 0) as [Hpos | Hle].
    2:{ intros [= <- <- <-]. exists [], h. repeat split; try assumption.
        - unfold data_reports; cbn [filter List.length]; lia.
        - constructor. }
    rewrite (device_hid_read_transport device h _ _ Hh).
    rewrite Hsize. unfold hid_read.
    destruct (hid_inputs h) as [| i ins] eqn:Hin; cbn [hd fst snd];
      [discriminate |].
    destruct i as [| b]; cbn [fst snd]; [discriminate |].
    set (d1 := set_handle device (Some (hid_after_read h MAX_PACKET_SIZE))).
    assert (Hh1 : handle d1 = Some (hid_after_read h MAX_PACKET_SIZE))
      by reflexivity.
    assert (Hin1 : hid_inputs (hid_after_read h MAX_PACKET_SIZE) = ins)
      by (cbn; rewrite Hin; reflexivity).
    set (got := firstn (Z.to_nat MAX_PACKET_SIZE) b).
    assert (Hgot : List.length got = Nat.min 64 (List.length b))
      by (subst got; rewrite length_firstn; reflexivity).
    destruct (Z.eqb_spec (Z.of_nat (List.length got)) (-1)) as [Habs | _];
      [lia |].
    destruct (Z.eqb_spec (Z.of_nat (List.length got)) 0) as [Hzero | Hnz].
    { intros Hrun.
      destruct (IH _ _ _ _ _ _ _ _ Hsize Hh1 Hnn Hrun)
        as (consumed & h' & Hd' & Hins & Hcount & Hall).
      assert (Hb : b = []) by (destruct b; [reflexivity | cbn [List.length] in Hgot; lia]).
      exists (HidReport b :: consumed), h'. repeat split.
      - exact Hd'.
      - rewrite Hin1 in Hins. rewrite Hins. reflexivity.
      - rewrite data_reports_cons, Hcount. subst b. cbn. reflexivity.
      - constructor; [| exact Hall]. exists b. split; [reflexivity | left; exact Hb]. }
    destruct (Z.eqb_spec MAX_PACKET_SIZE (Z.of_nat (List.length got)))
      as [Hfull | _]; cbn [negb]; [| discriminate].
    unfold MAX_PACKET_SIZE in Hfull.
    assert (Hlen : 64 <= Z.of_nat (List.length b)) by lia.
    assert (Hbuf : overwrite (repeat 0 (Z.to_nat 64)) got = firstn 64 b).
    { unfold overwrite. rewrite skipn_all2.
      - rewrite app_nil_r. reflexivity.
      - rewrite repeat_length. lia. }
    rewrite Hbuf.
    assert (Hdata : is_data_report (HidReport b)
                    = is_data_signature (device_imu_packet_of_bytes (firstn 64 b))).
    { cbn [is_data_report].
      replace (64 <=? Z.of_nat (List.length b)) with true by (symmetry; zbool).
      reflexivity. }
    assert (Hpass : passable_report (HidReport b))
      by (exists b; split; [reflexivity | right; exact Hlen]).
    destruct (is_data_signature (device_imu_packet_of_bytes (firstn 64 b)))
      eqn:Hsig; cbn [negb].
    + destruct (calibrate_frame p _ l) as [p2 l2].
      intros Hrun.
      assert (Hnn' : 0 <= iterations - 1) by lia.
      destruct (IH _ _ _ _ _ _ _ _ Hsize Hh1 Hnn' Hrun)
        as (consumed & h' & Hd' & Hins & Hcount & Hall).
      exists (HidReport b :: consumed), h'. repeat split.
      * exact Hd'.
      * rewrite Hin1 in Hins. rewrite Hins. reflexivity.
      * rewrite data_reports_cons, Hcount, Hdata. lia.
      * constructor; assumption.
    + intros Hrun.
      destruct (IH _ _ _ _ _ _ _ _ Hsize Hh1 Hnn Hrun)
        as (consumed & h' & Hd' & Hins & Hcount & Hall).
      exists (HidReport b :: consumed), h'. repeat split.
      * exact Hd'.
      * rewrite Hin1 in Hins. rewrite Hins. reflexivity.
      * rewrite data_reports_cons, Hcount, Hdata. lia.
      * constructor; assumption.
Qed.

Lemma calibrate_commit_zero_factor (c : device_imu_calibration_type)
    (gyro accel magnet : bool) (l : calibrate_locals) :
  calibrate_commit c F32.zero gyro accel magnet l = c.
Proof. reflexivity. Qed.

(** C10. [device_imu_calibrate] writes the calibration record only after
    its loop has ended normally.  Every error return (no device, no
    handle, no calibration allocated, wrong packet size, unplugged,
    unexpected transfer size) leaves the record exactly as it was, and so
    does a call with zero iterations, which returns success on a session
    that passes the initial checks.  Whenever the call returns success or
    the record has changed, all requested iterations have been consumed:
    the reports taken from the transport hold exactly [iterations] data
    frames, every other one of them is empty or a full frame with another
    signature, and what follows them is still pending. *)
Theorem calibrate_commits_after_loop (p : process)
    (device : option device_imu_type) (iterations : Z)
    (gyro accel magnet : bool) :
  let '(e, _, device') :=
    device_imu_calibrate p device iterations gyro accel magnet in
  (e <> DEVICE_IMU_ERROR_NO_ERROR ->
     session_calibration device' = session_calibration device /\
     (e = DEVICE_IMU_ERROR_NO_DEVICE \/ e = DEVICE_IMU_ERROR_NO_HANDLE \/
      e = DEVICE_IMU_ERROR_NO_ALLOCATION \/ e = DEVICE_IMU_ERROR_WRONG_SIZE \/
      e = DEVICE_IMU_ERROR_UNPLUGGED \/ e = DEVICE_IMU_ERROR_UNEXPECTED)) /\
  (iterations = 0 ->
     session_calibration device' = session_calibration device /\
     (forall d,
        device = Some d -> handle d <> None -> calibration d <> None ->
        sizeof_device_imu_packet_type = MAX_PACKET_SIZE ->
        e = DEVICE_IMU_ERROR_NO_ERROR)) /\
  (forall d h,
     device = Some d -> handle d = Some h -> 0 <= iterations ->
     e = DEVICE_IMU_ERROR_NO_ERROR \/
     session_calibration device' <> session_calibration device ->
     exists d' h' consumed,
       device' = Some d' /\ handle d' = Some h' /\
       hid_inputs h = consumed ++ hid_inputs h' /\
       data_reports consumed = iterations /\
       Forall passable_report consumed).
Proof.
  unfold device_imu_calibrate.
  destruct device as [d |].
  2:{ split; [intros _; split; [reflexivity | tauto] |].
      split; [intros _; split; [reflexivity | intros d Hd; discriminate] |].
      intros d h Hd. discriminate. }
  destruct (handle d) as [h |] eqn:Hh.
  2:{ split; [intros _; split; [reflexivity | tauto] |].
      split.
      - intros _. split; [reflexivity |].
        intros d0 Hd Hnh. injection Hd as <-. congruence.
      - intros d0 h0 Hd Hh0. injection Hd as <-. congruence. }
  destruct (calibration d) as [c |] eqn:Hc.
  2:{ split; [intros _; split; [reflexivity | tauto] |].
      split.
      - intros _. split; [cbn; congruence |].
        intros d0 Hd _ Hnc. injection Hd as <-. congruence.
      - intros d0 h0 _ _ _ [He | Hne]; [discriminate | contradiction Hne; reflexivity]. }
  destruct (Z.eqb_spec MAX_PACKET_SIZE sizeof_device_imu_packet_type) as [Hs | Hs];
    cbn [negb].
  2:{ split; [intros _; split; [reflexivity | tauto] |].
      split.
      - intros _. split; [reflexivity |].
        intros d0 _ _ _ Hsz. congruence.
      - intros d0 h0 _ _ _ [He | Hne]; [discriminate | contradiction Hne; reflexivity]. }
  pose proof (calibrate_loop_calibration (S (pending_inputs d)) p d iterations
                calibrate_locals_initial) as Hloop.
  pose proof (calibrate_loop_fuel (S (pending_inputs d)) p d iterations
                calibrate_locals_initial (Nat.lt_succ_diag_r _)) as Hfuel.
  destruct (calibrate_loop (S (pending_inputs d)) p d iterations
              calibrate_locals_initial) as [[e p' d' | p' d' l'] |] eqn:Hrun;
    [| | contradiction].
  - destruct Hloop as [Hcal Herr].
    split; [| split].
    + intros _. split; [cbn; congruence | tauto].
    + intros Hz. subst iterations. cbn in Hrun. discriminate.
    + intros d0 h0 _ _ _ [He | Hne].
      * destruct Herr as [Hu | Hu]; rewrite Hu in He; discriminate.
      * contradiction Hne; cbn; congruence.
  - split; [| split].
    + intros Hne; contradiction Hne; reflexivity.
    + intros Hz. subst iterations.
      cbn in Hrun. injection Hrun as <- <- <-.
      rewrite Hc. cbn [session_calibration calibration set_calibration].
      change (0 >? 0) with false. cbv iota.
      rewrite calibrate_commit_zero_factor, Hc.
      split; [reflexivity | intros; reflexivity].
    + intros d0 h0 Hd Hh0 Hnn _. injection Hd as <-.
      assert (Hhh : h0 = h) by congruence. subst h0.
      destruct (calibrate_loop_counts _ _ _ _ _ _ _ _ _ (eq_sym Hs) Hh Hnn Hrun)
        as (consumed & h' & Hd' & Hins & Hcount & Hall).
      rewrite Hloop, Hc.
      eexists. exists h', consumed. split; [reflexivity |].
      cbn [handle set_calibration]. auto.
Qed.

(* ================================================================= *)
(** ** Opening a session *)

Lemma send_payload_msg_accepted (p : process) (device : device_imu_type)
    (h : hid_device) (msgid : Z) (data : list Z) (k : nat)
    (outs : list hid_output) :
  handle device = Some h ->
  hid_outputs h = HidAccept k :: outs ->
  Z.of_nat (List.length data) <= 56 ->
  8 + Z.of_nat (List.length data) <= Z.of_nat k ->
  send_payload_msg p device msgid (Z.of_nat (List.length data)) data
  = (true, process_after_send p msgid data,
     set_handle device (Some (hid_after_write h (wire_frame msgid data)))).
Proof.
  intros Hh Hout Hlen Hk.
  rewrite (send_payload_msg_eq p device h msgid _ data Hh) by lia.
  rewrite Hout. cbn [hd hid_write_result].
  replace (Z.min (Z.of_nat k) (Z.max 0 (8 + Z.of_nat (List.length data)))
           =? 8 + Z.of_nat (List.length data)) with true by (symmetry; zbool).
  reflexivity.
Qed.

Lemma send_payload_msg_rejected (p : process) (device : device_imu_type)
    (h : hid_device) (msgid : Z) (data : list Z) (outs : list hid_output) :
  handle device = Some h ->
  hid_outputs h = HidWriteError :: outs ->
  Z.of_nat (List.length data) <= 56 ->
  send_payload_msg p device msgid (Z.of_nat (List.length data)) data
  = (false, process_after_send p msgid data,
     set_handle device (Some (hid_after_write h (wire_frame msgid data)))).
Proof.
  intros Hh Hout Hlen.
  rewrite (send_payload_msg_eq p device h msgid _ data Hh) by lia.
  rewrite Hout. cbn [hd hid_write_result].
  replace (-1 =? 8 + Z.of_nat (List.length data)) with false by (symmetry; zbool).
  reflexivity.
Qed.

Lemma recv_payload_msg_carries (p : process) (device : device_imu_type)
    (h : hid_device) (msgid : Z) (data payload frame : list Z)
    (ins : list hid_input) :
  handle device = Some h ->
  hid_inputs h = HidReport frame :: ins ->
  Z.of_nat (List.length payload) <= 56 ->
  carries frame msgid payload ->
  recv_payload_msg p device msgid (Z.of_nat (List.length payload)) data
  = (true, process_after_recv p h (8 + Z.of_nat (List.length payload)),
     set_handle device
       (Some (hid_after_read h (8 + Z.of_nat (List.length payload)))),
     overwrite data payload).
Proof.
  intros Hh Hin Hlen (Hfull & Hid & Hpl).
  assert (Hrange : 0 <= Z.of_nat (List.length payload) <= 56) by lia.
  rewrite (recv_payload_msg_eq p device h msgid _ data Hh Hrange).
  unfold process_after_recv, full_report, received_bytes.
  rewrite Hin. cbn [hd].
  destruct (received_frame_fields (recv_packet p) frame _ Hrange Hfull) as [Hm Hd].
  cbv zeta in Hm, Hd. rewrite Hm, Hd, Hid.
  replace (8 + Z.of_nat (List.length payload) <=? Z.of_nat (List.length frame))
    with true by (symmetry; zbool).
  rewrite Z.eqb_refl, Nat2Z.id, Hpl. reflexivity.
Qed.

Lemma store_after_prefix (pre rest seg : list Z) (position : Z) :
  position = Z.of_nat (List.length pre) ->
  store_at (pre ++ rest) position
           (overwrite (skipn (Z.to_nat position) (pre ++ rest)) seg)
  = (pre ++ seg) ++ skipn (List.length seg) rest.
Proof.
  intros ->. unfold store_at, overwrite. rewrite Nat2Z.id.
  rewrite firstn_exact by reflexivity.
  rewrite skipn_app, Nat.sub_diag, skipn_all. cbn [app skipn].
  apply app_assoc.
Qed.

(** Three segments of 56, 56 and 18 bytes stored at 0, 56 and 112 put the
    130 bytes of [blob] at the front of the block. *)
Lemma reassemble_130 (blob block : list Z) :
  List.length blob = 130%nat ->
  let b1 := store_at block 0
              (overwrite (skipn (Z.to_nat 0) block) (firstn 56 blob)) in
  let b2 := store_at b1 56
              (overwrite (skipn (Z.to_nat 56) b1) (firstn 56 (skipn 56 blob))) in
  let b3 := store_at b2 112
              (overwrite (skipn (Z.to_nat 112) b2) (skipn 112 blob)) in
  b3 = blob ++ skipn 130 block.
Proof.
  intros Hblob b1 b2 b3.
  assert (L1 : List.length (firstn 56 blob) = 56%nat)
    by (rewrite firstn_length_le; lia).
  assert (L2 : List.length (firstn 56 (skipn 56 blob)) = 56%nat)
    by (rewrite firstn_length_le; rewrite ?length_skipn; lia).
  assert (L3 : List.length (skipn 112 blob) = 18%nat)
    by (rewrite length_skipn; lia).
  assert (E1 : b1 = ([] ++ firstn 56 blob) ++ skipn 56 block).
  { unfold b1. rewrite <- L1 at 3.
    apply (store_after_prefix [] block (firstn 56 blob) 0). reflexivity. }
  assert (E2 : b2 = (firstn 56 blob ++ firstn 56 (skipn 56 blob))
                    ++ skipn 112 block).
  { unfold b2. rewrite E1. cbn [app].
    rewrite (store_after_prefix (firstn 56 blob) (skipn 56 block)
               (firstn 56 (skipn 56 blob)) 56) by (rewrite L1; reflexivity).
    rewrite L2, skipn_skipn. reflexivity. }
  unfold b3. rewrite E2.
  rewrite (store_after_prefix (firstn 56 blob ++ firstn 56 (skipn 56 blob))
             (skipn 112 block) (skipn 112 blob) 112)
    by (rewrite length_app, L1, L2; reflexivity).
  rewrite L3, skipn_skipn. cbn [Nat.add]. f_equal.
  assert (Htail : firstn 56 (skipn 56 blob) ++ skipn 112 blob = skipn 56 blob).
  { replace (skipn 112 blob) with (skipn 56 (skipn 56 blob))
      by (rewrite skipn_skipn; reflexivity).
    apply firstn_skipn. }
  rewrite <- app_assoc, Htail. apply firstn_skipn.
Qed.

(** One round trip of the download loop, when the transport accepts the
    request and delivers the segment. *)
Lemma download_loop_step (fuel : nat) (p : process) (device : device_imu_type)
    (h : hid_device) (len position : Z) (block frame seg : list Z)
    (ins : list hid_input) (k : nat) (outs : list hid_output) :
  handle device = Some h ->
  hid_outputs h = HidAccept k :: outs -> 8 <= Z.of_nat k ->
  hid_inputs h = HidReport frame :: ins ->
  0 <= position -> position < len -> len < 4294967296 ->
  Z.of_nat (List.length seg) = Z.min 56 (len - position) ->
  carries frame DEVICE_IMU_MSG_CAL_DATA_GET_NEXT_SEGMENT seg ->
  let request := wire_frame DEVICE_IMU_MSG_CAL_DATA_GET_NEXT_SEGMENT [] in
  let asked := 8 + Z.of_nat (List.length seg) in
  download_loop (S fuel) p device len position block
  = download_loop fuel
      (process_after_recv
         (process_after_send p DEVICE_IMU_MSG_CAL_DATA_GET_NEXT_SEGMENT [])
         (hid_after_write h request) asked)
      (set_handle device (Some (hid_after_read (hid_after_write h request) asked)))
      len (position + Z.of_nat (List.length seg))
      (store_at block position (overwrite (skipn (Z.to_nat position) block) seg)).
Proof.
  intros Hh Hout Hk Hin Hpos Hlt Hlen Hseg Hcar request asked.
  cbn [download_loop].
  replace (position <? len) with true by (symmetry; zbool).
  pose proof (send_payload_msg_accepted p device h
                DEVICE_IMU_MSG_CAL_DATA_GET_NEXT_SEGMENT [] k outs Hh Hout) as Hs.
  cbn [List.length Z.of_nat] in Hs.
  rewrite Hs by lia. clear Hs. cbn [negb].
  rewrite (small_uint32 (len - position)) by lia.
  replace (to_uint8 (if len - position >? 56 then 56 else len - position))
    with (Z.of_nat (List.length seg)).
  2:{ destruct (Z.gtb_spec (len - position) 56); rewrite small_uint8; lia. }
  fold request.
  rewrite (recv_payload_msg_carries _ _ (hid_after_write h request) _ _ seg frame ins);
    [| reflexivity | exact Hin | lia | exact Hcar].
  cbn [negb].
  rewrite (small_uint32 (position + Z.of_nat (List.length seg))) by lia.
  reflexivity.
Qed.

Lemma download_loop_done (fuel : nat) (p : process) (device : device_imu_type)
    (len position : Z) (block : list Z) :
  len <= position ->
  download_loop fuel p device len position block
  = Some (mkDownload p device position block true).
Proof.
  intros Hge. destruct fuel; cbn [download_loop];
    replace (position <? len) with false by (symmetry; zbool); reflexivity.
Qed.

(** The transport after the three round trips of a 130-byte download. *)
Lemma download_130 (p : process) (device : device_imu_type) (h : hid_device)
    (blob block f1 f2 f3 : list Z) (ins : list hid_input) (k1 k2 k3 : nat)
    (outs : list hid_output) :
  handle device = Some h ->
  hid_outputs h = HidAccept k1 :: HidAccept k2 :: HidAccept k3 :: outs ->
  8 <= Z.of_nat k1 -> 8 <= Z.of_nat k2 -> 8 <= Z.of_nat k3 ->
  hid_inputs h = HidReport f1 :: HidReport f2 :: HidReport f3 :: ins ->
  List.length blob = 130%nat ->
  carries f1 DEVICE_IMU_MSG_CAL_DATA_GET_NEXT_SEGMENT (firstn 56 blob) ->
  carries f2 DEVICE_IMU_MSG_CAL_DATA_GET_NEXT_SEGMENT (firstn 56 (skipn 56 blob)) ->
  carries f3 DEVICE_IMU_MSG_CAL_DATA_GET_NEXT_SEGMENT (skipn 112 blob) ->
  let request := wire_frame DEVICE_IMU_MSG_CAL_DATA_GET_NEXT_SEGMENT [] in
  exists p' h',
    download_loop 130 p device 130 0 block
    = Some (mkDownload p' (set_handle device (Some h')) 130
                       (blob ++ skipn 130 block) true) /\
    hid_requested h' = hid_requested h ++ [8 + 56; 8 + 56; 8 + 18] /\
    hid_written h' = hid_written h ++ [request; request; request] /\
    hid_inputs h' = ins /\ hid_outputs h' = outs.
Proof.
  intros Hh Hout Hk1 Hk2 Hk3 Hin Hblob Hc1 Hc2 Hc3 request.
  assert (L1 : List.length (firstn 56 blob) = 56%nat)
    by (rewrite firstn_length_le; lia).
  assert (L2 : List.length (firstn 56 (skipn 56 blob)) = 56%nat)
    by (rewrite firstn_length_le; rewrite ?length_skipn; lia).
  assert (L3 : List.length (skipn 112 blob) = 18%nat)
    by (rewrite length_skipn; lia).
  change 130%nat with (S (S (S 127))) at 1.
  rewrite (download_loop_step _ p device h 130 0 block f1 (firstn 56 blob)
             (HidReport f2 :: HidReport f3 :: ins) k1
             (HidAccept k2 :: HidAccept k3 :: outs));
    [| assumption | assumption | assumption | assumption | lia | lia | lia
     | rewrite L1; reflexivity | assumption].
  fold request. rewrite L1.
  set (h1 := hid_after_read (hid_after_write h request) (8 + Z.of_nat 56)).
  set (p1 := process_after_recv _ _ _).
  set (b1 := store_at block 0 _).
  rewrite (download_loop_step _ p1 (set_handle device (Some h1)) h1 130
             (0 + Z.of_nat 56) b1 f2 (firstn 56 (skipn 56 blob))
             (HidReport f3 :: ins) k2 (HidAccept k3 :: outs));
    [| reflexivity | unfold h1; cbn; rewrite Hout; reflexivity | assumption
     | unfold h1; cbn; rewrite Hin; reflexivity | lia | lia | lia
     | rewrite L2; reflexivity | assumption].
  fold request. rewrite L2.
  set (h2 := hid_after_read (hid_after_write h1 request) (8 + Z.of_nat 56)).
  set (p2 := process_after_recv _ _ _).
  set (b2 := store_at b1 (0 + Z.of_nat 56) _).
  rewrite (download_loop_step _ p2 _ h2 130
             (0 + Z.of_nat 56 + Z.of_nat 56) b2 f3 (skipn 112 blob)
             ins k3 outs);
    [| reflexivity | unfold h2, h1; cbn; rewrite Hout; reflexivity | assumption
     | unfold h2, h1; cbn; rewrite Hin; reflexivity | lia | lia | lia
     | rewrite L3; reflexivity | assumption].
  fold request. rewrite L3.
  set (h3 := hid_after_read (hid_after_write h2 request) (8 + Z.of_nat 18)).
  set (p3 := process_after_recv _ _ _).
  rewrite download_loop_done by lia.
  exists p3, h3.
  split.
  - f_equal. f_equal.
    exact (reassemble_130 blob block Hblob).
  - unfold h3, h2, h1. cbn. rewrite Hout, Hin. cbn.
    rewrite <- !app_assoc. cbn. repeat split; reflexivity.
Qed.

(** Sends, receives and the download loop touch the handle only. *)
Lemma send_payload_msg_same_record (p : process) (device : device_imu_type)
    (msgid len : Z) (data : list Z) :
  same_record device (snd (send_payload_msg p device msgid len data)).
Proof.
  unfold send_payload_msg, send_payload, device_hid_write, hid_write, same_record.
  destruct (handle device) as [h |]; cbn [fst snd].
  - destruct (negb _); cbn; split; reflexivity.
  - destruct (negb _); cbn; split; reflexivity.
Qed.

Lemma recv_payload_msg_same_record (p : process) (device : device_imu_type)
    (msgid len : Z) (data : list Z) :
  same_record device (snd (fst (recv_payload_msg p device msgid len data))).
Proof.
  unfold recv_payload_msg, recv_payload, device_hid_read, hid_read, same_record.
  destruct (handle device) as [h |].
  - destruct (hd HidReadError (hid_inputs h)) as [| b].
    + destruct (_ =? 0); [cbn; split; reflexivity |].
      destruct (negb (_ =? _)); [cbn; split; reflexivity |].
      destruct (negb (_ =? _)); [cbn; split; reflexivity |].
      destruct (negb (_ =? _)); cbn; split; reflexivity.
    + destruct (_ =? 0); [cbn; split; reflexivity |].
      destruct (negb (_ =? _)); [cbn; split; reflexivity |].
      destruct (negb (_ =? _)); [cbn; split; reflexivity |].
      destruct (negb (_ =? _)); cbn; split; reflexivity.
  - destruct (_ =? 0); [cbn; split; reflexivity |].
    destruct (negb (_ =? _)); [cbn; split; reflexivity |].
    destruct (negb (_ =? _)); [cbn; split; reflexivity |].
    destruct (negb (_ =? _)); cbn; split; reflexivity.
Qed.

Lemma same_record_trans (a b c : device_imu_type) :
  same_record a b -> same_record b c -> same_record a c.
Proof. unfold same_record. intros [H1 H2] [H3 H4]. split; congruence. Qed.

Lemma download_loop_same_record (fuel : nat) :
  forall (p : process) (device : device_imu_type) (len position : Z)
         (block : list Z) (dl : download_state),
  download_loop fuel p device len position block = Some dl ->
  same_record device (dl_device dl) /\
  (dl_completed dl = false -> dl_position dl < len).
Proof.
  induction fuel as [| fuel IH]; intros p device len position block dl;
    cbn [download_loop].
  - destruct (position <? len); [discriminate |].
    intros [= <-]. cbn. split; [split; reflexivity | discriminate].
  - destruct (Z.ltb_spec position len) as [Hlt | Hge].
    2:{ intros [= <-]. cbn. split; [split; reflexivity | discriminate]. }
    pose proof (send_payload_msg_same_record p device
                  DEVICE_IMU_MSG_CAL_DATA_GET_NEXT_SEGMENT 0 []) as Hs.
    destruct (send_payload_msg p device _ 0 []) as [[ok1 p1] d1].
    cbn [snd] in Hs.
    destruct ok1; cbn [negb].
    2:{ intros [= <-]. cbn. split; [exact Hs | intros _; exact Hlt]. }
    match goal with
    | |- context [recv_payload_msg p1 d1 ?m ?n ?b] =>
        pose proof (recv_payload_msg_same_record p1 d1 m n b) as Hr;
        destruct (recv_payload_msg p1 d1 m n b) as [[[ok2 p2] d2] seg]
    end.
    cbn [fst snd] in Hr.
    destruct ok2; cbn [negb].
    2:{ intros [= <-]. cbn.
        split; [eapply same_record_trans; eassumption | intros _; exact Hlt]. }
    intros Hrun. destruct (IH _ _ _ _ _ _ Hrun) as [Hsame Hpos].
    split; [| exact Hpos].
    eapply same_record_trans; [exact Hs |].
    eapply same_record_trans; [exact Hr | exact Hsame].
Qed.

(** The fuel [open_calibration] gives the download loop is enough. *)
Lemma download_loop_fuel (fuel : nat) :
  forall (p : process) (device : device_imu_type) (len position : Z)
         (block : list Z),
  0 <= position -> len < 4294967296 -> len - position <= Z.of_nat fuel ->
  download_loop fuel p device len position block <> None.
Proof.
  induction fuel as [| fuel IH]; intros p device len position block Hpos Hlen Hfuel;
    cbn [download_loop].
  - replace (position <? len) with false by (symmetry; zbool). discriminate.
  - destruct (Z.ltb_spec position len) as [Hlt | Hge]; [| discriminate].
    destruct (send_payload_msg p device _ 0 []) as [[ok1 p1] d1].
    destruct ok1; cbn [negb]; [| discriminate].
    rewrite (small_uint32 (len - position)) by lia.
    assert (Hnext : exists next,
               to_uint8 (if len - position >? 56 then 56 else len - position) = next
               /\ 1 <= next <= len - position).
    { eexists. split; [reflexivity |].
      destruct (Z.gtb_spec (len - position) 56); rewrite small_uint8; lia. }
    destruct Hnext as (next & -> & Hnext).
    destruct (recv_payload_msg p1 d1 _ next _) as [[[ok2 p2] d2] seg].
    destruct ok2; cbn [negb]; [| discriminate].
    rewrite (small_uint32 (position + next)) by lia.
    apply IH; lia.
Qed.

Lemma install_calibration_null_document (c : device_imu_calibration_type)
    (block : list Z) (len : Z) :
  json_tokener_parse_ex (terminated_block block len) len = None ->
  install_calibration c block len = calibration_of_null_document c.
Proof.
  intros Hnull. unfold install_calibration.
  fold (terminated_block block len). rewrite Hnull.
  rewrite !json_object_object_get_null.
  unfold json_object_get_vector, json_object_get_quaternion.
  rewrite json_object_is_array_null. reflexivity.
Qed.

Lemma null_document_is_not_default (c : device_imu_calibration_type) :
  calibration_of_null_document c <> default_calibration.
Proof.
  intros H. apply (f_equal gyroscopeSensitivity) in H.
  vm_compute in H. discriminate.
Qed.

(** C6. When the length response announces 130 bytes and the transport
    accepts every request and delivers every response, the calibration
    exchange of [device_imu_open] performs, after the length round trip,
    exactly three get-next-segment round trips that ask for segments of
    56, 56 and 18 bytes in this order (reads of 8 + 56, 8 + 56 and 8 + 18
    bytes), and the document it parses is the original 130 bytes. *)
Theorem open_downloads_130_in_three_segments (env : open_env) (p : process)
    (device : device_imu_type) (h : hid_device)
    (blob f0 f1 f2 f3 : list Z) (ins : list hid_input)
    (k0 k1 k2 k3 : nat) (outs : list hid_output) :
  handle device = Some h ->
  hid_outputs h
    = HidAccept k0 :: HidAccept k1 :: HidAccept k2 :: HidAccept k3 :: outs ->
  8 <= Z.of_nat k0 -> 8 <= Z.of_nat k1 -> 8 <= Z.of_nat k2 -> 8 <= Z.of_nat k3 ->
  hid_inputs h
    = HidReport f0 :: HidReport f1 :: HidReport f2 :: HidReport f3 :: ins ->
  carries f0 DEVICE_IMU_MSG_GET_CAL_DATA_LENGTH (le32 130) ->
  List.length blob = 130%nat ->
  carries f1 DEVICE_IMU_MSG_CAL_DATA_GET_NEXT_SEGMENT (firstn 56 blob) ->
  carries f2 DEVICE_IMU_MSG_CAL_DATA_GET_NEXT_SEGMENT (firstn 56 (skipn 56 blob)) ->
  carries f3 DEVICE_IMU_MSG_CAL_DATA_GET_NEXT_SEGMENT (skipn 112 blob) ->
  let length_request := wire_frame DEVICE_IMU_MSG_GET_CAL_DATA_LENGTH [] in
  let segment_request := wire_frame DEVICE_IMU_MSG_CAL_DATA_GET_NEXT_SEGMENT [] in
  let block := malloc_bytes env 131 in
  exists p' device' h',
    open_calibration env p device = inr (p', device') /\
    handle device' = Some h' /\
    hid_requested h' = hid_requested h ++ [8 + 4; 8 + 56; 8 + 56; 8 + 18] /\
    hid_written h'
      = hid_written h
        ++ [length_request; segment_request; segment_request; segment_request] /\
    hid_inputs h' = ins /\ hid_outputs h' = outs /\
    firstn 130 (blob ++ skipn 130 block) = blob /\
    calibration device'
      = option_map
          (fun c => install_calibration c (blob ++ skipn 130 block) 130)
          (calibration device).
Proof.
  intros Hh Hout Hk0 Hk1 Hk2 Hk3 Hin Hc0 Hblob Hc1 Hc2 Hc3
         length_request segment_request block.
  unfold open_calibration.
  pose proof (send_payload_msg_accepted p device h
                DEVICE_IMU_MSG_GET_CAL_DATA_LENGTH [] k0 _ Hh Hout) as Hs.
  cbn [List.length Z.of_nat] in Hs. rewrite Hs by lia. clear Hs.
  fold length_request. cbn [negb].
  set (h0 := hid_after_write h length_request).
  set (p0 := process_after_send p _ _).
  pose proof (recv_payload_msg_carries p0 (set_handle device (Some h0)) h0
                DEVICE_IMU_MSG_GET_CAL_DATA_LENGTH (le32 0) (le32 130) f0
                (HidReport f1 :: HidReport f2 :: HidReport f3 :: ins)
                eq_refl) as Hr.
  change (Z.of_nat (List.length (le32 130))) with 4 in Hr.
  rewrite Hr; [| unfold h0; cbn; exact Hin | lia | exact Hc0]. clear Hr.
  change (of_le32 (overwrite (le32 0) (le32 130))) with 130.
  change (to_uint32 (130 + 1)) with 131. fold block.
  change (Z.to_nat 130) with 130%nat.
  set (h1 := hid_after_read h0 (8 + 4)).
  set (p1 := process_after_recv p0 h0 (8 + 4)).
  destruct (download_130 p1 (set_handle (set_handle device (Some h0)) (Some h1))
              h1 blob block f1 f2 f3 ins k1 k2 k3 outs)
    as (p' & h' & Hrun & Hreq & Hwr & Hins & Houts);
    try assumption; try reflexivity.
  { unfold h1, h0. cbn. rewrite Hout. reflexivity. }
  { unfold h1, h0. cbn. rewrite Hin. reflexivity. }
  rewrite Hrun. cbn [dl_device dl_process dl_calibration_data].
  exists p'.
  exists (match calibration device with
          | Some c =>
              set_calibration (set_handle device (Some h'))
                (Some (install_calibration c (blob ++ skipn 130 block) 130))
          | None => set_handle device (Some h')
          end), h'.
  split.
  { cbn [calibration set_handle].
    destruct (calibration device); reflexivity. }
  split; [destruct (calibration device); reflexivity |].
  split.
  { rewrite Hreq. unfold h1, h0. cbn. rewrite <- app_assoc. reflexivity. }
  split.
  { rewrite Hwr. unfold h1, h0. cbn. rewrite <- app_assoc. reflexivity. }
  split; [exact Hins |].
  split; [exact Houts |].
  split; [apply firstn_exact; symmetry; exact Hblob |].
  destruct (calibration device) eqn:Hc; cbn; rewrite ?Hc; reflexivity.
Qed.

(** C1, at the failing inputs.  After a successful length exchange, let
    the download loop stop at a failed segment request or response
    (before the announced length is consumed).  The code still parses the
    block; when the tokener returns NULL on it, as it does for a truncated
    document, the record that held the defaults is overwritten: the three
    sensitivity vectors become zero (default: ones) and the noise
    quaternion becomes the identity (default: zero).  The record does not
    keep its default values. *)
Theorem failed_segment_overwrites_defaults (env : open_env)
    (p p1 p2 : process) (device d1 d2 : device_imu_type)
    (len_bytes : list Z) (dl : download_state) :
  calibration device = Some default_calibration ->
  send_payload_msg p device DEVICE_IMU_MSG_GET_CAL_DATA_LENGTH 0 []
    = (true, p1, d1) ->
  recv_payload_msg p1 d1 DEVICE_IMU_MSG_GET_CAL_DATA_LENGTH 4 (le32 0)
    = (true, p2, d2, len_bytes) ->
  download_loop (Z.to_nat (of_le32 len_bytes)) p2 d2 (of_le32 len_bytes) 0
                (malloc_bytes env (to_uint32 (of_le32 len_bytes + 1)))
    = Some dl ->
  dl_completed dl = false ->
  json_tokener_parse_ex
    (terminated_block (dl_calibration_data dl) (of_le32 len_bytes))
    (of_le32 len_bytes) = None ->
  exists device' c',
    open_calibration env p device = inr (dl_process dl, device') /\
    dl_position dl < of_le32 len_bytes /\
    calibration device' = Some c' /\
    c' = calibration_of_null_document default_calibration /\
    gyroscopeSensitivity c' = FUSION_VECTOR_ZERO /\
    accelerometerSensitivity c' = FUSION_VECTOR_ZERO /\
    magnetometerSensitivity c' = FUSION_VECTOR_ZERO /\
    noises c' = FUSION_IDENTITY_QUATERNION /\
    gyroscopeSensitivity c' <> gyroscopeSensitivity default_calibration /\
    noises c' <> noises default_calibration /\
    c' <> default_calibration.
Proof.
  intros Hcal Hsend Hrecv Hrun Hbreak Hnull.
  pose proof (send_payload_msg_same_record p device
                DEVICE_IMU_MSG_GET_CAL_DATA_LENGTH 0 []) as S1.
  rewrite Hsend in S1. cbn [snd] in S1.
  pose proof (recv_payload_msg_same_record p1 d1
                DEVICE_IMU_MSG_GET_CAL_DATA_LENGTH 4 (le32 0)) as S2.
  rewrite Hrecv in S2. cbn [fst snd] in S2.
  destruct (download_loop_same_record _ _ _ _ _ _ _ Hrun) as [S3 Hpos].
  assert (Hc : calibration (dl_device dl) = Some default_calibration).
  { destruct S1 as [_ E1], S2 as [_ E2], S3 as [_ E3]. congruence. }
  exists (set_calibration (dl_device dl)
            (Some (calibration_of_null_document default_calibration))),
         (calibration_of_null_document default_calibration).
  split.
  { unfold open_calibration. rewrite Hsend. cbn [negb].
    rewrite Hrecv, Hrun, Hc.
    rewrite (install_calibration_null_document _ _ _ Hnull). reflexivity. }
  split; [exact (Hpos Hbreak) |].
  split; [reflexivity |].
  split; [reflexivity |].
  split; [reflexivity |].
  split; [reflexivity |].
  split; [reflexivity |].
  split; [reflexivity |].
  split; [intros H; vm_compute in H; discriminate |].
  split; [intros H; vm_compute in H; discriminate |].
  apply null_document_is_not_default.
Qed.

Lemma open_start_streaming_static_id (p : process) (device : device_imu_type) :
  static_id (snd (open_start_streaming p device)) = static_id device.
Proof.
  unfold open_start_streaming, send_payload_msg_signal.
  pose proof (send_payload_msg_same_record p device
                DEVICE_IMU_MSG_START_IMU_DATA 1 [1]) as [Hs _].
  destruct (send_payload_msg p device _ 1 [1]) as [[ok p1] d1].
  cbn [snd] in Hs.
  destruct ok; cbn [negb snd]; [| exact Hs].
  cbn. exact Hs.
Qed.

Lemma open_calibration_static_id (env : open_env) (p : process)
    (device : device_imu_type) :
  match open_calibration env p device with
  | inl (_, _, d') => static_id d' = static_id device
  | inr (_, d') => static_id d' = static_id device
  end.
Proof.
  unfold open_calibration.
  pose proof (send_payload_msg_same_record p device
                DEVICE_IMU_MSG_GET_CAL_DATA_LENGTH 0 []) as [Hs _].
  destruct (send_payload_msg p device _ 0 []) as [[ok p1] d1].
  cbn [snd] in Hs.
  destruct ok; cbn [negb]; [| exact Hs].
  pose proof (recv_payload_msg_same_record p1 d1
                DEVICE_IMU_MSG_GET_CAL_DATA_LENGTH 4 (le32 0)) as [Hr _].
  destruct (recv_payload_msg p1 d1 _ 4 (le32 0)) as [[[ok2 p2] d2] len_bytes].
  cbn [fst snd] in Hr.
  destruct ok2; [| congruence].
  destruct (download_loop _ p2 d2 _ 0 _) as [dl |] eqn:Hrun; [| congruence].
  destruct (download_loop_same_record _ _ _ _ _ _ _ Hrun) as [[Hd _] _].
  destruct (calibration (dl_device dl)); cbn; congruence.
Qed.

Lemma open_from_calibration_static_id (env : open_env) (p : process)
    (device : device_imu_type) :
  static_id (snd (open_from_calibration env p device)) = static_id device.
Proof.
  unfold open_from_calibration. cbn [device_imu_reset_calibration calibration set_calibration].
  match goal with
  | |- context [open_calibration env p ?d] =>
      pose proof (open_calibration_static_id env p d) as Hc;
      destruct (open_calibration env p d) as [[[e p'] d'] | [p' d']]
  end.
  - cbn [snd]. rewrite Hc. reflexivity.
  - rewrite open_start_streaming_static_id, Hc. reflexivity.
Qed.

(** C9, amended.  Once the request for the static id has been sent, the
    exchange is not fatal: if receiving the 4-byte answer fails in any way
    (read error, short report, other message id), the session's static id
    becomes 0x20220101 and [device_imu_open] goes on with the allocation of
    the calibration record and the rest of the sequence.  If the request
    itself cannot be sent, [device_imu_open] returns the payload-failed
    error at once. *)
Theorem static_id_fallback_after_failed_receive (env : open_env)
    (p p1 : process) (device d1 : device_imu_type) (sent : bool) :
  send_payload_msg p device DEVICE_IMU_MSG_GET_STATIC_ID 0 [] = (sent, p1, d1) ->
  (sent = false ->
     open_from_static_id env p device
     = (DEVICE_IMU_ERROR_PAYLOAD_FAILED, p1, d1)) /\
  (sent = true ->
     forall p2 d2 id_bytes,
       recv_payload_msg p1 d1 DEVICE_IMU_MSG_GET_STATIC_ID 4 (le32 0)
         = (false, p2, d2, id_bytes) ->
       open_from_static_id env p device
       = open_from_calibration env p2 (set_static_id d2 0x20220101) /\
       static_id (snd (open_from_static_id env p device)) = 0x20220101).
Proof.
  intros Hsend. split.
  - intros ->. unfold open_from_static_id. rewrite Hsend. reflexivity.
  - intros -> p2 d2 id_bytes Hrecv.
    assert (Heq : open_from_static_id env p device
                  = open_from_calibration env p2 (set_static_id d2 0x20220101)).
    { unfold open_from_static_id. rewrite Hsend. cbn [negb].
      rewrite Hrecv. reflexivity. }
    split; [exact Heq |].
    rewrite Heq, open_from_calibration_static_id. reflexivity.
Qed.

(* ================================================================= *)
(** ** More on framing *)

Lemma wire_frame_carries (msgid : Z) (data : list Z) :
  carries (wire_frame msgid data) msgid data.
Proof.
  unfold carries. split; [rewrite wire_frame_length; lia |].
  unfold wire_frame, frame_region, le32, le16, byte_at.
  cbn [app nth skipn]. split; [reflexivity | apply firstn_all].
Qed.

(** X8. Round trip of the framing layer: the frame a send hands to the
    transport, delivered back as the next report, is accepted by a receive
    for the same message id and length, which copies out the payload that
    was sent. *)
Theorem send_then_recv_round_trip (p q : process)
    (sender receiver : device_imu_type) (hs hr : hid_device)
    (msgid : Z) (data buf : list Z) (ins : list hid_input) :
  handle sender = Some hs ->
  handle receiver = Some hr ->
  Z.of_nat (List.length data) <= 56 ->
  let len := Z.of_nat (List.length data) in
  let sent :=
    match handle (snd (send_payload_msg p sender msgid len data)) with
    | Some hs' => last (hid_written hs') []
    | None => []
    end in
  hid_inputs hr = HidReport sent :: ins ->
  let '(ok, _, _, out) := recv_payload_msg q receiver msgid len buf in
  ok = true /\ out = data ++ skipn (List.length data) buf.
Proof.
  intros Hs Hr Hlen len sent Hin.
  assert (Hsent : sent = wire_frame msgid data).
  { unfold sent, len.
    rewrite (send_payload_msg_eq p sender hs msgid _ data Hs) by lia.
    cbn [snd handle set_handle hid_after_write hid_written].
    apply last_last. }
  rewrite Hsent in Hin.
  unfold len.
  rewrite (recv_payload_msg_carries q receiver hr msgid buf data
             (wire_frame msgid data) ins Hr Hin Hlen (wire_frame_carries msgid data)).
  split; reflexivity.
Qed.

Lemma nth_as_skipn (l : list Z) (n : nat) : nth n l 0 = hd 0 (skipn n l).
Proof.
  revert l. induction n as [| n IH]; intros [| x l]; cbn; auto.
Qed.

(** X9. A receive never looks at the head byte, the checksum or the length
    field: two reports of the same size that agree from offset 7 on (the
    message id and what follows) give the same verdict and the same
    payload. *)
Theorem recv_ignores_head_checksum_and_length (p : process)
    (d1 d2 : device_imu_type) (h1 h2 : hid_device)
    (msgid len : Z) (data f1 f2 : list Z) :
  handle d1 = Some h1 -> handle d2 = Some h2 ->
  0 <= len <= 56 ->
  hd HidReadError (hid_inputs h1) = HidReport f1 ->
  hd HidReadError (hid_inputs h2) = HidReport f2 ->
  List.length f1 = List.length f2 ->
  skipn 7 f1 = skipn 7 f2 ->
  fst (fst (fst (recv_payload_msg p d1 msgid len data)))
  = fst (fst (fst (recv_payload_msg p d2 msgid len data))) /\
  snd (recv_payload_msg p d1 msgid len data)
  = snd (recv_payload_msg p d2 msgid len data).
Proof.
  intros Hd1 Hd2 Hlen Hf1 Hf2 Hsize Htail.
  rewrite (recv_payload_msg_eq p d1 h1 msgid len data Hd1 Hlen).
  rewrite (recv_payload_msg_eq p d2 h2 msgid len data Hd2 Hlen).
  cbn [fst snd].
  unfold full_report, received_bytes. rewrite Hf1, Hf2, Hsize.
  destruct (Z.leb_spec (8 + len) (Z.of_nat (List.length f2))) as [Hfull | Hshort].
  - assert (Hfull1 : 8 + len <= Z.of_nat (List.length f1)) by lia.
    destruct (received_frame_fields (recv_packet p) f1 len Hlen Hfull1) as [Hm1 Hp1].
    destruct (received_frame_fields (recv_packet p) f2 len Hlen Hfull) as [Hm2 Hp2].
    cbv zeta in Hm1, Hp1, Hm2, Hp2.
    rewrite Hm1, Hm2, Hp1, Hp2.
    assert (Hid : byte_at f1 7 = byte_at f2 7)
      by (unfold byte_at; rewrite !nth_as_skipn, Htail; reflexivity).
    assert (Hpl : skipn 8 f1 = skipn 8 f2).
    { change 8%nat with (1 + 7)%nat. rewrite <- !skipn_skipn, Htail. reflexivity. }
    rewrite Hid, Hpl. split; reflexivity.
  - cbn [andb]. split; reflexivity.
Qed.

(* ================================================================= *)
(** ** More on the streaming read *)

(** The read of a session that holds a handle, up to the signature test. *)
Lemma device_imu_read_at_cases (p : process) (device : device_imu_type)
    (h : hid_device) (timeout : Z) :
  handle device = Some h ->
  sizeof_device_imu_packet_type = MAX_PACKET_SIZE ->
  let d' := set_handle device (Some (hid_after_read h 64)) in
  device_imu_read_at p device timeout
  = match hd HidReadError (hid_inputs h) with
    | HidReadError => (DEVICE_IMU_ERROR_UNPLUGGED, p, d')
    | HidReport b =>
        if Z.of_nat (List.length b) =? 0
        then (DEVICE_IMU_ERROR_NO_ERROR, p, d')
        else if Z.of_nat (List.length b) <? 64
        then (DEVICE_IMU_ERROR_UNEXPECTED, p, d')
        else
          let packet := device_imu_packet_of_bytes (firstn 64 b) in
          if is_init_signature packet
          then (DEVICE_IMU_ERROR_NO_ERROR,
                device_imu_callback p d' (timestamp packet) DEVICE_IMU_EVENT_INIT,
                d')
          else if negb (is_data_signature packet)
          then (DEVICE_IMU_ERROR_WRONG_SIGNATURE, p, d')
          else read_data_frame p d' packet (timestamp packet)
    end.
Proof.
  intros Hh Hsize d'. subst d'.
  unfold device_imu_read_at, hid_read_timeout, hid_read.
  rewrite Hh, Hsize.
  fold (hid_after_read h MAX_PACKET_SIZE).
  unfold MAX_PACKET_SIZE. rewrite Z.eqb_refl. cbn [negb].
  change (Z.to_nat 64) with 64%nat.
  destruct (hd HidReadError (hid_inputs h)) as [| b]; [reflexivity |].
  rewrite length_firstn.
  destruct (Z.eqb_spec (Z.of_nat (List.length b)) 0) as [Hz | Hnz].
  { assert (b = []) by (destruct b; [reflexivity | cbn in Hz; lia]). subst b.
    reflexivity. }
  replace (Z.of_nat (Nat.min 64 (List.length b)) =? -1) with false
    by (symmetry; zbool).
  replace (Z.of_nat (Nat.min 64 (List.length b)) =? 0) with false
    by (symmetry; zbool).
  destruct (Z.ltb_spec (Z.of_nat (List.length b)) 64) as [Hshort | Hfull].
  { replace (64 =? Z.of_nat (Nat.min 64 (List.length b))) with false
      by (symmetry; zbool).
    reflexivity. }
  replace (64 =? Z.of_nat (Nat.min 64 (List.length b))) with true
    by (symmetry; zbool).
  cbn [negb].
  assert (Hgot : List.length (firstn 64 b) = 64%nat)
    by (rewrite firstn_length_le; lia).
  unfold overwrite. rewrite Hgot.
  change (skipn 64 (repeat 0 64)) with (@nil Z). rewrite app_nil_r.
  reflexivity.
Qed.

(** X11. A read that gets no full frame changes nothing but the transport and
    dispatches nothing: a transport error gives "unplugged", an empty read
    gives success, and a report of 1 to 63 bytes gives "unexpected size". *)
Theorem read_without_full_frame (p : process) (device : device_imu_type)
    (h : hid_device) (timeout : Z) :
  handle device = Some h ->
  sizeof_device_imu_packet_type = MAX_PACKET_SIZE ->
  let d' := set_handle device (Some (hid_after_read h 64)) in
  match hd HidReadError (hid_inputs h) with
  | HidReadError =>
      device_imu_read_at p device timeout = (DEVICE_IMU_ERROR_UNPLUGGED, p, d')
  | HidReport b =>
      (b = [] ->
       device_imu_read_at p device timeout = (DEVICE_IMU_ERROR_NO_ERROR, p, d')) /\
      (0 < Z.of_nat (List.length b) < 64 ->
       device_imu_read_at p device timeout = (DEVICE_IMU_ERROR_UNEXPECTED, p, d'))
  end.
Proof.
  intros Hh Hsize d'.
  rewrite (device_imu_read_at_cases p device h timeout Hh Hsize).
  destruct (hd HidReadError (hid_inputs h)) as [| b]; [reflexivity |].
  split.
  - intros ->. reflexivity.
  - intros Hlen.
    replace (Z.of_nat (List.length b) =? 0) with false by (symmetry; zbool).
    replace (Z.of_nat (List.length b) <? 64) with true by (symmetry; zbool).
    reflexivity.
Qed.

(** X12. A full frame with the init signature (0xaa, 0x53) returns success
    and dispatches one INIT event with the frame's timestamp to a
    registered callback (none without one); it is not decoded: the
    calibration record, the fusion engine, the drift tracker, the last
    timestamp and the iron estimator stay as they were. *)
Theorem read_init_frame (p : process) (device : device_imu_type)
    (h : hid_device) (frame : list Z) (timeout : Z) :
  handle device = Some h ->
  sizeof_device_imu_packet_type = MAX_PACKET_SIZE ->
  hd HidReadError (hid_inputs h) = HidReport frame ->
  64 <= Z.of_nat (List.length frame) ->
  is_init_signature (device_imu_packet_of_bytes (firstn 64 frame)) = true ->
  let ts := timestamp (device_imu_packet_of_bytes (firstn 64 frame)) in
  let '(e, p', d') := device_imu_read_at p device timeout in
  e = DEVICE_IMU_ERROR_NO_ERROR /\
  d' = set_handle device (Some (hid_after_read h 64)) /\
  events p' = (if callback device
               then events p ++ [(ts, DEVICE_IMU_EVENT_INIT)] else events p) /\
  iron p' = iron p.
Proof.
  intros Hh Hsize Hin Hlen Hinit ts.
  rewrite (device_imu_read_at_cases p device h timeout Hh Hsize), Hin.
  replace (Z.of_nat (List.length frame) =? 0) with false by (symmetry; zbool).
  replace (Z.of_nat (List.length frame) <? 64) with false by (symmetry; zbool).
  cbv zeta. rewrite Hinit.
  split; [reflexivity |]. split; [reflexivity |].
  unfold device_imu_callback. cbn [callback set_handle].
  destruct (callback device); split; reflexivity.
Qed.

(** X13. A full frame with any other signature than the init and the data one
    is dropped: "wrong signature", no event, nothing changed but the
    transport, which consumed that one frame. *)
Theorem read_wrong_signature (p : process) (device : device_imu_type)
    (h : hid_device) (frame : list Z) (timeout : Z) :
  handle device = Some h ->
  sizeof_device_imu_packet_type = MAX_PACKET_SIZE ->
  hd HidReadError (hid_inputs h) = HidReport frame ->
  64 <= Z.of_nat (List.length frame) ->
  is_init_signature (device_imu_packet_of_bytes (firstn 64 frame)) = false ->
  is_data_signature (device_imu_packet_of_bytes (firstn 64 frame)) = false ->
  device_imu_read_at p device timeout
  = (DEVICE_IMU_ERROR_WRONG_SIGNATURE, p,
     set_handle device (Some (hid_after_read h 64))).
Proof.
  intros Hh Hsize Hin Hlen Hinit Hdata.
  rewrite (device_imu_read_at_cases p device h timeout Hh Hsize), Hin.
  replace (Z.of_nat (List.length frame) =? 0) with false by (symmetry; zbool).
  replace (Z.of_nat (List.length frame) <? 64) with false by (symmetry; zbool).
  cbv zeta. rewrite Hinit, Hdata. reflexivity.
Qed.

(** What [apply_calibration] leaves in the process and in the session. *)
Lemma apply_calibration_state (p : process) (device : device_imu_type)
    (gyroscope accelerometer magnetometer : FusionVector) :
  let est :=
    iterate_iron_offset_estimation (iron p)
      (inertial_magnetometer device magnetometer) in
  fst (fst (apply_calibration p device gyroscope accelerometer magnetometer))
  = set_iron p (fst (fst est)) /\
  snd (fst (apply_calibration p device gyroscope accelerometer magnetometer))
  = match calibration device with
    | Some c =>
        set_calibration device
          (Some (set_iron_estimate c (snd (fst est)) (snd est)))
    | None => device
    end.
Proof.
  unfold apply_calibration, inertial_magnetometer.
  destruct (iterate_iron_offset_estimation _ _) as [[st soft] hard].
  cbn [fst snd]. split; reflexivity.
Qed.

(** The session after the data-frame path: the fields it sets, and the
    handle it leaves alone. *)
Lemma read_data_frame_session (p : process) (device : device_imu_type)
    (packet : device_imu_packet_type) (ts : Z) :
  let est :=
    iterate_iron_offset_estimation (iron p)
      (inertial_magnetometer device (snd (readIMU_from_packet packet))) in
  let r := read_data_frame p device packet ts in
  handle (snd r) = handle device /\
  last_timestamp (snd r) = ts /\
  temperature_celsius (snd r) = celsius (pack16bit_signed (temperature packet)) /\
  calibration (snd r)
  = option_map (fun c => set_iron_estimate c (snd (fst est)) (snd est))
               (calibration device) /\
  iron (snd (fst r)) = fst (fst est) /\
  (fst (fst r) = DEVICE_IMU_ERROR_NO_ERROR \/
   fst (fst r) = DEVICE_IMU_ERROR_INVALID_VALUE).
Proof.
  intros est r. subst est r.
  unfold read_data_frame.
  destruct (readIMU_from_packet packet) as [[g acc] m]. cbn [snd].
  set (d1 := set_temperature _ _).
  pose proof (apply_calibration_state p d1 g acc m) as [Hp Hd].
  cbv zeta in Hp, Hd.
  change (inertial_magnetometer d1 m) with (inertial_magnetometer device m) in Hp, Hd.
  destruct (apply_calibration p d1 g acc m) as [[p1 d2] [[g' a'] m']].
  cbn [fst snd] in Hp, Hd. subst p1 d2.
  set (est := iterate_iron_offset_estimation (iron p) (inertial_magnetometer device m)).
  change (calibration d1) with (calibration device).
  assert (Hfields :
    forall d, d = match calibration device with
                  | Some c => set_calibration d1
                                (Some (set_iron_estimate c (snd (fst est)) (snd est)))
                  | None => d1
                  end ->
    handle d = handle device /\ last_timestamp d = ts /\
    temperature_celsius d = celsius (pack16bit_signed (temperature packet)) /\
    calibration d
    = option_map (fun c => set_iron_estimate c (snd (fst est)) (snd est))
                 (calibration device)).
  { intros d ->. destruct (calibration device) eqn:Hc; cbn; rewrite ?Hc;
      repeat split; reflexivity. }
  match goal with
  | |- context [offset ?d] => specialize (Hfields d eq_refl); set (d2 := d) in *
  end.
  destruct Hfields as (H1 & H2 & H3 & H4).
  destruct (offset d2) as [o |].
  - destruct (FusionOffsetUpdate o g') as [o' g''].
    cbn [ahrs set_offset].
    destruct (ahrs d2) as [a |].
    + cbn [ahrs set_ahrs device_imu_get_orientation].
      destruct (orientation_isnan _); cbn; repeat split; auto.
      unfold device_imu_callback; destruct (negb _); reflexivity.
    + cbn; repeat split; auto.
      unfold device_imu_callback; destruct (negb _); reflexivity.
  - destruct (ahrs d2) as [a |].
    + cbn [ahrs set_ahrs device_imu_get_orientation].
      destruct (orientation_isnan _); cbn; repeat split; auto.
      unfold device_imu_callback; destruct (negb _); reflexivity.
    + cbn; repeat split; auto.
      unfold device_imu_callback; destruct (negb _); reflexivity.
Qed.

(** X14. One call is one transfer: whatever arrives, a read on a session with
    a handle asks the transport once for 64 bytes, consumes one report and
    writes nothing. *)
Theorem read_is_one_transfer (p : process) (device : device_imu_type)
    (h : hid_device) (timeout : Z) :
  handle device = Some h ->
  sizeof_device_imu_packet_type = MAX_PACKET_SIZE ->
  exists h',
    handle (snd (device_imu_read_at p device timeout)) = Some h' /\
    hid_requested h' = hid_requested h ++ [64] /\
    hid_inputs h' = tl (hid_inputs h) /\
    hid_written h' = hid_written h /\
    hid_outputs h' = hid_outputs h.
Proof.
  intros Hh Hsize.
  exists (hid_after_read h 64).
  split; [| repeat split; reflexivity].
  rewrite (device_imu_read_at_cases p device h timeout Hh Hsize).
  destruct (hd HidReadError (hid_inputs h)) as [| b]; [reflexivity |].
  destruct (_ =? 0); [reflexivity |].
  destruct (_ <? 64); [reflexivity |].
  cbv zeta.
  destruct (is_init_signature _); [reflexivity |].
  destruct (negb _); [reflexivity |].
  match goal with
  | |- context [read_data_frame ?p ?d ?k ?t] =>
      destruct (read_data_frame_session p d k t) as (Hhandle & _)
  end.
  cbv zeta in Hhandle. rewrite Hhandle. reflexivity.
Qed.

(** X15. What a data frame leaves behind, whether the call then succeeds or
    returns "invalid value": the last timestamp is the frame's, the
    temperature is raw / 132.48 + 25, the process-wide iron estimator has
    taken the frame's magnetometer reading, and the soft-iron matrix and
    hard-iron offset of the session's calibration record are overwritten
    with the new estimate (its other fields are kept). *)
Theorem read_data_frame_effects (p : process) (device : device_imu_type)
    (h : hid_device) (frame : list Z) (timeout : Z) :
  accepts_data_frame device h frame ->
  let packet := device_imu_packet_of_bytes (firstn 64 frame) in
  let est :=
    iterate_iron_offset_estimation (iron p)
      (inertial_magnetometer device (snd (readIMU_from_packet packet))) in
  let '(e, p', d') := device_imu_read_at p device timeout in
  (e = DEVICE_IMU_ERROR_NO_ERROR \/ e = DEVICE_IMU_ERROR_INVALID_VALUE) /\
  last_timestamp d' = timestamp packet /\
  temperature_celsius d' = celsius (pack16bit_signed (temperature packet)) /\
  iron p' = fst (fst est) /\
  calibration d'
  = option_map (fun c => set_iron_estimate c (snd (fst est)) (snd est))
               (calibration device).
Proof.
  intros Hacc packet est.
  rewrite (device_imu_read_at_data_frame p device h frame timeout Hacc).
  fold packet.
  pose proof (read_data_frame_session p
                (set_handle device (Some (hid_after_read h 64)))
                packet (timestamp packet)) as H.
  cbv zeta in H.
  destruct (read_data_frame p _ packet (timestamp packet)) as [[e p'] d'].
  cbn [fst snd] in H.
  destruct H as (_ & Hts & Htemp & Hcal & Hiron & He).
  repeat split; assumption.
Qed.

(** X16. Without a fusion engine the orientation is not examined: a data frame
    read on a session whose engine pointer is null returns success and
    dispatches the UPDATE event to a registered callback. *)
Theorem read_data_frame_without_engine (p : process)
    (device : device_imu_type) (h : hid_device) (frame : list Z)
    (timeout : Z) :
  accepts_data_frame device h frame ->
  ahrs device = None ->
  let ts := timestamp (device_imu_packet_of_bytes (firstn 64 frame)) in
  let '(e, p', d') := device_imu_read_at p device timeout in
  e = DEVICE_IMU_ERROR_NO_ERROR /\
  ahrs d' = None /\
  events p' = (if callback device
               then events p ++ [(ts, DEVICE_IMU_EVENT_UPDATE)] else events p).
Proof.
  intros Hacc Ha ts.
  rewrite (device_imu_read_at_data_frame p device h frame timeout Hacc).
  fold ts.
  set (d0 := set_handle device (Some (hid_after_read h 64))).
  set (packet := device_imu_packet_of_bytes (firstn 64 frame)).
  unfold read_data_frame.
  destruct (readIMU_from_packet packet) as [[g acc] m].
  set (d1 := set_temperature _ _).
  destruct (apply_calibration_outputs p d1 g acc m)
    as (p1 & d2 & m' & Heq & Hev & Hahrs & Hoff & Hcb & Hh).
  rewrite Heq.
  assert (Ha2 : ahrs d2 = None) by (rewrite Hahrs; exact Ha).
  assert (Hcb2 : callback d2 = callback device) by (rewrite Hcb; reflexivity).
  destruct (offset d2) as [o |].
  - destruct (FusionOffsetUpdate o _) as [o' g''].
    cbn [ahrs set_offset]. rewrite Ha2.
    split; [reflexivity |]. split; [exact Ha2 |].
    unfold device_imu_callback. cbn [callback set_offset]. rewrite Hcb2.
    destruct (callback device); cbn; rewrite ?Hev; reflexivity.
  - rewrite Ha2.
    split; [reflexivity |]. split; [exact Ha2 |].
    unfold device_imu_callback. rewrite Hcb2.
    destruct (callback device); cbn; rewrite ?Hev; reflexivity.
Qed.

Lemma scaled_zero_divisor (a m : Z) : F32.isfinite (scaled a m 0) = false.
Proof.
  unfold scaled. change (F32.of_Z 0) with (S754_zero false).
  destruct (F32.mul (F32.of_Z a) (F32.of_Z m)); reflexivity.
Qed.

(** X28. The divisors of a frame are used unchecked: when the divisor
    field of a sensor decodes to zero, the reading of that sensor is on
    every axis an infinity or a NaN, whatever the axes and the multiplier
    hold. *)
Theorem readIMU_zero_divisor (packet : device_imu_packet_type) :
  let '(gyroscope, accelerometer, magnetometer) := readIMU_from_packet packet in
  (pack32bit_signed (angular_divisor packet) = 0 ->
   nowhere_finite gyroscope = true) /\
  (pack32bit_signed (acceleration_divisor packet) = 0 ->
   nowhere_finite accelerometer = true) /\
  (pack32bit_signed_swap (magnetic_divisor packet) = 0 ->
   nowhere_finite magnetometer = true).
Proof.
  unfold readIMU_from_packet, nowhere_finite. cbn [axis_x axis_y axis_z].
  split; [| split]; intros ->; rewrite !scaled_zero_divisor; reflexivity.
Qed.

(* ================================================================= *)
(** ** More on the stationary calibration *)

Lemma device_hid_read_differs_in_handle (device : device_imu_type)
    (buf : list Z) (n : Z) :
  differs_in_handle device (snd (device_hid_read device buf n)).
Proof.
  unfold differs_in_handle, device_hid_read, hid_read.
  destruct device as [v pr cb hd_ sid lt tc off ah cal].
  destruct hd_ as [h |]; [| reflexivity].
  cbn [handle]. destruct (hd HidReadError (hid_inputs h)); reflexivity.
Qed.

Lemma differs_in_handle_trans (a b c : device_imu_type) :
  differs_in_handle a b -> differs_in_handle b c -> differs_in_handle a c.
Proof.
  unfold differs_in_handle. intros Hab Hbc.
  destruct a, b, c. cbn in *.
  inversion Hab; inversion Hbc; subst; reflexivity.
Qed.

Lemma differs_in_handle_refl (a : device_imu_type) : differs_in_handle a a.
Proof. unfold differs_in_handle. destruct a; reflexivity. Qed.

(** The loop only reads: it dispatches no event, leaves the static packets
    alone, writes nothing to the transport and changes no field of the
    session but the handle. *)
Lemma calibrate_loop_quiet (fuel : nat) :
  forall (p : process) (device : device_imu_type) (iterations : Z)
         (l : calibrate_locals),
  match calibrate_loop fuel p device iterations l with
  | Some (CalibrateReturn _ p' d') | Some (CalibrateDone p' d' _) =>
      events p' = events p /\ send_packet p' = send_packet p /\
      recv_packet p' = recv_packet p /\
      differs_in_handle device d' /\
      option_map hid_written (handle d') = option_map hid_written (handle device) /\
      option_map hid_outputs (handle d') = option_map hid_outputs (handle device)
  | None => True
  end.
Proof.
  induction fuel as [| fuel IH]; intros p device iterations l; cbn [calibrate_loop].
  - destruct (iterations >? 0); [exact I |].
    repeat split; try reflexivity. apply differs_in_handle_refl.
  - destruct (iterations >? 0).
    2:{ repeat split; try reflexivity. apply differs_in_handle_refl. }
    pose proof (device_hid_read_differs_in_handle device
                  (repeat 0 (Z.to_nat sizeof_device_imu_packet_type))
                  MAX_PACKET_SIZE) as Hd.
    assert (Hw : forall buf n,
               option_map hid_written (handle (snd (device_hid_read device buf n)))
               = option_map hid_written (handle device) /\
               option_map hid_outputs (handle (snd (device_hid_read device buf n)))
               = option_map hid_outputs (handle device)).
    { intros buf n. unfold device_hid_read, hid_read.
      destruct (handle device) as [h |] eqn:Hh;
        [| cbn [snd]; rewrite Hh; split; reflexivity].
      destruct (hd HidReadError (hid_inputs h)); cbn; split; reflexivity. }
    specialize (Hw (repeat 0 (Z.to_nat sizeof_device_imu_packet_type)) MAX_PACKET_SIZE).
    destruct (device_hid_read device _ MAX_PACKET_SIZE) as [[transferred buf] d1].
    cbn [snd] in Hd, Hw. destruct Hw as [Hw Ho].
    assert (Hstep : forall p2 it l2,
              events p2 = events p -> send_packet p2 = send_packet p ->
              recv_packet p2 = recv_packet p ->
              match calibrate_loop fuel p2 d1 it l2 with
              | Some (CalibrateReturn _ p' d') | Some (CalibrateDone p' d' _) =>
                  events p' = events p /\ send_packet p' = send_packet p /\
                  recv_packet p' = recv_packet p /\
                  differs_in_handle device d' /\
                  option_map hid_written (handle d')
                  = option_map hid_written (handle device) /\
                  option_map hid_outputs (handle d')
                  = option_map hid_outputs (handle device)
              | None => True
              end).
    { intros p2 it l2 E1 E2 E3. specialize (IH p2 d1 it l2).
      destruct (calibrate_loop fuel p2 d1 it l2) as [[e p' d' | p' d' l'] |];
        [| | exact I];
        destruct IH as (I1 & I2 & I3 & I4 & I5 & I6);
        (split; [congruence |]); (split; [congruence |]); (split; [congruence |]);
        (split; [eapply differs_in_handle_trans; eassumption |]);
        split; congruence. }
    destruct (transferred =? -1);
      [repeat split; try reflexivity; assumption |].
    destruct (transferred =? 0); [apply Hstep; reflexivity |].
    destruct (negb (MAX_PACKET_SIZE =? transferred));
      [repeat split; try reflexivity; assumption |].
    destruct (negb (is_data_signature (device_imu_packet_of_bytes buf)));
      [apply Hstep; reflexivity |].
    unfold calibrate_frame.
    destruct (readIMU_from_packet (device_imu_packet_of_bytes buf)) as [[g a] m].
    destruct (initialized l);
      destruct (iterate_iron_offset_estimation _ _) as [[st soft] hard];
      apply Hstep; reflexivity.
Qed.

Lemma differs_in_handle_fields (d d' : device_imu_type) :
  differs_in_handle d d' ->
  same_session_fields d d' /\ calibration d' = calibration d.
Proof.
  unfold differs_in_handle, same_session_fields.
  destruct d, d'. cbn. intros H. inversion H; subst.
  repeat split; reflexivity.
Qed.

(** X17. [device_imu_calibrate] never dispatches an event and never writes to
    the transport, and apart from the handle and the calibration record it
    leaves the session as it was: identifiers, callback, last timestamp,
    temperature, drift tracker and fusion engine. *)
Theorem calibrate_only_reads (p : process) (d : device_imu_type)
    (iterations : Z) (gyro accel magnet : bool) :
  let '(_, p', device') :=
    device_imu_calibrate p (Some d) iterations gyro accel magnet in
  exists d',
    device' = Some d' /\
    events p' = events p /\
    option_map hid_written (handle d') = option_map hid_written (handle d) /\
    same_session_fields d d'.
Proof.
  unfold device_imu_calibrate.
  assert (Hsame : exists d', Some d = Some d' /\ events p = events p /\
            option_map hid_written (handle d') = option_map hid_written (handle d) /\
            same_session_fields d d').
  { exists d. repeat split. }
  destruct (handle d) as [h |] eqn:Hh; [| exact Hsame].
  destruct (calibration d) as [c |] eqn:Hc; [| exact Hsame].
  destruct (negb _); [exact Hsame |].
  pose proof (calibrate_loop_quiet (S (pending_inputs d)) p d iterations
                calibrate_locals_initial) as Hq.
  destruct (calibrate_loop _ p d iterations _) as [[e p' d' | p' d' l'] |];
    [| | exact Hsame].
  - destruct Hq as (He & _ & _ & Hd & Hw & _).
    exists d'. split; [reflexivity |]. split; [exact He |].
    split; [rewrite Hw, Hh; reflexivity |].
    apply (differs_in_handle_fields d d' Hd).
  - destruct Hq as (He & _ & _ & Hd & Hw & _).
    destruct (differs_in_handle_fields d d' Hd) as [Hf _].
    eexists. split; [reflexivity |]. split; [exact He |].
    split.
    + destruct (calibration d'); cbn; rewrite Hw, Hh; reflexivity.
    + destruct (calibration d'); exact Hf.
Qed.

(** The loop ends right after its last data frame.  [initialized] stays
    false, so at that point the accelerometer accumulator is the zero
    vector and the gyroscope accumulator is the reading of that one
    frame. *)
Lemma calibrate_loop_last_frame (fuel : nat) :
  forall (p : process) (device : device_imu_type) (iterations : Z)
         (l : calibrate_locals) (h : hid_device) (p' : process)
         (d' : device_imu_type) (l' : calibrate_locals),
  sizeof_device_imu_packet_type = 64 ->
  handle device = Some h ->
  initialized l = false ->
  0 < iterations ->
  calibrate_loop fuel p device iterations l = Some (CalibrateDone p' d' l') ->
  exists front frame,
    hid_inputs h = front ++ HidReport frame :: session_inputs (Some d') /\
    is_data_report (HidReport frame) = true /\
    cal_accelerometer l' = FUSION_VECTOR_ZERO /\
    cal_gyroscope l' = frame_gyroscope frame.
Proof.
  induction fuel as [| fuel IH];
    intros p device iterations l h p' d' l' Hsize Hh Hinit Hpos;
    cbn [calibrate_loop];
    (replace (iterations >? 0) with true by (symmetry; zbool));
    [discriminate |].
  rewrite (device_hid_read_transport device h _ _ Hh).
  rewrite Hsize. unfold hid_read.
  destruct (hid_inputs h) as [| i ins] eqn:Hin; cbn [hd fst snd];
    [discriminate |].
  destruct i as [| b]; cbn [fst snd]; [discriminate |].
  set (d1 := set_handle device (Some (hid_after_read h MAX_PACKET_SIZE))).
  assert (Hh1 : handle d1 = Some (hid_after_read h MAX_PACKET_SIZE))
    by reflexivity.
  assert (Hin1 : hid_inputs (hid_after_read h MAX_PACKET_SIZE) = ins)
    by (cbn; rewrite Hin; reflexivity).
  set (got := firstn (Z.to_nat MAX_PACKET_SIZE) b).
  assert (Hgot : List.length got = Nat.min 64 (List.length b))
    by (subst got; rewrite length_firstn; reflexivity).
  assert (Hskip : forall it l2,
            0 < it -> initialized l2 = false ->
            forall p2,
            calibrate_loop fuel p2 d1 it l2 = Some (CalibrateDone p' d' l') ->
            exists front frame,
              HidReport b :: ins
              = front ++ HidReport frame :: session_inputs (Some d') /\
              is_data_report (HidReport frame) = true /\
              cal_accelerometer l' = FUSION_VECTOR_ZERO /\
              cal_gyroscope l' = frame_gyroscope frame).
  { intros it l2 Hit Hl2 p2 Hrun.
    destruct (IH _ _ _ _ _ _ _ _ Hsize Hh1 Hl2 Hit Hrun)
      as (front & frame & Hins & Hdata & Ha & Hg).
    exists (HidReport b :: front), frame.
    rewrite Hin1 in Hins. rewrite Hins. auto. }
  destruct (Z.eqb_spec (Z.of_nat (List.length got)) (-1)) as [Habs | _];
    [lia |].
  destruct (Z.eqb_spec (Z.of_nat (List.length got)) 0) as [Hzero | Hnz];
    [apply Hskip; assumption |].
  destruct (Z.eqb_spec MAX_PACKET_SIZE (Z.of_nat (List.length got)))
    as [Hfull | _]; cbn [negb]; [| discriminate].
  unfold MAX_PACKET_SIZE in Hfull.
  assert (Hlen : 64 <= Z.of_nat (List.length b)) by lia.
  assert (Hbuf : overwrite (repeat 0 (Z.to_nat 64)) got = firstn 64 b).
  { unfold overwrite. rewrite skipn_all2.
    - rewrite app_nil_r. reflexivity.
    - rewrite repeat_length. lia. }
  rewrite Hbuf.
  assert (Hdata : is_data_report (HidReport b)
                  = is_data_signature (device_imu_packet_of_bytes (firstn 64 b))).
  { cbn [is_data_report].
    replace (64 <=? Z.of_nat (List.length b)) with true by (symmetry; zbool).
    reflexivity. }
  destruct (is_data_signature (device_imu_packet_of_bytes (firstn 64 b)))
    eqn:Hsig; cbn [negb]; [| apply Hskip; assumption].
  unfold calibrate_frame. rewrite Hinit.
  destruct (readIMU_from_packet (device_imu_packet_of_bytes (firstn 64 b)))
    as [[g a] m] eqn:Hread.
  destruct (iterate_iron_offset_estimation _ _) as [[st soft] hard].
  destruct (Z.ltb_spec 0 (iterations - 1)) as [Hmore | Hlast];
    [apply Hskip; [exact Hmore | reflexivity] |].
  intros Hrun.
  assert (Hend : forall p2 l2,
            calibrate_loop fuel p2 d1 (iterations - 1) l2
            = Some (CalibrateDone p2 d1 l2)).
  { intros p2 l2. destruct fuel; cbn [calibrate_loop];
      (replace (iterations - 1 >? 0) with false by (symmetry; zbool));
      reflexivity. }
  rewrite Hend in Hrun. injection Hrun as <- <- <-.
  exists [], b. cbn [app session_inputs cal_accelerometer cal_gyroscope].
  rewrite Hh1, Hin1. split; [reflexivity |]. split; [exact Hdata |].
  split; [reflexivity |].
  unfold frame_gyroscope. rewrite Hread. reflexivity.
Qed.

(** X18. Because the flag [initialized] is never set, a successful calibration
    with at least one iteration does not average.  The loop stops right
    after a data frame; the gyroscope correction added to the record is
    the reading of that last frame alone, scaled by 1 / iterations, and the
    accelerometer correction is built from the zero vector.
    Misalignments, sensitivities, the magnetometer offset and the noises
    are never changed. *)
Theorem calibrate_adds_single_frame (p : process) (d : device_imu_type)
    (h : hid_device) (c : device_imu_calibration_type) (iterations : Z)
    (gyro accel magnet : bool) :
  handle d = Some h ->
  calibration d = Some c ->
  0 < iterations ->
  let factor := F32.div F32.one (F32.of_Z iterations) in
  let '(e, _, device') :=
    device_imu_calibrate p (Some d) iterations gyro accel magnet in
  e = DEVICE_IMU_ERROR_NO_ERROR ->
  exists c' front frame,
    session_calibration device' = Some c' /\
    hid_inputs h = front ++ HidReport frame :: session_inputs device' /\
    is_data_report (HidReport frame) = true /\
    accelerometerOffset c'
    = (if F32.gtb factor F32.zero && accel
       then FusionVectorAdd (accelerometerOffset c)
              (FusionVectorMultiplyScalar FUSION_VECTOR_ZERO
                                          (F32.mul factor GRAVITY_G))
       else accelerometerOffset c) /\
    gyroscopeOffset c'
    = (if F32.gtb factor F32.zero && gyro
       then FusionVectorAdd (gyroscopeOffset c)
              (FusionVectorMultiplyScalar (frame_gyroscope frame)
                                          (FusionDegreesToRadians factor))
       else gyroscopeOffset c) /\
    gyroscopeMisalignment c' = gyroscopeMisalignment c /\
    gyroscopeSensitivity c' = gyroscopeSensitivity c /\
    accelerometerMisalignment c' = accelerometerMisalignment c /\
    accelerometerSensitivity c' = accelerometerSensitivity c /\
    magnetometerMisalignment c' = magnetometerMisalignment c /\
    magnetometerSensitivity c' = magnetometerSensitivity c /\
    magnetometerOffset c' = magnetometerOffset c /\
    noises c' = noises c.
Proof.
  intros Hh Hc Hpos factor.
  unfold device_imu_calibrate. rewrite Hc, Hh.
  destruct (Z.eqb_spec MAX_PACKET_SIZE sizeof_device_imu_packet_type)
    as [Hsize | _]; cbn [negb]; [| discriminate].
  replace (iterations >? 0) with true by (symmetry; zbool).
  fold factor.
  pose proof (calibrate_loop_calibration (S (pending_inputs d)) p d iterations
                calibrate_locals_initial) as Hcal.
  destruct (calibrate_loop _ p d iterations _) as [[e p' d' | p' d' l'] |] eqn:Hrun;
    [| | discriminate].
  { destruct Hcal as [_ [-> | ->]]; discriminate. }
  intros _.
  destruct (calibrate_loop_last_frame (S (pending_inputs d)) p d iterations
              calibrate_locals_initial h p' d' l' (eq_sym Hsize) Hh eq_refl
              Hpos Hrun) as (front & frame & Hins & Hdata & Hzero & Hg).
  rewrite Hcal, Hc.
  cbn [session_calibration calibration set_calibration].
  eexists. exists front, frame. split; [reflexivity |].
  split; [exact Hins |]. split; [exact Hdata |].
  unfold calibrate_commit.
  destruct (F32.gtb factor F32.zero); cbn [andb].
  - rewrite Hzero, Hg.
    destruct gyro, accel, magnet; cbn; repeat split; reflexivity.
  - repeat split; reflexivity.
Qed.

(** X19. A calibration that succeeds has taken from the transport a run of
    reports holding exactly [iterations] data frames; every other report
    of the run is empty or a full frame with another signature, and none
    is a failed read. *)
Theorem calibrate_takes_iterations_data_frames (p : process)
    (d : device_imu_type) (h : hid_device) (iterations : Z)
    (gyro accel magnet : bool) :
  handle d = Some h ->
  0 <= iterations ->
  let '(e, _, device') :=
    device_imu_calibrate p (Some d) iterations gyro accel magnet in
  e = DEVICE_IMU_ERROR_NO_ERROR ->
  exists d' h' consumed,
    device' = Some d' /\ handle d' = Some h' /\
    hid_inputs h = consumed ++ hid_inputs h' /\
    data_reports consumed = iterations /\
    Forall passable_report consumed.
Proof.
  intros Hh Hnn. unfold device_imu_calibrate. rewrite Hh.
  destruct (calibration d) as [c |] eqn:Hc; [| discriminate].
  destruct (Z.eqb_spec MAX_PACKET_SIZE sizeof_device_imu_packet_type)
    as [Hsize | _]; cbn [negb]; [| discriminate].
  pose proof (calibrate_loop_calibration (S (pending_inputs d)) p d iterations
                calibrate_locals_initial) as Hcal.
  destruct (calibrate_loop _ p d iterations _) as [[e p' d' | p' d' l'] |] eqn:Hrun;
    [| | discriminate].
  { destruct Hcal as [_ [-> | ->]]; discriminate. }
  intros _.
  destruct (calibrate_loop_counts _ _ _ _ _ _ _ _ _ (eq_sym Hsize) Hh Hnn Hrun)
    as (consumed & h' & Hd' & Hins & Hcount & Hall).
  rewrite Hcal, Hc.
  eexists. exists h', consumed. split; [reflexivity |].
  cbn [handle set_calibration]. auto.
Qed.
(* ================================================================= *)
(** ** More on opening a session *)

Lemma same_but_transport_refl (a : device_imu_type) : same_but_transport a a.
Proof. split; [apply differs_in_handle_refl | tauto]. Qed.

Lemma same_but_transport_trans (a b c : device_imu_type) :
  same_but_transport a b -> same_but_transport b c -> same_but_transport a c.
Proof.
  intros [H1 N1] [H2 N2]. split.
  - eapply differs_in_handle_trans; eassumption.
  - tauto.
Qed.

Lemma device_hid_write_transport (device : device_imu_type) (data : list Z)
    (n : Z) :
  same_but_transport device (snd (device_hid_write device data n)).
Proof.
  unfold same_but_transport, differs_in_handle, device_hid_write, hid_write.
  destruct device as [v pr cb hd_ sid lt tc off ah cal].
  destruct hd_ as [h |]; cbn [handle snd]; [| split; [reflexivity | tauto]].
  split; [reflexivity |]. cbn. split; discriminate.
Qed.

Lemma device_hid_read_same_but_transport (device : device_imu_type)
    (buf : list Z) (n : Z) :
  same_but_transport device (snd (device_hid_read device buf n)).
Proof.
  split; [apply device_hid_read_differs_in_handle |].
  unfold device_hid_read, hid_read.
  destruct (handle device) as [h |] eqn:Hh; cbn [snd].
  - destruct (hd HidReadError (hid_inputs h)); cbn; split; discriminate.
  - rewrite Hh. tauto.
Qed.

Lemma send_payload_msg_transport (p : process) (device : device_imu_type)
    (msgid len : Z) (data : list Z) :
  same_but_transport device (snd (send_payload_msg p device msgid len data)).
Proof.
  unfold send_payload_msg, send_payload.
  match goal with
  | |- context [device_hid_write device ?b ?n] =>
      pose proof (device_hid_write_transport device b n) as H;
      destruct (device_hid_write device b n) as [t d1]
  end.
  cbn [snd] in H. destruct (negb _); exact H.
Qed.

Lemma recv_payload_msg_transport (p : process) (device : device_imu_type)
    (msgid len : Z) (data : list Z) :
  same_but_transport device
    (snd (fst (recv_payload_msg p device msgid len data))).
Proof.
  unfold recv_payload_msg, recv_payload.
  match goal with
  | |- context [device_hid_read device ?b ?n] =>
      pose proof (device_hid_read_same_but_transport device b n) as H;
      destruct (device_hid_read device b n) as [[t buf] d1]
  end.
  cbn [snd] in H.
  destruct (_ =? 0); [cbn; exact H |].
  destruct (negb (_ =? _)); [cbn; exact H |].
  destruct (_ =? _); cbn [negb]; [| exact H].
  destruct (negb (_ =? _)); exact H.
Qed.

Lemma download_loop_transport (fuel : nat) :
  forall (p : process) (device : device_imu_type) (len position : Z)
         (block : list Z) (dl : download_state),
  download_loop fuel p device len position block = Some dl ->
  same_but_transport device (dl_device dl).
Proof.
  induction fuel as [| fuel IH]; intros p device len position block dl;
    cbn [download_loop].
  - destruct (position <? len); [discriminate |].
    intros [= <-]. apply same_but_transport_refl.
  - destruct (position <? len).
    2:{ intros [= <-]. apply same_but_transport_refl. }
    pose proof (send_payload_msg_transport p device
                  DEVICE_IMU_MSG_CAL_DATA_GET_NEXT_SEGMENT 0 []) as Hs.
    destruct (send_payload_msg p device _ 0 []) as [[ok1 p1] d1].
    cbn [snd] in Hs.
    destruct ok1; cbn [negb].
    2:{ intros [= <-]. exact Hs. }
    match goal with
    | |- context [recv_payload_msg p1 d1 ?m ?n ?b] =>
        pose proof (recv_payload_msg_transport p1 d1 m n b) as Hr;
        destruct (recv_payload_msg p1 d1 m n b) as [[[ok2 p2] d2] seg]
    end.
    cbn [fst snd] in Hr.
    destruct ok2; cbn [negb].
    2:{ intros [= <-]. eapply same_but_transport_trans; eassumption. }
    intros Hrun.
    eapply same_but_transport_trans; [exact Hs |].
    eapply same_but_transport_trans; [exact Hr | exact (IH _ _ _ _ _ _ Hrun)].
Qed.

(** The enumeration loop stops at the first interface that passes the
    test, whatever [hid_open_path] returns for it. *)
Lemma find_imu_first (it : list hid_device_info) (device : device_imu_type) :
  find_imu it device
  = match find imu_interface_matches it with
    | Some i =>
        set_handle (set_product_id device (info_product_id i)) (path_opens i)
    | None => device
    end.
Proof.
  induction it as [| i next IH]; [reflexivity |].
  cbn [find_imu find]. unfold imu_interface_matches at 1.
  destruct (negb _ && _); [reflexivity | exact IH].
Qed.

(** A read on a session that has neither calibration record nor drift
    tracker nor fusion engine, as [device_imu_open] performs it through
    [device_imu_clear], leaves these three null and keeps the identifiers
    and the callback. *)
Lemma device_imu_read_at_bare (p : process) (d : device_imu_type) (t : Z) :
  calibration d = None -> ahrs d = None -> offset d = None ->
  let d' := snd (device_imu_read_at p d t) in
  calibration d' = None /\ ahrs d' = None /\ offset d' = None /\
  vendor_id d' = vendor_id d /\ callback d' = callback d /\
  (handle d' = None <-> handle d = None).
Proof.
  intros Hc Ha Ho. unfold device_imu_read_at.
  destruct (handle d) as [h |] eqn:Hh; cbn [snd];
    [| rewrite Hh; repeat split; auto].
  destruct (negb _); cbn [snd]; [rewrite Hh; repeat split; auto; discriminate |].
  unfold hid_read_timeout, hid_read.
  assert (Hbase : forall h',
             let d' := set_handle d (Some h') in
             calibration d' = None /\ ahrs d' = None /\ offset d' = None /\
             vendor_id d' = vendor_id d /\ callback d' = callback d /\
             (handle d' = None <-> Some h = None (A := hid_device))).
  { intros h'. cbn. repeat split; auto; discriminate. }
  destruct (hd HidReadError (hid_inputs h)) as [| b]; cbn [fst snd];
    [apply Hbase |].
  destruct (_ =? -1); [apply Hbase |].
  destruct (_ =? 0); [apply Hbase |].
  destruct (negb (_ =? _)); [apply Hbase |].
  destruct (is_init_signature _); [apply Hbase |].
  destruct (negb (is_data_signature _)); [apply Hbase |].
  unfold read_data_frame.
  destruct (readIMU_from_packet _) as [[g a] m].
  unfold apply_calibration.
  destruct (iterate_iron_offset_estimation _ _) as [[st soft] hard].
  cbn [calibration set_handle set_temperature set_last_timestamp].
  rewrite Hc.
  cbn [offset ahrs set_handle set_temperature set_last_timestamp].
  rewrite Ho. cbn [ahrs set_handle set_temperature set_last_timestamp].
  rewrite Ha. cbn. repeat split; auto; discriminate.
Qed.

Lemma same_but_transport_fields (d d' : device_imu_type) :
  same_but_transport d d' ->
  same_owner d d' /\ ahrs d' = ahrs d /\ offset d' = offset d /\
  calibration d' = calibration d.
Proof.
  intros [Hd Hn].
  destruct (differs_in_handle_fields d d' Hd)
    as [(Hv & _ & Hcb & _ & _ & _ & Ho & Ha) Hc].
  unfold same_owner. auto 10.
Qed.



(** Lines 261-322. *)
Lemma open_calibration_outcome (env : open_env) (p : process)
    (d : device_imu_type) :
  match open_calibration env p d with
  | inl (e, _, d') =>
      e = DEVICE_IMU_ERROR_PAYLOAD_FAILED /\ same_owner d d' /\
      ahrs d' = ahrs d /\ offset d' = offset d
  | inr (_, d') =>
      same_owner d d' /\ ahrs d' = ahrs d /\ offset d' = offset d /\
      (calibration d <> None -> calibration d' <> None)
  end.
Proof.
  unfold open_calibration.
  pose proof (send_payload_msg_transport p d
                DEVICE_IMU_MSG_GET_CAL_DATA_LENGTH 0 []) as Hs.
  destruct (send_payload_msg p d _ 0 []) as [[ok p1] d1]. cbn [snd] in Hs.
  destruct ok; cbn [negb].
  2:{ destruct (same_but_transport_fields _ _ Hs) as (Hown & Ha & Ho & Hc).
      auto. }
  pose proof (recv_payload_msg_transport p1 d1
                DEVICE_IMU_MSG_GET_CAL_DATA_LENGTH 4 (le32 0)) as Hr.
  destruct (recv_payload_msg p1 d1 _ 4 (le32 0)) as [[[ok2 p2] d2] len_bytes].
  cbn [fst snd] in Hr.
  pose proof (same_but_transport_trans _ _ _ Hs Hr) as H2.
  destruct ok2.
  2:{ destruct (same_but_transport_fields _ _ H2) as (Hown & Ha & Ho & Hc).
      split; [exact Hown |]. split; [exact Ha |]. split; [exact Ho |].
      congruence. }
  destruct (download_loop _ p2 d2 _ 0 _) as [dl |] eqn:Hrun.
  2:{ destruct (same_but_transport_fields _ _ H2) as (Hown & Ha & Ho & Hc).
      split; [exact Hown |]. split; [exact Ha |]. split; [exact Ho |].
      congruence. }
  pose proof (same_but_transport_trans _ _ _ H2
                (download_loop_transport _ _ _ _ _ _ _ Hrun)) as H3.
  destruct (same_but_transport_fields _ _ H3) as (Hown & Ha & Ho & Hc).
  destruct (calibration (dl_device dl)) as [c |] eqn:Hcal.
  - split; [exact Hown |]. split; [exact Ha |]. split; [exact Ho |].
    cbn. discriminate.
  - split; [exact Hown |]. split; [exact Ha |]. split; [exact Ho |].
    congruence.
Qed.



(** [device_imu_open] is its first part followed by the calibration
    exchange and the start of streaming. *)
Lemma device_imu_open_at_split (env : open_env) (p : process) (cb : bool) :
  device_imu_open_at env p cb
  = match open_until_calibration env p cb with
    | inl early => early
    | inr (p, device) =>
        match open_calibration env p device with
        | inl failed => failed
        | inr (p, device) => open_start_streaming p device
        end
    end.
Proof.
  unfold device_imu_open_at, open_until_calibration.
  destruct (negb (device_init env)); [reflexivity |].
  destruct (handle (find_imu _ _)); [| reflexivity].
  destruct (send_payload_msg_signal p _ _ 0) as [[ok p1] d1].
  destruct (negb ok); [reflexivity |].
  destruct (device_imu_read_at p1 d1 10) as [[e2 p2] d2].
  unfold open_from_static_id.
  destruct (send_payload_msg p2 d2 _ 0 []) as [[ok3 p3] d3].
  destruct (negb ok3); [reflexivity |].
  destruct (recv_payload_msg p3 d3 _ 4 (le32 0)) as [[[ok4 p4] d4] id_bytes].
  reflexivity.
Qed.

(** The one block the calibration exchange allocates has
    [calibration_len + 1] bytes, reduced to 32 bits, for the announced
    length: the exchange depends on the allocator through that block
    only, and not at all when no length is announced. *)
Lemma open_calibration_block (env env' : open_env) (p : process)
    (device : device_imu_type) :
  match announced_calibration_length p device with
  | Some calibration_len =>
      malloc_bytes env (to_uint32 (calibration_len + 1))
      = malloc_bytes env' (to_uint32 (calibration_len + 1)) ->
      open_calibration env p device = open_calibration env' p device
  | None => open_calibration env p device = open_calibration env' p device
  end.
Proof.
  unfold announced_calibration_length, open_calibration.
  destruct (send_payload_msg p device _ 0 []) as [[ok p1] d1].
  destruct (negb ok); [reflexivity |].
  destruct (recv_payload_msg p1 d1 _ 4 (le32 0)) as [[[ok2 p2] d2] len_bytes].
  destruct ok2; [| reflexivity].
  intros ->. reflexivity.
Qed.


(** X21. Only the first interface that passes the test is tried: when
    [hid_open_path] fails for it, the call ends with "no handle" although
    a later interface might open, the product id of that interface stays
    in the session, and nothing has been sent. *)
Theorem open_tries_first_matching_interface_only (env : open_env)
    (p : process) (cb : bool) (before after : list hid_device_info)
    (i : hid_device_info) :
  device_init env = true ->
  hid_enumerate env xreal_vendor_id 0 = before ++ i :: after ->
  forallb (fun j => negb (imu_interface_matches j)) before = true ->
  imu_interface_matches i = true ->
  path_opens i = None ->
  let '(e, p', d') := device_imu_open_at env p cb in
  e = DEVICE_IMU_ERROR_NO_HANDLE /\ p' = p /\
  product_id d' = info_product_id i /\ handle d' = None /\
  calibration d' = None.
Proof.
  intros Hinit Henum Hbefore Hi Hopen.
  unfold device_imu_open_at. rewrite Hinit. cbn [negb vendor_id product_id].
  rewrite find_imu_first, Henum.
  assert (Hfind : find imu_interface_matches (before ++ i :: after) = Some i).
  { clear Henum. induction before as [| j before IH]; cbn [app find].
    - rewrite Hi. reflexivity.
    - cbn [forallb] in Hbefore. apply andb_prop in Hbefore as [Hj Hrest].
      apply negb_true_iff in Hj. rewrite Hj. exact (IH Hrest). }
  rewrite Hfind. cbn [handle set_handle]. rewrite Hopen.
  repeat split; reflexivity.
Qed.

Lemma send_payload_msg_written (p : process) (device : device_imu_type)
    (msgid : Z) (data : list Z) :
  handle device <> None ->
  Z.of_nat (List.length data) <= 56 ->
  session_written
    (snd (send_payload_msg p device msgid (Z.of_nat (List.length data)) data))
  = session_written device ++ [wire_frame msgid data].
Proof.
  intros Hh Hlen. destruct (handle device) as [h |] eqn:Hd; [| congruence].
  rewrite (send_payload_msg_eq p device h msgid _ data Hd) by lia.
  unfold session_written. cbn [snd handle set_handle]. rewrite Hd. reflexivity.
Qed.

Lemma same_but_transport_handle (d d' : device_imu_type) :
  same_but_transport d d' -> handle d <> None -> handle d' <> None.
Proof. intros [_ Hn]. tauto. Qed.

Lemma recv_payload_msg_written (p : process) (device : device_imu_type)
    (msgid len : Z) (data : list Z) :
  session_written (snd (fst (recv_payload_msg p device msgid len data)))
  = session_written device.
Proof.
  assert (Hread : forall b n,
            session_written (snd (device_hid_read device b n))
            = session_written device).
  { intros b n. unfold session_written, device_hid_read, hid_read.
    destruct (handle device) as [h |] eqn:Hh; cbn [snd]; [| rewrite Hh; reflexivity].
    destruct (hd HidReadError (hid_inputs h)); reflexivity. }
  unfold recv_payload_msg, recv_payload.
  match goal with
  | |- context [device_hid_read device ?b ?n] =>
      specialize (Hread b n);
      destruct (device_hid_read device b n) as [[t buf] d1]
  end.
  cbn [snd] in Hread.
  destruct (_ =? 0); [cbn; exact Hread |].
  destruct (negb (_ =? _)); [cbn; exact Hread |].
  destruct (_ =? _); cbn [negb]; [| exact Hread].
  destruct (negb (_ =? _)); exact Hread.
Qed.

Lemma device_imu_read_at_written (p : process) (d : device_imu_type) (t : Z) :
  session_written (snd (device_imu_read_at p d t)) = session_written d.
Proof.
  unfold device_imu_read_at.
  destruct (handle d) as [h |] eqn:Hh; [| reflexivity].
  destruct (negb _); [reflexivity |].
  unfold hid_read_timeout, hid_read.
  assert (Hbase : forall h',
            hid_written h' = hid_written h ->
            session_written (set_handle d (Some h')) = session_written d).
  { intros h' Hw. unfold session_written. cbn. rewrite Hh. exact Hw. }
  destruct (hd HidReadError (hid_inputs h)) as [| b]; cbn [fst snd];
    [apply Hbase; reflexivity |].
  destruct (_ =? -1); [apply Hbase; reflexivity |].
  destruct (_ =? 0); [apply Hbase; reflexivity |].
  destruct (negb (_ =? _)); [apply Hbase; reflexivity |].
  destruct (is_init_signature _); [apply Hbase; reflexivity |].
  destruct (negb (is_data_signature _)); [apply Hbase; reflexivity |].
  match goal with
  | |- context [read_data_frame ?p ?d ?k ?t] =>
      destruct (read_data_frame_session p d k t) as (Hhandle & _)
  end.
  cbv zeta in Hhandle. unfold session_written at 1. rewrite Hhandle.
  cbn [handle set_handle]. unfold session_written. rewrite Hh. reflexivity.
Qed.

Lemma download_loop_written (fuel : nat) :
  forall (p : process) (device : device_imu_type) (len position : Z)
         (block : list Z) (dl : download_state),
  handle device <> None ->
  download_loop fuel p device len position block = Some dl ->
  exists k,
    session_written (dl_device dl)
    = session_written device
      ++ repeat (wire_frame DEVICE_IMU_MSG_CAL_DATA_GET_NEXT_SEGMENT []) k.
Proof.
  induction fuel as [| fuel IH]; intros p device len position block dl Hh;
    cbn [download_loop].
  - destruct (position <? len); [discriminate |].
    intros [= <-]. exists O. cbn. rewrite app_nil_r. reflexivity.
  - destruct (position <? len).
    2:{ intros [= <-]. exists O. cbn. rewrite app_nil_r. reflexivity. }
    pose proof (send_payload_msg_written p device
                  DEVICE_IMU_MSG_CAL_DATA_GET_NEXT_SEGMENT [] Hh) as Hw.
    pose proof (send_payload_msg_transport p device
                  DEVICE_IMU_MSG_CAL_DATA_GET_NEXT_SEGMENT 0 []) as Hs.
    cbn [List.length Z.of_nat] in Hw. specialize (Hw ltac:(lia)).
    destruct (send_payload_msg p device _ 0 []) as [[ok1 p1] d1].
    cbn [snd] in Hs, Hw.
    pose proof (same_but_transport_handle _ _ Hs Hh) as Hh1.
    destruct ok1; cbn [negb].
    2:{ intros [= <-]. exists 1%nat. exact Hw. }
    match goal with
    | |- context [recv_payload_msg p1 d1 ?m ?n ?b] =>
        pose proof (recv_payload_msg_written p1 d1 m n b) as Hrw;
        pose proof (recv_payload_msg_transport p1 d1 m n b) as Hr;
        destruct (recv_payload_msg p1 d1 m n b) as [[[ok2 p2] d2] seg]
    end.
    cbn [fst snd] in Hr, Hrw.
    pose proof (same_but_transport_handle _ _ Hr Hh1) as Hh2.
    destruct ok2; cbn [negb].
    2:{ intros [= <-]. exists 1%nat. cbn [dl_device]. rewrite Hrw. exact Hw. }
    intros Hrun. destruct (IH _ _ _ _ _ _ Hh2 Hrun) as [k Hk].
    exists (S k). rewrite Hk, Hrw, Hw, <- app_assoc. reflexivity.
Qed.

Lemma open_start_streaming_written (p : process) (d : device_imu_type) :
  handle d <> None ->
  session_written (snd (open_start_streaming p d))
  = session_written d ++ [wire_frame DEVICE_IMU_MSG_START_IMU_DATA [1]].
Proof.
  intros Hh. unfold open_start_streaming, send_payload_msg_signal.
  pose proof (send_payload_msg_written p d DEVICE_IMU_MSG_START_IMU_DATA [1] Hh)
    as Hw.
  cbn [List.length Z.of_nat Pos.of_succ_nat] in Hw. specialize (Hw ltac:(lia)).
  destruct (send_payload_msg p d _ 1 [1]) as [[ok p1] d1]. cbn [snd] in Hw.
  destruct ok; cbn [negb snd]; [| exact Hw].
  rewrite <- Hw. reflexivity.
Qed.

Lemma open_calibration_written (env : open_env) (p : process)
    (d : device_imu_type) :
  handle d <> None ->
  match open_calibration env p d with
  | inl _ => True
  | inr (_, d') =>
      handle d' <> None /\
      exists k,
        session_written d'
        = session_written d
          ++ wire_frame DEVICE_IMU_MSG_GET_CAL_DATA_LENGTH []
             :: repeat (wire_frame DEVICE_IMU_MSG_CAL_DATA_GET_NEXT_SEGMENT []) k
  end.
Proof.
  intros Hh. unfold open_calibration.
  pose proof (send_payload_msg_written p d
                DEVICE_IMU_MSG_GET_CAL_DATA_LENGTH [] Hh) as Hw.
  pose proof (send_payload_msg_transport p d
                DEVICE_IMU_MSG_GET_CAL_DATA_LENGTH 0 []) as Hs.
  cbn [List.length Z.of_nat] in Hw. specialize (Hw ltac:(lia)).
  destruct (send_payload_msg p d _ 0 []) as [[ok p1] d1]. cbn [snd] in Hs, Hw.
  pose proof (same_but_transport_handle _ _ Hs Hh) as Hh1.
  destruct ok; cbn [negb]; [| exact I].
  pose proof (recv_payload_msg_written p1 d1
                DEVICE_IMU_MSG_GET_CAL_DATA_LENGTH 4 (le32 0)) as Hrw.
  pose proof (recv_payload_msg_transport p1 d1
                DEVICE_IMU_MSG_GET_CAL_DATA_LENGTH 4 (le32 0)) as Hr.
  destruct (recv_payload_msg p1 d1 _ 4 (le32 0)) as [[[ok2 p2] d2] len_bytes].
  cbn [fst snd] in Hr, Hrw.
  pose proof (same_but_transport_handle _ _ Hr Hh1) as Hh2.
  assert (Hnone : handle d2 <> None /\
                  exists k,
                    session_written d2
                    = session_written d
                      ++ wire_frame DEVICE_IMU_MSG_GET_CAL_DATA_LENGTH []
                         :: repeat (wire_frame
                                      DEVICE_IMU_MSG_CAL_DATA_GET_NEXT_SEGMENT [])
                                   k).
  { split; [exact Hh2 |]. exists O. rewrite Hrw, Hw. reflexivity. }
  destruct ok2; [| exact Hnone].
  destruct (download_loop _ p2 d2 _ 0 _) as [dl |] eqn:Hrun; [| exact Hnone].
  destruct (download_loop_written _ _ _ _ _ _ _ Hh2 Hrun) as [k Hk].
  pose proof (same_but_transport_handle _ _
                (download_loop_transport _ _ _ _ _ _ _ Hrun) Hh2) as Hh3.
  assert (Hset : forall c,
             handle (set_calibration (dl_device dl) c) = handle (dl_device dl))
    by reflexivity.
  assert (Hwr : forall c,
             session_written (set_calibration (dl_device dl) c)
             = session_written (dl_device dl)) by reflexivity.
  destruct (calibration (dl_device dl)) as [c |].
  - rewrite Hset, Hwr. split; [exact Hh3 |]. exists k.
    rewrite Hk, Hrw, Hw, <- app_assoc. reflexivity.
  - split; [exact Hh3 |]. exists k.
    rewrite Hk, Hrw, Hw, <- app_assoc. reflexivity.
Qed.

(** X22. The requests of a successful open, in order: stop streaming, static
    id, length of the calibration document, some number of segment
    requests, start streaming.  Nothing else is written to the interface
    that was opened. *)
Theorem open_request_sequence (env : open_env) (p : process) (cb : bool) :
  let '(e, _, d') := device_imu_open_at env p cb in
  e = DEVICE_IMU_ERROR_NO_ERROR ->
  exists h k,
    first_imu_handle (hid_enumerate env xreal_vendor_id 0) = Some h /\
    session_written d' = hid_written h ++ open_requests k.
Proof.
  unfold device_imu_open_at.
  destruct (device_init env); cbn [negb]; [| discriminate].
  cbn [vendor_id product_id].
  rewrite find_imu_first. unfold first_imu_handle.
  destruct (find imu_interface_matches _) as [i |]; [| discriminate].
  cbn [handle set_handle].
  destruct (path_opens i) as [h |] eqn:Hopen; [| discriminate].
  set (d0 := set_handle _ (Some h)).
  assert (Hh0 : handle d0 <> None) by (cbn; discriminate).
  assert (Hw0 : session_written d0 = hid_written h) by reflexivity.
  unfold send_payload_msg_signal.
  pose proof (send_payload_msg_written p d0 DEVICE_IMU_MSG_START_IMU_DATA [0] Hh0)
    as Hw1.
  pose proof (send_payload_msg_transport p d0 DEVICE_IMU_MSG_START_IMU_DATA 1 [0])
    as Hs1.
  cbn [List.length Z.of_nat Pos.of_succ_nat] in Hw1. specialize (Hw1 ltac:(lia)).
  destruct (send_payload_msg p d0 _ 1 [0]) as [[ok p1] d1]. cbn [snd] in Hs1, Hw1.
  pose proof (same_but_transport_handle _ _ Hs1 Hh0) as Hh1.
  destruct (same_but_transport_fields _ _ Hs1) as (_ & Ha1 & Ho1 & Hc1).
  destruct ok; cbn [negb]; [| discriminate].
  pose proof (device_imu_read_at_written p1 d1 10) as Hw2.
  pose proof (device_imu_read_at_bare p1 d1 10 Hc1 Ha1 Ho1) as Hread.
  destruct (device_imu_read_at p1 d1 10) as [[e2 p2] d2].
  cbn [snd] in Hw2, Hread. destruct Hread as (_ & _ & _ & _ & _ & N2).
  assert (Hh2 : handle d2 <> None) by tauto.
  unfold open_from_static_id.
  pose proof (send_payload_msg_written p2 d2 DEVICE_IMU_MSG_GET_STATIC_ID [] Hh2)
    as Hw3.
  pose proof (send_payload_msg_transport p2 d2 DEVICE_IMU_MSG_GET_STATIC_ID 0 [])
    as Hs3.
  cbn [List.length Z.of_nat] in Hw3. specialize (Hw3 ltac:(lia)).
  destruct (send_payload_msg p2 d2 _ 0 []) as [[ok3 p3] d3]. cbn [snd] in Hs3, Hw3.
  pose proof (same_but_transport_handle _ _ Hs3 Hh2) as Hh3.
  destruct ok3; cbn [negb]; [| discriminate].
  pose proof (recv_payload_msg_written p3 d3
                DEVICE_IMU_MSG_GET_STATIC_ID 4 (le32 0)) as Hw4.
  pose proof (recv_payload_msg_transport p3 d3
                DEVICE_IMU_MSG_GET_STATIC_ID 4 (le32 0)) as Hs4.
  destruct (recv_payload_msg p3 d3 _ 4 (le32 0)) as [[[ok4 p4] d4] id_bytes].
  cbn [fst snd] in Hs4, Hw4.
  pose proof (same_but_transport_handle _ _ Hs4 Hh3) as Hh4.
  unfold open_from_calibration.
  cbn [device_imu_reset_calibration calibration set_calibration].
  match goal with
  | |- context [open_calibration env p4 ?d] => set (d5 := d)
  end.
  assert (Hh5 : handle d5 <> None) by (subst d5; destruct ok4; exact Hh4).
  assert (Hw5 : session_written d5 = session_written d4)
    by (subst d5; destruct ok4; reflexivity).
  pose proof (open_calibration_written env p4 d5 Hh5) as Hcal.
  pose proof (open_calibration_outcome env p4 d5) as Hout.
  destruct (open_calibration env p4 d5) as [[[e6 p6] d6] | [p6 d6]].
  { destruct Hout as (-> & _). discriminate. }
  destruct Hcal as (Hh6 & k & Hw6).
  pose proof (open_start_streaming_written p6 d6 Hh6) as Hw7.
  destruct (open_start_streaming p6 d6) as [[e7 p7] d7]. cbn [snd] in Hw7.
  intros _. exists h, k. split; [reflexivity |].
  rewrite Hw7, Hw6, Hw5, Hw4, Hw3, Hw2, Hw1, Hw0.
  unfold open_requests. rewrite <- !app_assoc. reflexivity.
Qed.
(* ================================================================= *)
(** ** Closing a session and the calibration files *)

Context {layout : CalibrationLayout}.

(** X27. Use after close is caught by the null checks: on the session that
    [device_imu_close] leaves behind, reading and calibrating return "no
    handle", resetting, loading and saving return "no allocation", and
    none of them changes the session or the process.  The close itself
    hands the handle it found to [hid_close] and calls [device_exit]; a
    second close calls [device_exit] again and [hid_close] not at all. *)
Theorem operations_after_close (p : process) (d : device_imu_type)
    (fs : file_env) (timeout iterations : Z) (gyro accel magnet : bool) :
  let '(e, device', closed, exited) := device_imu_close (Some d) in
  e = DEVICE_IMU_ERROR_NO_ERROR /\ closed = handle d /\ exited = true /\
  device_imu_read p device' timeout = (DEVICE_IMU_ERROR_NO_HANDLE, p, device') /\
  device_imu_calibrate p device' iterations gyro accel magnet
  = (DEVICE_IMU_ERROR_NO_HANDLE, p, device') /\
  device_imu_reset_calibration device'
  = (Some DEVICE_IMU_ERROR_NO_ALLOCATION, device') /\
  device_imu_load_calibration fs device'
  = (DEVICE_IMU_ERROR_NO_ALLOCATION, device') /\
  device_imu_save_calibration fs device'
  = (DEVICE_IMU_ERROR_NO_ALLOCATION, None) /\
  device_imu_close device' = (DEVICE_IMU_ERROR_NO_ERROR, device', None, true).
Proof.
  cbn [device_imu_close]. repeat split; reflexivity.
Qed.

Lemma overwrite_front (buf file : list Z) (n : nat) :
  List.length buf = n ->
  overwrite buf (firstn n file)
  = if (List.length file <? n)%nat
    then file ++ skipn (List.length file) buf
    else firstn n file.
Proof.
  intros Hbuf. unfold overwrite. rewrite length_firstn.
  destruct (Nat.ltb_spec (List.length file) n) as [Hlt | Hge].
  - rewrite firstn_all2 by lia. rewrite Nat.min_r by lia. reflexivity.
  - rewrite Nat.min_l by lia. rewrite skipn_all2 by lia. apply app_nil_r.
Qed.

(** What [device_imu_load_calibration] does once the file is open. *)
Lemma load_calibration_opened (fs : file_env) (d : device_imu_type)
    (c : device_imu_calibration_type) (file : list Z) :
  calibration d = Some c ->
  fopen_result fs = Some file ->
  let size := sizeof_device_imu_calibration_type in
  device_imu_load_calibration fs (Some d)
  = (if negb (0 =? fclose_result fs) then DEVICE_IMU_ERROR_FILE_NOT_CLOSED
     else if (List.length file <? size)%nat then DEVICE_IMU_ERROR_LOADING_FAILED
     else DEVICE_IMU_ERROR_NO_ERROR,
     Some (set_calibration d
             (Some (calibration_of_bytes
                      (if (List.length file <? size)%nat
                       then file ++ skipn (List.length file) (calibration_bytes c)
                       else firstn size file))))).
Proof.
  intros Hc Hopen size. unfold device_imu_load_calibration.
  rewrite Hc, Hopen. fold size.
  rewrite (overwrite_front _ file size (calibration_bytes_length c)).
  rewrite length_firstn.
  destruct (Nat.ltb_spec (List.length file) size) as [Hlt | Hge].
  - replace (Nat.eqb size (Nat.min size (List.length file))) with false
      by (symmetry; apply Nat.eqb_neq; lia).
    cbn [negb]. destruct (negb (0 =? fclose_result fs)); reflexivity.
  - replace (Nat.eqb size (Nat.min size (List.length file))) with true
      by (symmetry; apply Nat.eqb_eq; lia).
    cbn [negb]. destruct (negb (0 =? fclose_result fs)); reflexivity.
Qed.

(** X23. A file shorter than the record makes the load fail, but only after
    [fread] has stored what there was: the front of the record is the
    file's bytes, the rest is what the record held, and the previous
    record is not restored. *)
Theorem load_short_file_still_overwrites (fs : file_env)
    (d : device_imu_type) (c : device_imu_calibration_type) (file : list Z) :
  calibration d = Some c ->
  fopen_result fs = Some file ->
  (List.length file < sizeof_device_imu_calibration_type)%nat ->
  let '(e, device') := device_imu_load_calibration fs (Some d) in
  (e = DEVICE_IMU_ERROR_LOADING_FAILED \/ e = DEVICE_IMU_ERROR_FILE_NOT_CLOSED) /\
  device'
  = Some (set_calibration d
            (Some (calibration_of_bytes
                     (file ++ skipn (List.length file) (calibration_bytes c))))).
Proof.
  intros Hc Hopen Hshort.
  rewrite (load_calibration_opened fs d c file Hc Hopen).
  replace (List.length file <? sizeof_device_imu_calibration_type)%nat with true
    by (symmetry; apply Nat.ltb_lt; exact Hshort).
  split; [| reflexivity].
  destruct (negb (0 =? fclose_result fs)); auto.
Qed.

(** X24. The load succeeds exactly when the file holds at least a whole record
    and [fclose] returns zero; a failing [fclose] hides a short read.  On
    success the record is the decoding of the first
    [sizeof (device_imu_calibration_type)] bytes of the file, and no other
    field of the session has changed. *)
Theorem load_succeeds_iff (fs : file_env) (d : device_imu_type)
    (c : device_imu_calibration_type) (file : list Z) :
  calibration d = Some c ->
  fopen_result fs = Some file ->
  let size := sizeof_device_imu_calibration_type in
  let '(e, device') := device_imu_load_calibration fs (Some d) in
  (e = DEVICE_IMU_ERROR_NO_ERROR
   <-> (size <= List.length file)%nat /\ fclose_result fs = 0) /\
  (fclose_result fs <> 0 -> e = DEVICE_IMU_ERROR_FILE_NOT_CLOSED) /\
  (e = DEVICE_IMU_ERROR_NO_ERROR ->
   device'
   = Some (set_calibration d (Some (calibration_of_bytes (firstn size file))))).
Proof.
  intros Hc Hopen size.
  rewrite (load_calibration_opened fs d c file Hc Hopen). fold size.
  destruct (Z.eqb_spec 0 (fclose_result fs)) as [Hcl | Hcl]; cbn [negb];
    destruct (Nat.ltb_spec (List.length file) size) as [Hlt | Hge].
  - split; [split; [discriminate | intros [H _]; lia] |].
    split; [congruence | discriminate].
  - split; [split; [intros _; split; [exact Hge | congruence] | reflexivity] |].
    split; [congruence | reflexivity].
  - split; [split; [discriminate | intros [_ H]; congruence] |].
    split; [reflexivity | discriminate].
  - split; [split; [discriminate | intros [_ H]; congruence] |].
    split; [reflexivity | discriminate].
Qed.

(** What [device_imu_save_calibration] does once the file is open. *)
Lemma save_calibration_opened (fs : file_env) (d : device_imu_type)
    (c : device_imu_calibration_type) :
  calibration d = Some c ->
  fopen_write fs = true ->
  let size := sizeof_device_imu_calibration_type in
  let written := firstn (fwrite_room fs) (calibration_bytes c) in
  device_imu_save_calibration fs (Some d)
  = if negb (0 =? fclose_result fs)
    then (DEVICE_IMU_ERROR_FILE_NOT_CLOSED,
          Some (firstn (fclose_flushed fs) written))
    else (if (fwrite_room fs <? size)%nat then DEVICE_IMU_ERROR_SAVING_FAILED
          else DEVICE_IMU_ERROR_NO_ERROR,
          Some written).
Proof.
  intros Hc Hopen size written. unfold device_imu_save_calibration.
  rewrite Hc, Hopen. cbn [negb].
  rewrite length_firstn, calibration_bytes_length. fold size.
  destruct (Nat.ltb_spec (fwrite_room fs) size) as [Hlt | Hge].
  - replace (Nat.eqb size (Nat.min (fwrite_room fs) size)) with false
      by (symmetry; apply Nat.eqb_neq; lia).
    cbn [negb]. destruct (negb (0 =? fclose_result fs)); reflexivity.
  - replace (Nat.eqb size (Nat.min (fwrite_room fs) size)) with true
      by (symmetry; apply Nat.eqb_eq; lia).
    cbn [negb]. destruct (negb (0 =? fclose_result fs)); reflexivity.
Qed.

(** X26. The save succeeds exactly when the stream takes the whole record
    and [fclose] returns zero; a failing [fclose] always yields "file not
    closed".  Whatever the call returns, what the file holds afterwards is
    a prefix of the record's bytes: after a successful [fclose] the bytes
    the stream took, and the whole record when the call succeeds. *)
Theorem save_succeeds_iff (fs : file_env) (d : device_imu_type)
    (c : device_imu_calibration_type) :
  calibration d = Some c ->
  fopen_write fs = true ->
  let size := sizeof_device_imu_calibration_type in
  let '(e, out) := device_imu_save_calibration fs (Some d) in
  (e = DEVICE_IMU_ERROR_NO_ERROR
   <-> (size <= fwrite_room fs)%nat /\ fclose_result fs = 0) /\
  (fclose_result fs <> 0 -> e = DEVICE_IMU_ERROR_FILE_NOT_CLOSED) /\
  (exists reached rest,
     out = Some reached /\ calibration_bytes c = reached ++ rest) /\
  (fclose_result fs = 0 ->
   out = Some (firstn (fwrite_room fs) (calibration_bytes c))) /\
  (e = DEVICE_IMU_ERROR_NO_ERROR -> out = Some (calibration_bytes c)).
Proof.
  intros Hc Hopen size.
  rewrite (save_calibration_opened fs d c Hc Hopen). fold size. cbv zeta.
  set (written := firstn (fwrite_room fs) (calibration_bytes c)).
  assert (Hwritten : calibration_bytes c
                     = written ++ skipn (fwrite_room fs) (calibration_bytes c))
    by (symmetry; apply firstn_skipn).
  assert (Hall : (size <= fwrite_room fs)%nat -> written = calibration_bytes c).
  { intros Hge. apply firstn_all2.
    rewrite calibration_bytes_length. exact Hge. }
  destruct (Z.eqb_spec 0 (fclose_result fs)) as [Hcl | Hcl]; cbn [negb].
  - destruct (Nat.ltb_spec (fwrite_room fs) size) as [Hlt | Hge].
    + split; [split; [discriminate | intros [H _]; lia] |].
      split; [congruence |].
      split; [exists written, (skipn (fwrite_room fs) (calibration_bytes c));
              split; [reflexivity | exact Hwritten] |].
      split; [reflexivity | discriminate].
    + split; [split; [intros _; split; [exact Hge | congruence] | reflexivity] |].
      split; [congruence |].
      split; [exists written, (skipn (fwrite_room fs) (calibration_bytes c));
              split; [reflexivity | exact Hwritten] |].
      split; [reflexivity | intros _; rewrite (Hall Hge); reflexivity].
  - split; [split; [discriminate | intros [_ H]; congruence] |].
    split; [reflexivity |].
    split.
    + exists (firstn (fclose_flushed fs) written),
             (skipn (fclose_flushed fs) written
              ++ skipn (fwrite_room fs) (calibration_bytes c)).
      split; [reflexivity |].
      rewrite app_assoc, firstn_skipn. exact Hwritten.
    + split; [congruence | discriminate].
Qed.

(** X25. Save, then load: a load of the file that a successful save produced
    succeeds on any session with a calibration record and installs the
    decoding of the saved record's bytes; nothing of the record that the
    loading session held before survives. *)
Theorem save_then_load (fs fs' : file_env) (d d' : device_imu_type)
    (c c' : device_imu_calibration_type) :
  calibration d = Some c ->
  calibration d' = Some c' ->
  fst (device_imu_save_calibration fs (Some d)) = DEVICE_IMU_ERROR_NO_ERROR ->
  fopen_result fs' = snd (device_imu_save_calibration fs (Some d)) ->
  fclose_result fs' = 0 ->
  device_imu_load_calibration fs' (Some d')
  = (DEVICE_IMU_ERROR_NO_ERROR,
     Some (set_calibration d'
             (Some (calibration_of_bytes (calibration_bytes c))))).
Proof.
  intros Hc Hc' Hsaved Hfile Hclose.
  assert (Hopen : fopen_write fs = true).
  { unfold device_imu_save_calibration in Hsaved. rewrite Hc in Hsaved.
    destruct (fopen_write fs); [reflexivity | discriminate]. }
  rewrite (save_calibration_opened fs d c Hc Hopen) in Hsaved, Hfile.
  cbv zeta in Hsaved, Hfile.
  destruct (negb (0 =? fclose_result fs)); [discriminate |].
  cbn [fst snd] in Hsaved, Hfile.
  destruct (Nat.ltb_spec (fwrite_room fs) sizeof_device_imu_calibration_type)
    as [Hlt | Hge]; [discriminate |].
  rewrite firstn_all2 in Hfile by (rewrite calibration_bytes_length; exact Hge).
  rewrite (load_calibration_opened fs' d' c' _ Hc' Hfile).
  rewrite Hclose. cbn [Z.eqb negb].
  rewrite calibration_bytes_length, Nat.ltb_irrefl.
  rewrite <- (calibration_bytes_length c), firstn_all. reflexivity.
Qed.

End DriverProperties.

(* ================================================================= *)
(** * The theorems at concrete inputs *)

#[local] Existing Instance Sim.fusion.
#[local] Existing Instance Sim.headers.
#[local] Existing Instance Sim.no_documents.

(** C2 at a 4-byte payload for message 0x1A on a transport that accepts
    the write. *)
Lemma send_payload_msg_frame_witness :
  (handle (Sim.session Scenario.accept_one FUSION_IDENTITY_QUATERNION)
     = Some Scenario.accept_one /\
   0 <= 4 <= 56 /\ Z.of_nat (List.length [1; 2; 3; 4]) = 4) /\
  exists h',
    handle (snd (send_payload_msg process_initial
                   (Sim.session Scenario.accept_one FUSION_IDENTITY_QUATERNION)
                   0x1A 4 [1; 2; 3; 4])) = Some h' /\
    hid_written h'
    = [[0xAA] ++ le32 (to_uint32 (Sim.crc32 (le16 7 ++ [0x1A] ++ [1; 2; 3; 4])))
         ++ le16 7 ++ [0x1A] ++ [1; 2; 3; 4]] /\
    fst (fst (send_payload_msg process_initial
                (Sim.session Scenario.accept_one FUSION_IDENTITY_QUATERNION)
                0x1A 4 [1; 2; 3; 4])) = true.
Proof.
  assert (H1 : handle (Sim.session Scenario.accept_one FUSION_IDENTITY_QUATERNION)
               = Some Scenario.accept_one) by reflexivity.
  assert (H2 : 0 <= 4 <= 56) by lia.
  assert (H3 : Z.of_nat (List.length [1; 2; 3; 4]) = 4) by reflexivity.
  split; [exact (conj H1 (conj H2 H3)) |].
  destruct (send_payload_msg_frame process_initial
              (Sim.session Scenario.accept_one FUSION_IDENTITY_QUATERNION)
              Scenario.accept_one 0x1A 4 [1; 2; 3; 4] H1 H2 H3)
    as (h' & Hh & Hw & _ & _ & _ & Hok).
  exists h'. split; [exact Hh |]. split; [exact Hw |].
  destruct (fst (fst (send_payload_msg _ _ _ _ _))); [reflexivity |].
  exfalso. apply proj1 in Hok. specialize (Hok eq_refl).
  vm_compute in Hok. discriminate.
Defined.

(** C5 at the answer to a static-id request. *)
Lemma recv_payload_msg_checks_msgid_witness :
  (handle (Sim.session Scenario.static_id_answer FUSION_IDENTITY_QUATERNION)
     = Some Scenario.static_id_answer /\ 0 <= 4 <= 56) /\
  let '(ok, _, device', data') :=
    recv_payload_msg process_initial
      (Sim.session Scenario.static_id_answer FUSION_IDENTITY_QUATERNION)
      0x1A 4 (le32 0) in
  exists h',
    handle device' = Some h' /\
    hid_requested h' = hid_requested Scenario.static_id_answer ++ [5 + 3 + 4] /\
    hid_inputs h' = tl (hid_inputs Scenario.static_id_answer) /\
    hid_written h' = hid_written Scenario.static_id_answer /\
    (ok = true ->
       exists frame,
         hd HidReadError (hid_inputs Scenario.static_id_answer) = HidReport frame /\
         5 + 3 + 4 <= Z.of_nat (List.length frame) /\
         byte_at frame 7 = 0x1A /\
         data' = overwrite (le32 0) (firstn (Z.to_nat 4) (skipn 8 frame))) /\
    (forall frame,
       hd HidReadError (hid_inputs Scenario.static_id_answer) = HidReport frame ->
       5 + 3 + 4 <= Z.of_nat (List.length frame) ->
       byte_at frame 7 <> 0x1A -> ok = false) /\
    (ok = false -> data' = le32 0).
Proof.
  assert (H1 : handle (Sim.session Scenario.static_id_answer FUSION_IDENTITY_QUATERNION)
               = Some Scenario.static_id_answer) by reflexivity.
  assert (H2 : 0 <= 4 <= 56) by lia.
  split; [exact (conj H1 H2) |].
  exact (recv_payload_msg_checks_msgid process_initial
           (Sim.session Scenario.static_id_answer FUSION_IDENTITY_QUATERNION)
           Scenario.static_id_answer 0x1A 4 (le32 0) H1 H2).
Defined.

Lemma accepts_scenario_data_frame (q : FusionQuaternion) :
  accepts_data_frame (Sim.session Scenario.one_data_frame q)
                     Scenario.one_data_frame Sim.data_frame.
Proof.
  unfold accepts_data_frame.
  split; [reflexivity |]. split; [reflexivity |]. split; [reflexivity |].
  split; [vm_compute; discriminate |]. split; reflexivity.
Defined.

(** C4 at a data frame whose magnetometer reading is infinite. *)
Lemma read_update_is_magnetometer_free_witness :
  (accepts_data_frame
     (Sim.session Scenario.one_data_frame FUSION_IDENTITY_QUATERNION)
     Scenario.one_data_frame Sim.data_frame /\
   ahrs (Sim.session Scenario.one_data_frame FUSION_IDENTITY_QUATERNION)
   = Some (Sim.mkRecordingAhrs FUSION_IDENTITY_QUATERNION None [])) /\
  ahrs (snd (device_imu_read_at process_initial
               (Sim.session Scenario.one_data_frame FUSION_IDENTITY_QUATERNION) 0))
  = Some (fusion_update_no_magnetometer
            (Sim.mkRecordingAhrs FUSION_IDENTITY_QUATERNION None [])
            (tracked_gyroscope
               (Sim.session Scenario.one_data_frame FUSION_IDENTITY_QUATERNION)
               (fst (fst (readIMU_from_packet
                            (device_imu_packet_of_bytes (firstn 64 Sim.data_frame))))))
            (calibrated_accelerometer
               (Sim.session Scenario.one_data_frame FUSION_IDENTITY_QUATERNION)
               (snd (fst (readIMU_from_packet
                            (device_imu_packet_of_bytes (firstn 64 Sim.data_frame))))))
            (delta_time
               (Sim.session Scenario.one_data_frame FUSION_IDENTITY_QUATERNION)
               (timestamp (device_imu_packet_of_bytes (firstn 64 Sim.data_frame))))).
Proof.
  pose proof (accepts_scenario_data_frame FUSION_IDENTITY_QUATERNION) as H1.
  assert (H2 : ahrs (Sim.session Scenario.one_data_frame FUSION_IDENTITY_QUATERNION)
               = Some (Sim.mkRecordingAhrs FUSION_IDENTITY_QUATERNION None []))
    by reflexivity.
  split; [exact (conj H1 H2) |].
  exact (proj1 (proj2 (read_update_is_magnetometer_free process_initial
                         (Sim.session Scenario.one_data_frame FUSION_IDENTITY_QUATERNION)
                         Scenario.one_data_frame Sim.data_frame 0 _ H1 H2))).
Defined.

(** C8 as stated fails: the engine holds an orientation whose x component
    is +infinity, which is not finite, and the read of a data frame still
    returns success and dispatches an UPDATE event. *)
Lemma read_accepts_infinite_orientation :
  let '(e, p', device') :=
    device_imu_read_at process_initial
      (Sim.session Scenario.one_data_frame Sim.infinite_x) 0 in
  orientation_nonfinite (device_imu_get_orientation (ahrs device')) = true /\
  e = DEVICE_IMU_ERROR_NO_ERROR /\
  e <> DEVICE_IMU_ERROR_INVALID_VALUE /\
  events p' = [(1000000000, DEVICE_IMU_EVENT_UPDATE)].
Proof.
  vm_compute. repeat split; try reflexivity. discriminate.
Qed.

(** C8, amended, at the same frame with the identity orientation. *)
Lemma read_dispatches_unless_orientation_nan_witness :
  (accepts_data_frame
     (Sim.session Scenario.one_data_frame FUSION_IDENTITY_QUATERNION)
     Scenario.one_data_frame Sim.data_frame /\
   ahrs (Sim.session Scenario.one_data_frame FUSION_IDENTITY_QUATERNION)
   = Some (Sim.mkRecordingAhrs FUSION_IDENTITY_QUATERNION None []) /\
   callback (Sim.session Scenario.one_data_frame FUSION_IDENTITY_QUATERNION) = true) /\
  let '(e, p', _) :=
    device_imu_read_at process_initial
      (Sim.session Scenario.one_data_frame FUSION_IDENTITY_QUATERNION) 0 in
  e = DEVICE_IMU_ERROR_NO_ERROR /\
  events p' = [(1000000000, DEVICE_IMU_EVENT_UPDATE)].
Proof.
  pose proof (accepts_scenario_data_frame FUSION_IDENTITY_QUATERNION) as H1.
  assert (H2 : ahrs (Sim.session Scenario.one_data_frame FUSION_IDENTITY_QUATERNION)
               = Some (Sim.mkRecordingAhrs FUSION_IDENTITY_QUATERNION None []))
    by reflexivity.
  assert (H3 : callback (Sim.session Scenario.one_data_frame FUSION_IDENTITY_QUATERNION)
               = true) by reflexivity.
  split; [exact (conj H1 (conj H2 H3)) |].
  pose proof (read_dispatches_unless_orientation_nan process_initial
                (Sim.session Scenario.one_data_frame FUSION_IDENTITY_QUATERNION)
                Scenario.one_data_frame Sim.data_frame 0 _ H1 H2 H3) as T.
  cbv zeta in T.
  destruct (device_imu_read_at process_initial _ 0) as [[e p'] d'].
  destruct T as [_ T]. exact (T eq_refl).
Defined.

(** C6 on a device that announces 130 bytes and delivers them. *)
Lemma open_downloads_130_in_three_segments_witness :
  (List.length Sim.blob = 130%nat /\
   carries Scenario.length_frame 0x14 (le32 130) /\
   carries Scenario.segment_1 0x15 (firstn 56 Sim.blob) /\
   carries Scenario.segment_2 0x15 (firstn 56 (skipn 56 Sim.blob)) /\
   carries Scenario.segment_3 0x15 (skipn 112 Sim.blob)) /\
  exists p' device' h',
    open_calibration (Sim.environment Scenario.full_download) process_initial
      (Sim.session Scenario.full_download FUSION_IDENTITY_QUATERNION)
    = inr (p', device') /\
    handle device' = Some h' /\
    hid_requested h' = [8 + 4; 8 + 56; 8 + 56; 8 + 18] /\
    List.length (hid_written h') = 4%nat /\
    hid_inputs h' = [] /\
    calibration device'
    = Some (install_calibration default_calibration
              (Sim.blob ++ [0xCD]) 130).
Proof.
  assert (Hb : List.length Sim.blob = 130%nat) by reflexivity.
  assert (C0 : carries Scenario.length_frame 0x14 (le32 130))
    by (unfold carries; split; [vm_compute; discriminate | split; reflexivity]).
  assert (C1 : carries Scenario.segment_1 0x15 (firstn 56 Sim.blob))
    by (unfold carries; split; [vm_compute; discriminate | split; reflexivity]).
  assert (C2 : carries Scenario.segment_2 0x15 (firstn 56 (skipn 56 Sim.blob)))
    by (unfold carries; split; [vm_compute; discriminate | split; reflexivity]).
  assert (C3 : carries Scenario.segment_3 0x15 (skipn 112 Sim.blob))
    by (unfold carries; split; [vm_compute; discriminate | split; reflexivity]).
  assert (K : 8 <= Z.of_nat 64) by (vm_compute; discriminate).
  split; [exact (conj Hb (conj C0 (conj C1 (conj C2 C3)))) |].
  destruct (@open_downloads_130_in_three_segments
              Sim.fusion Sim.headers Sim.no_documents
              (Sim.environment Scenario.full_download) process_initial
              (Sim.session Scenario.full_download FUSION_IDENTITY_QUATERNION)
              Scenario.full_download Sim.blob
              Scenario.length_frame Scenario.segment_1 Scenario.segment_2
              Scenario.segment_3 [] 64 64 64 64 []
              eq_refl eq_refl K K K K eq_refl C0 Hb C1 C2 C3)
    as (p' & device' & h' & Heq & Hh & Hreq & Hwr & Hin & _ & _ & Hcal).
  exists p', device', h'.
  split; [exact Heq |]. split; [exact Hh |]. split; [exact Hreq |].
  split; [rewrite Hwr; reflexivity |]. split; [exact Hin |].
  exact Hcal.
Defined.

(** C1 on a device that announces 130 bytes and rejects the first
    get-next-segment request: the record that held the defaults ends with
    zero sensitivities. *)
Lemma failed_segment_overwrites_defaults_witness :
  calibration Scenario.rejected_session = Some default_calibration /\
  exists p' device' c',
    open_calibration (Sim.environment Scenario.rejected_segment)
                     process_initial Scenario.rejected_session
    = inr (p', device') /\
    calibration device' = Some c' /\
    gyroscopeSensitivity c' = FUSION_VECTOR_ZERO /\
    noises c' = FUSION_IDENTITY_QUATERNION /\
    c' <> default_calibration.
Proof.
  split; [reflexivity |].
  set (env := Sim.environment Scenario.rejected_segment).
  destruct (send_payload_msg process_initial Scenario.rejected_session 0x14 0 [])
    as [[sent p1] d1] eqn:Hs.
  assert (Hsent : sent = true).
  { change sent with (fst (fst (sent, p1, d1))). rewrite <- Hs.
    vm_compute. reflexivity. }
  subst sent.
  destruct (recv_payload_msg p1 d1 0x14 4 (le32 0))
    as [[[received p2] d2] len_bytes] eqn:Hr.
  assert (Hanswer : received = true /\ len_bytes = le32 130).
  { change received with (fst (fst (fst (received, p2, d2, len_bytes)))).
    change len_bytes with (snd (received, p2, d2, len_bytes)) at 2.
    rewrite <- Hr.
    change p1 with (snd (fst (true, p1, d1))).
    change d1 with (snd (true, p1, d1)).
    rewrite <- Hs. vm_compute. split; reflexivity. }
  destruct Hanswer as [-> ->].
  destruct (download_loop (Z.to_nat (of_le32 (le32 130))) p2 d2
              (of_le32 (le32 130)) 0
              (malloc_bytes env (to_uint32 (of_le32 (le32 130) + 1))))
    as [dl |] eqn:Hd.
  2:{ exfalso. revert Hd. apply download_loop_fuel;
        [lia | vm_compute; reflexivity | vm_compute; discriminate]. }
  assert (Hleft : dl_completed dl = false /\
                  json_tokener_parse_ex
                    (terminated_block (dl_calibration_data dl) (of_le32 (le32 130)))
                    (of_le32 (le32 130)) = None).
  { change dl with (match Some dl with Some x => x | None => dl end).
    rewrite <- Hd.
    change p2 with (snd (fst (fst (true, p2, d2, le32 130)))).
    change d2 with (snd (fst (true, p2, d2, le32 130))).
    rewrite <- Hr.
    change p1 with (snd (fst (true, p1, d1))).
    change d1 with (snd (true, p1, d1)).
    rewrite <- Hs. vm_compute. split; reflexivity. }
  destruct Hleft as [Hbreak Hnull].
  destruct (@failed_segment_overwrites_defaults
              Sim.fusion Sim.headers Sim.no_documents env process_initial
              p1 p2 Scenario.rejected_session d1 d2 (le32 130) dl
              eq_refl Hs Hr Hd Hbreak Hnull)
    as (device' & c' & Heq & _ & Hc & _ & Hg & _ & _ & Hn & _ & _ & Hne).
  exists (dl_process dl), device', c'.
  split; [exact Heq |]. split; [exact Hc |]. split; [exact Hg |].
  split; [exact Hn | exact Hne].
Defined.

(** C9 as stated fails: when the transport rejects the static-id request,
    [device_imu_open] returns the payload-failed error; the static id is
    not the fallback constant and the sequence does not continue (no
    calibration record, no fusion engine). *)
Lemma open_stops_when_static_id_request_is_rejected :
  let '(e, _, device) :=
    device_imu_open_at (Sim.environment Scenario.rejected_static_id_request)
                       process_initial true in
  e = DEVICE_IMU_ERROR_PAYLOAD_FAILED /\
  static_id device <> 0x20220101 /\
  calibration device = None /\
  ahrs device = None /\
  option_map hid_written (handle device)
  = Some [wire_frame DEVICE_IMU_MSG_START_IMU_DATA [0];
          wire_frame DEVICE_IMU_MSG_GET_STATIC_ID []].
Proof.
  vm_compute. repeat split; try reflexivity. discriminate.
Qed.

(** C9, amended, on a device that accepts the static-id request and then
    fails the read of the answer. *)
Lemma static_id_fallback_after_failed_receive_witness :
  fst (fst (send_payload_msg process_initial
              (Sim.session Scenario.silent_static_id FUSION_IDENTITY_QUATERNION)
              0x1A 0 [])) = true /\
  fst (fst (fst (recv_payload_msg
                   (snd (fst (send_payload_msg process_initial
                                (Sim.session Scenario.silent_static_id
                                             FUSION_IDENTITY_QUATERNION)
                                0x1A 0 [])))
                   (snd (send_payload_msg process_initial
                           (Sim.session Scenario.silent_static_id
                                        FUSION_IDENTITY_QUATERNION)
                           0x1A 0 []))
                   0x1A 4 (le32 0)))) = false /\
  static_id (Sim.session Scenario.silent_static_id FUSION_IDENTITY_QUATERNION) = 0 /\
  static_id (snd (open_from_static_id
                    (Sim.environment Scenario.silent_static_id) process_initial
                    (Sim.session Scenario.silent_static_id
                                 FUSION_IDENTITY_QUATERNION)))
  = 0x20220101.
Proof.
  set (device := Sim.session Scenario.silent_static_id FUSION_IDENTITY_QUATERNION).
  destruct (send_payload_msg process_initial device 0x1A 0 [])
    as [[sent p1] d1] eqn:Hs.
  assert (Hsent : sent = true).
  { change sent with (fst (fst (sent, p1, d1))). rewrite <- Hs.
    vm_compute. reflexivity. }
  subst sent. cbn [fst snd].
  destruct (recv_payload_msg p1 d1 0x1A 4 (le32 0))
    as [[[received p2] d2] id_bytes] eqn:Hr.
  assert (Hreceived : received = false).
  { change received with (fst (fst (fst (received, p2, d2, id_bytes)))).
    rewrite <- Hr.
    change p1 with (snd (fst (true, p1, d1))).
    change d1 with (snd (true, p1, d1)).
    rewrite <- Hs. vm_compute. reflexivity. }
  subst received. cbn [fst snd].
  split; [reflexivity |].
  split; [reflexivity |].
  split; [reflexivity |].
  exact (proj2 (proj2 (@static_id_fallback_after_failed_receive
                         Sim.fusion Sim.headers Sim.no_documents
                         (Sim.environment Scenario.silent_static_id)
                         process_initial p1 device d1 true Hs)
                      eq_refl p2 d2 id_bytes Hr)).
Defined.

(** C10 at two iterations on a transport that delivers a data frame, an
    empty report, a stray frame and two more data frames: the record
    changes, and the two requested data frames have been consumed. *)
Lemma calibrate_commits_after_loop_witness :
  (handle Replay.calibrating = Some Replay.calibration_run /\ 0 <= 2 /\
   session_calibration
     (snd (device_imu_calibrate process_initial (Some Replay.calibrating)
             2 true true false))
   <> session_calibration (Some Replay.calibrating)) /\
  exists d' h' consumed,
    snd (device_imu_calibrate process_initial (Some Replay.calibrating)
           2 true true false) = Some d' /\
    handle d' = Some h' /\
    hid_inputs Replay.calibration_run = consumed ++ hid_inputs h' /\
    data_reports consumed = 2.
Proof.
  assert (H1 : handle Replay.calibrating = Some Replay.calibration_run)
    by reflexivity.
  assert (H2 : 0 <= 2) by lia.
  assert (H3 : session_calibration
                 (snd (device_imu_calibrate process_initial
                         (Some Replay.calibrating) 2 true true false))
               <> session_calibration (Some Replay.calibrating)).
  { intros Heq.
    assert (Hg : option_map gyroscopeOffset
                   (session_calibration
                      (snd (device_imu_calibrate process_initial
                              (Some Replay.calibrating) 2 true true false)))
                 = option_map gyroscopeOffset
                     (session_calibration (Some Replay.calibrating)))
      by (rewrite Heq; reflexivity).
    vm_compute in Hg. discriminate. }
  split; [exact (conj H1 (conj H2 H3)) |].
  pose proof (@calibrate_commits_after_loop Sim.fusion Sim.headers
                process_initial (Some Replay.calibrating) 2 true true false)
    as T.
  destruct (device_imu_calibrate process_initial (Some Replay.calibrating)
              2 true true false) as [[e p'] device'].
  cbn [snd] in H3 |- *.
  destruct T as (_ & _ & T).
  destruct (T Replay.calibrating Replay.calibration_run eq_refl H1 H2
              (or_intror H3)) as (d' & h' & consumed & Hd & Hh & Hin & Hc & _).
  exists d', h', consumed. auto.
Defined.

(* ================================================================= *)
(** * The further properties at concrete inputs *)

#[local] Existing Instance HostLayout.layout.

(** The 32-bit round trip at -2. *)
Lemma pack32bit_signed_le32_witness :
  - 2147483648 <= -2 < 2147483648 /\ pack32bit_signed (le32 (-2)) = -2.
Proof.
  assert (H : - 2147483648 <= -2 < 2147483648) by lia.
  exact (conj H (pack32bit_signed_le32 (-2) H)).
Defined.

(** The 16-bit round trip at -300. *)
Lemma pack16bit_signed_le16_witness :
  - 32768 <= -300 < 32768 /\ pack16bit_signed (le16 (-300)) = -300.
Proof.
  assert (H : - 32768 <= -300 < 32768) by lia.
  exact (conj H (pack16bit_signed_le16 (-300) H)).
Defined.

(** The 24-bit decoder at the pattern 0xFFFFFE, which is -2. *)
Lemma pack24bit_signed_sign_extends_witness :
  (is_byte 0xFE /\ is_byte 0xFF /\ is_byte 0xFF) /\
  pack24bit_signed [0xFE; 0xFF; 0xFF] = -2.
Proof.
  assert (H1 : is_byte 0xFE) by (unfold is_byte; lia).
  assert (H2 : is_byte 0xFF) by (unfold is_byte; lia).
  split; [exact (conj H1 (conj H2 H2)) |].
  exact (proj1 (pack24bit_signed_sign_extends 0xFE 0xFF 0xFF H1 H2 H2)).
Defined.

(** The magnetometer codec at the bytes 5, 0x80, which read 5. *)
Lemma bizarre_is_offset_binary_witness :
  (is_byte 5 /\ is_byte 0x80) /\ pack16bit_signed_bizarre [5; 0x80] = 5.
Proof.
  assert (H1 : is_byte 5) by (unfold is_byte; lia).
  assert (H2 : is_byte 0x80) by (unfold is_byte; lia).
  split; [exact (conj H1 H2) |].
  exact (proj1 (bizarre_is_offset_binary 5 0x80 H1 H2)).
Defined.

(** A request of four bytes, sent on one session and delivered to
    another, is received with its payload. *)
Lemma send_then_recv_round_trip_witness :
  (handle Replay.sender = Some Scenario.accept_one /\
   handle Replay.receiver = Some (Replay.delivering Replay.request) /\
   Z.of_nat (List.length [1; 2; 3; 4]) <= 56 /\
   hid_inputs (Replay.delivering Replay.request)
   = [HidReport
        match handle (snd (send_payload_msg process_initial Replay.sender 0x1A
                             (Z.of_nat (List.length [1; 2; 3; 4])) [1; 2; 3; 4]))
        with
        | Some hs' => last (hid_written hs') []
        | None => []
        end]) /\
  let '(ok, _, _, out) :=
    recv_payload_msg process_initial Replay.receiver 0x1A
      (Z.of_nat (List.length [1; 2; 3; 4])) [9; 9; 9; 9; 9; 9] in
  ok = true /\ out = [1; 2; 3; 4; 9; 9].
Proof.
  set (sender := Replay.sender). set (receiver := Replay.receiver).
  assert (H1 : handle sender = Some Scenario.accept_one) by reflexivity.
  assert (H2 : handle receiver = Some (Replay.delivering Replay.request))
    by reflexivity.
  assert (H3 : Z.of_nat (List.length [1; 2; 3; 4]) <= 56)
    by (vm_compute; discriminate).
  assert (H4 : hid_inputs (Replay.delivering Replay.request)
               = [HidReport
                    match handle (snd (send_payload_msg process_initial sender 0x1A
                                         (Z.of_nat (List.length [1; 2; 3; 4]))
                                         [1; 2; 3; 4]))
                    with
                    | Some hs' => last (hid_written hs') []
                    | None => []
                    end]) by (vm_compute; reflexivity).
  split; [exact (conj H1 (conj H2 (conj H3 H4))) |].
  exact (@send_then_recv_round_trip Sim.fusion Sim.headers
           process_initial process_initial sender receiver
           Scenario.accept_one (Replay.delivering Replay.request)
           0x1A [1; 2; 3; 4] [9; 9; 9; 9; 9; 9] [] H1 H2 H3 H4).
Defined.

(** The same response behind another head byte, checksum and length field
    is received alike. *)
Lemma recv_ignores_head_checksum_and_length_witness :
  (0 <= 4 <= 56 /\
   List.length Replay.request = List.length Replay.request_other_head /\
   skipn 7 Replay.request = skipn 7 Replay.request_other_head /\
   firstn 7 Replay.request <> firstn 7 Replay.request_other_head) /\
  fst (fst (fst (recv_payload_msg process_initial Replay.receiver
                   0x1A 4 (le32 0))))
  = fst (fst (fst (recv_payload_msg process_initial Replay.receiver_other_head
                     0x1A 4 (le32 0)))) /\
  snd (recv_payload_msg process_initial Replay.receiver 0x1A 4 (le32 0))
  = snd (recv_payload_msg process_initial Replay.receiver_other_head
           0x1A 4 (le32 0)).
Proof.
  set (d1 := Replay.receiver). set (d2 := Replay.receiver_other_head).
  assert (H3 : 0 <= 4 <= 56) by lia.
  assert (H6 : List.length Replay.request
               = List.length Replay.request_other_head) by reflexivity.
  assert (H7 : skipn 7 Replay.request = skipn 7 Replay.request_other_head)
    by reflexivity.
  assert (H8 : firstn 7 Replay.request <> firstn 7 Replay.request_other_head)
    by (vm_compute; discriminate).
  split; [exact (conj H3 (conj H6 (conj H7 H8))) |].
  exact (@recv_ignores_head_checksum_and_length Sim.fusion
           process_initial d1 d2
           (Replay.delivering Replay.request)
           (Replay.delivering Replay.request_other_head)
           0x1A 4 (le32 0) Replay.request Replay.request_other_head
           eq_refl eq_refl H3 eq_refl eq_refl H6 H7).
Defined.

(** A receive of 60 bytes on a transport that delivers a full report. *)
Lemma recv_payload_msg_oversized_witness :
  (handle Replay.streaming = Some Scenario.one_data_frame /\ 56 < 60 <= 247) /\
  let '(ok, _, device', data') :=
    recv_payload_msg process_initial Replay.streaming 0x15 60 (repeat 0 60) in
  ok = false /\ data' = repeat 0 60 /\
  handle device' = Some (hid_after_read Scenario.one_data_frame MAX_PACKET_SIZE).
Proof.
  set (d := Replay.streaming).
  assert (H1 : handle d = Some Scenario.one_data_frame) by reflexivity.
  assert (H2 : 56 < 60 <= 247) by lia.
  split; [exact (conj H1 H2) |].
  exact (@recv_payload_msg_oversized Sim.fusion
           process_initial d Scenario.one_data_frame 0x15 60 (repeat 0 60) H1 H2).
Defined.

(** A report of three bytes makes the read fail with "unexpected". *)
Lemma read_without_full_frame_witness :
  (handle (Replay.on Replay.short_report)
   = Some (Replay.delivering Replay.short_report) /\
   sizeof_device_imu_packet_type = MAX_PACKET_SIZE /\
   0 < Z.of_nat (List.length Replay.short_report) < 64) /\
  fst (fst (device_imu_read_at process_initial (Replay.on Replay.short_report) 0))
  = DEVICE_IMU_ERROR_UNEXPECTED.
Proof.
  assert (H1 : handle (Replay.on Replay.short_report)
               = Some (Replay.delivering Replay.short_report)) by reflexivity.
  assert (H2 : @sizeof_device_imu_packet_type Sim.headers = MAX_PACKET_SIZE)
    by reflexivity.
  assert (H3 : 0 < Z.of_nat (List.length Replay.short_report) < 64)
    by (cbn; lia).
  split; [exact (conj H1 (conj H2 H3)) |].
  pose proof (@read_without_full_frame Sim.fusion Sim.headers process_initial
                (Replay.on Replay.short_report)
                (Replay.delivering Replay.short_report) 0 H1 H2) as T.
  cbv zeta in T.
  change (hd HidReadError (hid_inputs (Replay.delivering Replay.short_report)))
    with (HidReport Replay.short_report) in T.
  rewrite (proj2 T H3). reflexivity.
Defined.

(** An init frame with timestamp 7 dispatches an INIT event. *)
Lemma read_init_frame_witness :
  (handle (Replay.on Replay.init_frame)
   = Some (Replay.delivering Replay.init_frame) /\
   sizeof_device_imu_packet_type = MAX_PACKET_SIZE /\
   64 <= Z.of_nat (List.length Replay.init_frame) /\
   is_init_signature (device_imu_packet_of_bytes (firstn 64 Replay.init_frame))
   = true) /\
  let '(e, p', _) :=
    device_imu_read_at process_initial (Replay.on Replay.init_frame) 0 in
  e = DEVICE_IMU_ERROR_NO_ERROR /\ events p' = [(7, DEVICE_IMU_EVENT_INIT)].
Proof.
  assert (H1 : handle (Replay.on Replay.init_frame)
               = Some (Replay.delivering Replay.init_frame)) by reflexivity.
  assert (H2 : @sizeof_device_imu_packet_type Sim.headers = MAX_PACKET_SIZE)
    by reflexivity.
  assert (H4 : 64 <= Z.of_nat (List.length Replay.init_frame))
    by (vm_compute; discriminate).
  assert (H5 : is_init_signature
                 (device_imu_packet_of_bytes (firstn 64 Replay.init_frame))
               = true) by reflexivity.
  split; [exact (conj H1 (conj H2 (conj H4 H5))) |].
  pose proof (@read_init_frame Sim.fusion Sim.headers process_initial
                (Replay.on Replay.init_frame)
                (Replay.delivering Replay.init_frame) Replay.init_frame 0
                H1 H2 eq_refl H4 H5) as T.
  cbv zeta in T.
  destruct (device_imu_read_at process_initial (Replay.on Replay.init_frame) 0)
    as [[e p'] d'].
  destruct T as (He & _ & Hev & _).
  split; [exact He | exact Hev].
Defined.

(** A full frame with neither signature. *)
Lemma read_wrong_signature_witness :
  (handle (Replay.on Replay.stray_frame)
   = Some (Replay.delivering Replay.stray_frame) /\
   sizeof_device_imu_packet_type = MAX_PACKET_SIZE /\
   64 <= Z.of_nat (List.length Replay.stray_frame) /\
   is_init_signature (device_imu_packet_of_bytes (firstn 64 Replay.stray_frame))
   = false /\
   is_data_signature (device_imu_packet_of_bytes (firstn 64 Replay.stray_frame))
   = false) /\
  fst (fst (device_imu_read_at process_initial (Replay.on Replay.stray_frame) 0))
  = DEVICE_IMU_ERROR_WRONG_SIGNATURE.
Proof.
  assert (H1 : handle (Replay.on Replay.stray_frame)
               = Some (Replay.delivering Replay.stray_frame)) by reflexivity.
  assert (H2 : @sizeof_device_imu_packet_type Sim.headers = MAX_PACKET_SIZE)
    by reflexivity.
  assert (H4 : 64 <= Z.of_nat (List.length Replay.stray_frame))
    by (vm_compute; discriminate).
  assert (H5 : is_init_signature
                 (device_imu_packet_of_bytes (firstn 64 Replay.stray_frame))
               = false) by reflexivity.
  assert (H6 : is_data_signature
                 (device_imu_packet_of_bytes (firstn 64 Replay.stray_frame))
               = false) by reflexivity.
  split; [exact (conj H1 (conj H2 (conj H4 (conj H5 H6)))) |].
  rewrite (@read_wrong_signature Sim.fusion Sim.headers process_initial
             (Replay.on Replay.stray_frame)
             (Replay.delivering Replay.stray_frame) Replay.stray_frame 0
             H1 H2 eq_refl H4 H5 H6).
  reflexivity.
Defined.

(** One read of a streaming session asks once for 64 bytes. *)
Lemma read_is_one_transfer_witness :
  (handle Replay.streaming = Some Scenario.one_data_frame /\
   sizeof_device_imu_packet_type = MAX_PACKET_SIZE) /\
  exists h',
    handle (snd (device_imu_read_at process_initial Replay.streaming 0))
    = Some h' /\
    hid_requested h' = [64] /\ hid_inputs h' = [] /\ hid_written h' = [].
Proof.
  assert (H1 : handle Replay.streaming = Some Scenario.one_data_frame)
    by reflexivity.
  assert (H2 : @sizeof_device_imu_packet_type Sim.headers = MAX_PACKET_SIZE)
    by reflexivity.
  split; [exact (conj H1 H2) |].
  destruct (@read_is_one_transfer Sim.fusion Sim.headers process_initial
              Replay.streaming Scenario.one_data_frame 0 H1 H2)
    as (h' & Hh & Hreq & Hin & Hwr & _).
  exists h'. split; [exact Hh |]. split; [exact Hreq |].
  split; [exact Hin | exact Hwr].
Defined.

(** The data frame of the scenarios: timestamp one second, raw
    temperature 0. *)
Lemma read_data_frame_effects_witness :
  accepts_data_frame Replay.streaming Scenario.one_data_frame Sim.data_frame /\
  let '(e, _, d') := device_imu_read_at process_initial Replay.streaming 0 in
  (e = DEVICE_IMU_ERROR_NO_ERROR \/ e = DEVICE_IMU_ERROR_INVALID_VALUE) /\
  last_timestamp d' = 1000000000 /\
  temperature_celsius d' = celsius 0.
Proof.
  pose proof (accepts_scenario_data_frame FUSION_IDENTITY_QUATERNION) as H1.
  split; [exact H1 |].
  pose proof (@read_data_frame_effects Sim.fusion Sim.headers process_initial
                Replay.streaming Scenario.one_data_frame Sim.data_frame 0 H1)
    as T.
  cbv zeta in T.
  destruct (device_imu_read_at process_initial Replay.streaming 0)
    as [[e p'] d'].
  destruct T as (He & Hts & Htemp & _).
  split; [exact He |]. split; [exact Hts | exact Htemp].
Defined.

(** The same frame on a session without fusion engine. *)
Lemma read_data_frame_without_engine_witness :
  (accepts_data_frame (Replay.bare_session Scenario.one_data_frame)
                      Scenario.one_data_frame Sim.data_frame /\
   ahrs (Replay.bare_session Scenario.one_data_frame) = None) /\
  let '(e, p', d') :=
    device_imu_read_at process_initial
      (Replay.bare_session Scenario.one_data_frame) 0 in
  e = DEVICE_IMU_ERROR_NO_ERROR /\ ahrs d' = None /\
  events p' = [(1000000000, DEVICE_IMU_EVENT_UPDATE)].
Proof.
  assert (H1 : accepts_data_frame (Replay.bare_session Scenario.one_data_frame)
                                  Scenario.one_data_frame Sim.data_frame).
  { unfold accepts_data_frame.
    split; [reflexivity |]. split; [reflexivity |]. split; [reflexivity |].
    split; [vm_compute; discriminate |]. split; reflexivity. }
  assert (H2 : ahrs (Replay.bare_session Scenario.one_data_frame) = None)
    by reflexivity.
  split; [exact (conj H1 H2) |].
  pose proof (@read_data_frame_without_engine Sim.fusion Sim.headers
                process_initial (Replay.bare_session Scenario.one_data_frame)
                Scenario.one_data_frame Sim.data_frame 0 H1 H2) as T.
  cbv zeta in T.
  destruct (device_imu_read_at process_initial
              (Replay.bare_session Scenario.one_data_frame) 0) as [[e p'] d'].
  destruct T as (He & Ha & Hev).
  split; [exact He |]. split; [exact Ha | exact Hev].
Defined.

(** Two iterations on a transport that delivers a data frame, an empty
    report, a stray frame and two more data frames. *)
Lemma calibrate_adds_single_frame_witness :
  (handle Replay.calibrating = Some Replay.calibration_run /\
   calibration Replay.calibrating = Some default_calibration /\ 0 < 2) /\
  fst (fst (device_imu_calibrate process_initial (Some Replay.calibrating)
              2 true true false)) = DEVICE_IMU_ERROR_NO_ERROR /\
  F32.gtb (F32.div F32.one (F32.of_Z 2)) F32.zero = true /\
  exists c' front frame,
    session_calibration
      (snd (device_imu_calibrate process_initial (Some Replay.calibrating)
              2 true true false)) = Some c' /\
    hid_inputs Replay.calibration_run
    = front ++ HidReport frame
        :: session_inputs
             (snd (device_imu_calibrate process_initial
                     (Some Replay.calibrating) 2 true true false)) /\
    is_data_report (HidReport frame) = true /\
    accelerometerOffset c'
    = FusionVectorAdd (accelerometerOffset default_calibration)
        (FusionVectorMultiplyScalar FUSION_VECTOR_ZERO
           (F32.mul (F32.div F32.one (F32.of_Z 2)) GRAVITY_G)) /\
    gyroscopeOffset c'
    = FusionVectorAdd (gyroscopeOffset default_calibration)
        (FusionVectorMultiplyScalar (frame_gyroscope frame)
           (FusionDegreesToRadians (F32.div F32.one (F32.of_Z 2)))) /\
    noises c' = noises default_calibration.
Proof.
  assert (H0 : handle Replay.calibrating = Some Replay.calibration_run)
    by reflexivity.
  assert (H1 : calibration Replay.calibrating = Some default_calibration)
    by reflexivity.
  assert (H2 : 0 < 2) by lia.
  assert (Hf : F32.gtb (F32.div F32.one (F32.of_Z 2)) F32.zero = true)
    by (vm_compute; reflexivity).
  split; [exact (conj H0 (conj H1 H2)) |].
  pose proof (@calibrate_adds_single_frame Sim.fusion Sim.headers
                process_initial Replay.calibrating Replay.calibration_run
                default_calibration 2 true true false H0 H1 H2) as T.
  cbv zeta in T. rewrite Hf in T. cbn [andb] in T.
  destruct (device_imu_calibrate process_initial (Some Replay.calibrating)
              2 true true false) as [[e p'] d'] eqn:E.
  assert (He : e = DEVICE_IMU_ERROR_NO_ERROR).
  { change e with (fst (fst (e, p', d'))). rewrite <- E.
    vm_compute. reflexivity. }
  cbn [fst snd]. split; [exact He |]. split; [exact Hf |].
  destruct (T He)
    as (c' & front & frame & Hc & Hin & Hd & Ha & Hg & _ & _ & _ & _ & _ & _ & _ & Hn).
  exists c', front, frame. auto 10.
Defined.

(** The same run takes four reports, two of them data frames, and leaves
    the last data frame on the transport. *)
Lemma calibrate_takes_iterations_data_frames_witness :
  (handle Replay.calibrating = Some Replay.calibration_run /\ 0 <= 2) /\
  fst (fst (device_imu_calibrate process_initial (Some Replay.calibrating)
              2 true true false)) = DEVICE_IMU_ERROR_NO_ERROR /\
  exists d' h' consumed,
    snd (device_imu_calibrate process_initial (Some Replay.calibrating)
           2 true true false) = Some d' /\
    handle d' = Some h' /\
    hid_inputs Replay.calibration_run = consumed ++ hid_inputs h' /\
    data_reports consumed = 2.
Proof.
  assert (H1 : handle Replay.calibrating = Some Replay.calibration_run)
    by reflexivity.
  assert (H2 : 0 <= 2) by lia.
  split; [exact (conj H1 H2) |].
  pose proof (@calibrate_takes_iterations_data_frames Sim.fusion Sim.headers
                process_initial Replay.calibrating Replay.calibration_run
                2 true true false H1 H2) as T.
  cbv zeta in T.
  destruct (device_imu_calibrate process_initial (Some Replay.calibrating)
              2 true true false) as [[e p'] d'] eqn:E.
  assert (He : e = DEVICE_IMU_ERROR_NO_ERROR).
  { change e with (fst (fst (e, p', d'))). rewrite <- E.
    vm_compute. reflexivity. }
  cbn [fst snd]. split; [exact He |].
  destruct (T He) as (d0 & h' & consumed & Hd & Hh & Hin & Hcount & _).
  exists d0, h', consumed. auto.
Defined.

(** An enumeration whose first IMU interface cannot be opened and whose
    second one could. *)
Lemma open_tries_first_matching_interface_only_witness :
  (device_init Replay.busy_first = true /\
   hid_enumerate Replay.busy_first xreal_vendor_id 0
   = [mkHidInfo 0x0424 0 None] ++ mkHidInfo 0x0424 3 None
       :: [mkHidInfo 0x0428 3 (Some Scenario.accept_one)] /\
   forallb (fun j => negb (imu_interface_matches j)) [mkHidInfo 0x0424 0 None]
   = true /\
   imu_interface_matches (mkHidInfo 0x0424 3 None) = true /\
   path_opens (mkHidInfo 0x0424 3 None) = None /\
   imu_interface_matches (mkHidInfo 0x0428 3 (Some Scenario.accept_one)) = true) /\
  let '(e, p', d') :=
    device_imu_open_at Replay.busy_first process_initial true in
  e = DEVICE_IMU_ERROR_NO_HANDLE /\ p' = process_initial /\
  product_id d' = 0x0424 /\ handle d' = None /\ calibration d' = None.
Proof.
  assert (H1 : device_init Replay.busy_first = true) by reflexivity.
  assert (H2 : hid_enumerate Replay.busy_first (@xreal_vendor_id Sim.headers) 0
               = [mkHidInfo 0x0424 0 None] ++ mkHidInfo 0x0424 3 None
                   :: [mkHidInfo 0x0428 3 (Some Scenario.accept_one)])
    by reflexivity.
  assert (H3 : forallb (fun j => negb (@imu_interface_matches Sim.headers j))
                       [mkHidInfo 0x0424 0 None] = true) by reflexivity.
  assert (H4 : @imu_interface_matches Sim.headers (mkHidInfo 0x0424 3 None) = true)
    by reflexivity.
  assert (H5 : path_opens (mkHidInfo 0x0424 3 None) = None) by reflexivity.
  assert (H6 : @imu_interface_matches Sim.headers
                 (mkHidInfo 0x0428 3 (Some Scenario.accept_one)) = true)
    by reflexivity.
  split; [exact (conj H1 (conj H2 (conj H3 (conj H4 (conj H5 H6))))) |].
  exact (@open_tries_first_matching_interface_only
           Sim.fusion Sim.headers Sim.no_documents
           Replay.busy_first process_initial true
           [mkHidInfo 0x0424 0 None]
           [mkHidInfo 0x0428 3 (Some Scenario.accept_one)]
           (mkHidInfo 0x0424 3 None) H1 H2 H3 H4 H5).
Defined.


(** An announced length of 0xFFFFFFFF is what the bound excludes. *)
Lemma announced_all_ones_does_not_fit :
  calibration_block_fits (Sim.environment Replay.announces_all_ones)
                         process_initial true = false.
Proof. vm_compute. reflexivity. Qed.

(** A device that answers the whole exchange: seven requests, three of
    them for a calibration segment. *)
Lemma open_request_sequence_witness :
  fst (fst (device_imu_open_at (Sim.environment Replay.whole_exchange)
              process_initial true)) = DEVICE_IMU_ERROR_NO_ERROR /\
  exists h k,
    first_imu_handle
      (hid_enumerate (Sim.environment Replay.whole_exchange) xreal_vendor_id 0)
    = Some h /\
    session_written
      (snd (device_imu_open_at (Sim.environment Replay.whole_exchange)
              process_initial true))
    = hid_written h ++ open_requests k /\
    List.length
      (session_written
         (snd (device_imu_open_at (Sim.environment Replay.whole_exchange)
                 process_initial true))) = 7%nat.
Proof.
  pose proof (@open_request_sequence Sim.fusion Sim.headers Sim.no_documents
                (Sim.environment Replay.whole_exchange) process_initial true)
    as T.
  assert (Hlen : List.length
                   (session_written
                      (snd (device_imu_open_at
                              (Sim.environment Replay.whole_exchange)
                              process_initial true))) = 7%nat)
    by (vm_compute; reflexivity).
  destruct (device_imu_open_at (Sim.environment Replay.whole_exchange)
              process_initial true) as [[e p'] d'] eqn:E.
  assert (He : e = DEVICE_IMU_ERROR_NO_ERROR).
  { change e with (fst (fst (e, p', d'))). rewrite <- E.
    vm_compute. reflexivity. }
  cbn [fst snd] in *. split; [exact He |].
  destruct (T He) as (h & k & Hh & Hw).
  exists h, k. auto.
Defined.

(** A file of three bytes loaded over the default record. *)
Lemma load_short_file_still_overwrites_witness :
  (calibration (HostLayout.session_with default_calibration)
   = Some default_calibration /\
   fopen_result (HostLayout.files (Some [1; 2; 3]) 0 0) = Some [1; 2; 3] /\
   (List.length [1; 2; 3] < sizeof_device_imu_calibration_type)%nat) /\
  let '(e, device') :=
    device_imu_load_calibration (HostLayout.files (Some [1; 2; 3]) 0 0)
      (Some (HostLayout.session_with default_calibration)) in
  (e = DEVICE_IMU_ERROR_LOADING_FAILED \/ e = DEVICE_IMU_ERROR_FILE_NOT_CLOSED) /\
  device'
  = Some (set_calibration (HostLayout.session_with default_calibration)
            (Some (calibration_of_bytes
                     ([1; 2; 3]
                      ++ skipn 3 (calibration_bytes default_calibration))))).
Proof.
  assert (H1 : calibration (HostLayout.session_with default_calibration)
               = Some default_calibration) by reflexivity.
  assert (H2 : fopen_result (HostLayout.files (Some [1; 2; 3]) 0 0)
               = Some [1; 2; 3]) by reflexivity.
  assert (H3 : (List.length [1; 2; 3]
                < @sizeof_device_imu_calibration_type HostLayout.layout)%nat)
    by (cbn; lia).
  split; [exact (conj H1 (conj H2 H3)) |].
  exact (@load_short_file_still_overwrites Sim.fusion HostLayout.layout
           (HostLayout.files (Some [1; 2; 3]) 0 0)
           (HostLayout.session_with default_calibration)
           default_calibration [1; 2; 3] H1 H2 H3).
Defined.

(** A file holding the bytes of the measured record, loaded over the
    defaults. *)
Lemma load_succeeds_iff_witness :
  (calibration (HostLayout.session_with default_calibration)
   = Some default_calibration /\
   fopen_result
     (HostLayout.files (Some (HostLayout.record_bytes HostLayout.measured)) 0 0)
   = Some (HostLayout.record_bytes HostLayout.measured)) /\
  fst (device_imu_load_calibration
         (HostLayout.files (Some (HostLayout.record_bytes HostLayout.measured)) 0 0)
         (Some (HostLayout.session_with default_calibration)))
  = DEVICE_IMU_ERROR_NO_ERROR /\
  option_map calibration
    (snd (device_imu_load_calibration
            (HostLayout.files (Some (HostLayout.record_bytes HostLayout.measured))
                              0 0)
            (Some (HostLayout.session_with default_calibration))))
  = Some (Some HostLayout.measured).
Proof.
  assert (H1 : calibration (HostLayout.session_with default_calibration)
               = Some default_calibration) by reflexivity.
  assert (H2 : fopen_result
                 (HostLayout.files
                    (Some (HostLayout.record_bytes HostLayout.measured)) 0 0)
               = Some (HostLayout.record_bytes HostLayout.measured))
    by reflexivity.
  split; [exact (conj H1 H2) |].
  pose proof (@load_succeeds_iff Sim.fusion HostLayout.layout
                (HostLayout.files
                   (Some (HostLayout.record_bytes HostLayout.measured)) 0 0)
                (HostLayout.session_with default_calibration)
                default_calibration
                (HostLayout.record_bytes HostLayout.measured) H1 H2) as T.
  cbv zeta in T.
  destruct (device_imu_load_calibration _ _) as [e device'].
  destruct T as (Hiff & _ & Hrec).
  assert (He : e = DEVICE_IMU_ERROR_NO_ERROR).
  { apply Hiff. split; [vm_compute; repeat constructor | reflexivity]. }
  cbn [fst snd]. split; [exact He |].
  rewrite (Hrec He). cbn [option_map calibration set_calibration].
  assert (R : HostLayout.record_of_bytes
                (firstn 244 (HostLayout.record_bytes HostLayout.measured))
              = HostLayout.measured) by (vm_compute; reflexivity).
  exact (f_equal (fun c => Some (Some c)) R).
Defined.

(** A stream that takes 100 bytes of the 244. *)
Lemma save_succeeds_iff_witness :
  (calibration (HostLayout.session_with HostLayout.measured)
   = Some HostLayout.measured /\
   fopen_write (HostLayout.files None 100 0) = true) /\
  let '(e, out) :=
    device_imu_save_calibration (HostLayout.files None 100 0)
      (Some (HostLayout.session_with HostLayout.measured)) in
  e = DEVICE_IMU_ERROR_SAVING_FAILED /\
  out = Some (firstn 100 (calibration_bytes HostLayout.measured)).
Proof.
  assert (H1 : calibration (HostLayout.session_with HostLayout.measured)
               = Some HostLayout.measured) by reflexivity.
  assert (H2 : fopen_write (HostLayout.files None 100 0) = true) by reflexivity.
  split; [exact (conj H1 H2) |].
  pose proof (@save_succeeds_iff Sim.fusion HostLayout.layout
                (HostLayout.files None 100 0)
                (HostLayout.session_with HostLayout.measured)
                HostLayout.measured H1 H2) as T.
  cbv zeta in T.
  destruct (device_imu_save_calibration _ _) as [e out] eqn:E.
  destruct T as (_ & _ & _ & Hout & _).
  split; [| exact (Hout eq_refl)].
  change e with (fst (e, out)). rewrite <- E. vm_compute. reflexivity.
Defined.

(** The measured record saved from one session and loaded into a session
    that held the defaults. *)
Lemma save_then_load_witness :
  (calibration (HostLayout.session_with HostLayout.measured)
   = Some HostLayout.measured /\
   calibration (HostLayout.session_with default_calibration)
   = Some default_calibration /\
   fst (device_imu_save_calibration (HostLayout.files None 244 0)
          (Some (HostLayout.session_with HostLayout.measured)))
   = DEVICE_IMU_ERROR_NO_ERROR /\
   fopen_result
     (HostLayout.files (Some (HostLayout.record_bytes HostLayout.measured)) 0 0)
   = snd (device_imu_save_calibration (HostLayout.files None 244 0)
            (Some (HostLayout.session_with HostLayout.measured))) /\
   fclose_result
     (HostLayout.files (Some (HostLayout.record_bytes HostLayout.measured)) 0 0)
   = 0) /\
  fst (device_imu_load_calibration
         (HostLayout.files (Some (HostLayout.record_bytes HostLayout.measured)) 0 0)
         (Some (HostLayout.session_with default_calibration)))
  = DEVICE_IMU_ERROR_NO_ERROR /\
  option_map calibration
    (snd (device_imu_load_calibration
            (HostLayout.files (Some (HostLayout.record_bytes HostLayout.measured))
                              0 0)
            (Some (HostLayout.session_with default_calibration))))
  = Some (Some HostLayout.measured).
Proof.
  assert (H1 : calibration (HostLayout.session_with HostLayout.measured)
               = Some HostLayout.measured) by reflexivity.
  assert (H2 : calibration (HostLayout.session_with default_calibration)
               = Some default_calibration) by reflexivity.
  assert (H3 : fst (device_imu_save_calibration (HostLayout.files None 244 0)
                      (Some (HostLayout.session_with HostLayout.measured)))
               = DEVICE_IMU_ERROR_NO_ERROR) by (vm_compute; reflexivity).
  assert (H4 : fopen_result
                 (HostLayout.files
                    (Some (HostLayout.record_bytes HostLayout.measured)) 0 0)
               = snd (device_imu_save_calibration (HostLayout.files None 244 0)
                        (Some (HostLayout.session_with HostLayout.measured))))
    by (vm_compute; reflexivity).
  assert (H5 : fclose_result
                 (HostLayout.files
                    (Some (HostLayout.record_bytes HostLayout.measured)) 0 0)
               = 0) by reflexivity.
  split; [exact (conj H1 (conj H2 (conj H3 (conj H4 H5)))) |].
  rewrite (@save_then_load Sim.fusion HostLayout.layout
             (HostLayout.files None 244 0)
             (HostLayout.files
                (Some (HostLayout.record_bytes HostLayout.measured)) 0 0)
             (HostLayout.session_with HostLayout.measured)
             (HostLayout.session_with default_calibration)
             HostLayout.measured default_calibration H1 H2 H3 H4 H5).
  cbn [fst snd option_map calibration set_calibration].
  split; [reflexivity |].
  assert (R : HostLayout.record_of_bytes
                (HostLayout.record_bytes HostLayout.measured)
              = HostLayout.measured) by (vm_compute; reflexivity).
  exact (f_equal (fun c => Some (Some c)) R).
Defined.

(** The data frame of the scenarios has a magnetometer divisor of zero. *)
Lemma readIMU_zero_divisor_witness :
  pack32bit_signed_swap
    (magnetic_divisor (device_imu_packet_of_bytes (firstn 64 Sim.data_frame)))
  = 0 /\
  nowhere_finite
    (snd (readIMU_from_packet
            (device_imu_packet_of_bytes (firstn 64 Sim.data_frame)))) = true.
Proof.
  assert (H : pack32bit_signed_swap
                (magnetic_divisor
                   (device_imu_packet_of_bytes (firstn 64 Sim.data_frame)))
              = 0) by reflexivity.
  split; [exact H |].
  pose proof (readIMU_zero_divisor
                (device_imu_packet_of_bytes (firstn 64 Sim.data_frame))) as T.
  destruct (readIMU_from_packet _) as [[g a] m].
  exact (proj2 (proj2 T) H).
Defined.
